(** * The RFI document pipeline of [legal-rfi-assistant/code/streamlit-app/app.py]

    A shallow embedding of the question-extraction and answer-retrieval
    pipeline: [get_questions], [get_answer], [run_chunk_document],
    [update_document_status], [process_message], [create_word_document] and
    the "Process Document" branch of [display_upload_tab].

    The Python code talks to managed services (Textract, Bedrock, DynamoDB)
    and to the Streamlit page.  Those are modelled as an environment of
    oracles that answer each call from the history of the run so far, and every
    call is recorded in a trace, so that statements about which calls were made,
    in which order and how often, are statements about that trace.  Python
    exceptions are values of [exn]; a computation returns the state it reached
    together with either its result or the exception that left it. *)

From stdpp Require Import gmap strings list pretty.
From Equations Require Import Equations.

(** ** Python strings *)

Module PyStr.

(** The newline character of the separator in [split("\n\n")]. *)
Definition nl : string := String (Ascii.ascii_of_nat 10) EmptyString.

(** [s.startswith(p)] *)
Definition startswith (s p : string) : bool := String.prefix p s.

(** [sub in s] *)
Fixpoint contains (sub s : string) : bool :=
  String.prefix sub s ||
  match s with
  | EmptyString => false
  | String _ s' => contains sub s'
  end.

(** [s.strip()] is only ever compared with the empty string in the source;
    [is_blank s] is [s.strip() == ""] for the ASCII white space characters. *)
Definition is_space (c : Ascii.ascii) : bool :=
  let n := Ascii.nat_of_ascii c in
  ((n =? 32) || ((9 <=? n) && (n <=? 13)) || ((28 <=? n) && (n <=? 31)))%nat.

Fixpoint is_blank (s : string) : bool :=
  match s with
  | EmptyString => true
  | String c s' => is_space c && is_blank s'
  end.

(** [s.split(sep)] for a non-empty separator: the text is scanned from the
    left, every occurrence of [sep] that does not overlap an earlier one ends
    a segment.  [skip] counts the characters of a matched separator still to
    be passed over, [cur] is the segment being collected. *)
Fixpoint split_go (sep : string) (skip : nat) (cur : string) (s : string)
  : list string :=
  match s with
  | EmptyString => [cur]
  | String c s' =>
      match skip with
      | S k => split_go sep k cur s'
      | O =>
          if String.prefix sep s
          then cur :: split_go sep (String.length sep - 1) EmptyString s'
          else split_go sep 0 (cur +:+ String c EmptyString) s'
      end
  end.

Definition split (sep s : string) : list string := split_go sep 0 EmptyString s.

(** [str(n)] for a non-negative integer. *)
Definition str_nat (n : nat) : string := pretty n.

(** ["_" * n] *)
Fixpoint repeat_str (s : string) (n : nat) : string :=
  match n with
  | O => EmptyString
  | S k => s +:+ repeat_str s k
  end.

End PyStr.

(** ** Exceptions and the state-and-exception monad *)

(** The subclasses of Python's [Exception] that the pipeline can meet.  The
    source tells them apart in one place only: [get_questions] logs a
    [ClientError] before raising it again; every other handler is
    [except Exception]. *)
Inductive exn : Type :=
| ClientError (msg : string)          (* botocore.exceptions.ClientError *)
| KeyError (key : string)             (* d[k] with k absent *)
| IndexError                          (* l[i] out of range *)
| ChunkingError (msg : string)        (* the specification's chunker failure *)
| OtherException (cls msg : string).  (* any other subclass of Exception *)

(** [str(e)] *)
Definition str_exn (e : exn) : string :=
  match e with
  | ClientError msg => msg
  | KeyError key => "'" +:+ key +:+ "'"
  | IndexError => "list index out of range"
  | ChunkingError msg => msg
  | OtherException _ msg => msg
  end.

Definition is_ClientError (e : exn) : bool :=
  match e with ClientError _ => true | _ => false end.

(** A computation over a state [S]: it returns the state it reached and
    either a value or the exception that ended it.  As in Python, what was
    done to the state before an exception stays done. *)
Definition M (S A : Type) : Type := S -> S * (exn + A).

Definition ret {S A} (a : A) : M S A := fun s => (s, inr a).

Definition raise {S A} (e : exn) : M S A := fun s => (s, inl e).

Definition bind {S A B} (m : M S A) (k : A -> M S B) : M S B :=
  fun s =>
    match m s with
    | (s', inr a) => k a s'
    | (s', inl e) => (s', inl e)
    end.

(** [try: body  except Exception as e: handler e] *)
Definition try_except {S A} (body : M S A) (handler : exn -> M S A) : M S A :=
  fun s =>
    match body s with
    | (s', inl e) => handler e s'
    | (s', inr a) => (s', inr a)
    end.

(** A pure step that may raise ([d[k]], [l[i]]). *)
Definition lift_exn {S A} (r : exn + A) : M S A := fun s => (s, r).

Declare Scope py_scope.
Delimit Scope py_scope with py.
Notation "x <- m ;; k" := (bind m (fun x => k))
  (at level 100, m at next level, k at level 200, right associativity) : py_scope.
Notation "m ;; k" := (bind m (fun _ => k))
  (at level 100, k at level 200, right associativity) : py_scope.
Local Open Scope py_scope.

(** [for x in l: acc = body acc x], leaving at the first exception. *)
Fixpoint for_each {S A B} (body : B -> A -> M S B) (l : list A) (acc : B) : M S B :=
  match l with
  | [] => ret acc
  | x :: rest => acc' <- body acc x ;; for_each body rest acc'
  end.

(** A local variable [L] next to the world [W]: the world's steps and the
    variable's updates run in the product state; [scope] opens the variable
    with its initial value and hands back its final value. *)
Definition world {W L A} (m : M W A) : M (W * L) A :=
  fun wl => let '(w', r) := m wl.1 in ((w', wl.2), r).

Definition update {W L} (f : L -> L) : M (W * L) unit :=
  fun wl => ((wl.1, f wl.2), inr tt).

Definition scope {W L A} (init : L) (m : M (W * L) A) : M W L :=
  fun w =>
    match m (w, init) with
    | ((w', l), inr _) => (w', inr l)
    | ((w', _), inl e) => (w', inl e)
    end.

(** [l[i]] and [d[k]] on the parts of a response that may be absent. *)
Definition getitem_index {A} (l : list A) (i : nat) : exn + A :=
  match l !! i with
  | Some x => inr x
  | None => inl IndexError
  end.

Definition getitem_key {A} (key : string) (field : option A) : exn + A :=
  match field with
  | Some x => inr x
  | None => inl (KeyError key)
  end.

(** ** Data model *)

(** The status strings written to the documents table: the constructor
    stands for the string of its name. *)
Inductive Status : Type := UPLOADED | PROCESSING | COMPLETED | ERROR.

Definition status_name (st : Status) : string :=
  match st with
  | UPLOADED => "UPLOADED"
  | PROCESSING => "PROCESSING"
  | COMPLETED => "COMPLETED"
  | ERROR => "ERROR"
  end.

Definition terminal (st : Status) : bool :=
  match st with
  | COMPLETED | ERROR => true
  | UPLOADED | PROCESSING => false
  end.

(** The two [metadata] dicts that [run_chunk_document] builds. *)
Inductive Metadata : Type :=
| RunStats (chunks_processed total_chunks answers_found : nat)
| ErrorInfo (error_message : string).

(** An item of the DynamoDB table [rfi-document-processor]. *)
Record Item : Type := mkItem {
  item_document_id : string;
  item_file_name : string;
  item_s3_url : string;
  item_status : Status;
  item_timestamp : string;
  item_username : option string;
  item_metadata : option Metadata
}.

(** The answer dict of [get_answer]: it is created with the keys
    ["question"] and ["answer"]; ["metadata"] is added by assignment. *)
Record Answer : Type := mkAnswer {
  question : string;
  answer : string;
  metadata : option string
}.

Definition set_question (v : string) (a : Answer) : Answer :=
  mkAnswer v (answer a) (metadata a).
Definition set_answer (v : string) (a : Answer) : Answer :=
  mkAnswer (question a) v (metadata a).
Definition set_metadata (v : string) (a : Answer) : Answer :=
  mkAnswer (question a) (answer a) (Some v).

(** The body of the [invoke_model] request and the parsed response body. *)
Record ModelRequest : Type := mkModelRequest {
  modelId : string;
  anthropic_version : string;
  max_tokens : nat;
  temperature : Z;
  prompt : string
}.

Record ContentBlock : Type := mkContentBlock {
  block_type : string;
  block_text : option string       (* absent in a block that is not text *)
}.

Record ModelResult : Type := mkModelResult {
  content : option (list ContentBlock)
}.

(** The [retrieve_and_generate] request and response. *)
Record RetrieveRequest : Type := mkRetrieveRequest {
  input_text : string;
  knowledgeBaseId : string;
  modelArn : string;
  numberOfResults : nat;
  overrideSearchType : string;
  textPromptTemplate : string;
  maxTokens : nat;
  stopSequences : list string;
  rg_temperature : Z;
  topP : Z
}.

Record S3Location : Type := mkS3Location { uri : string }.

Record Location : Type := mkLocation {
  s3Location : option S3Location   (* absent for a source that is not S3 *)
}.

Record RetrievedReference : Type := mkRetrievedReference { location : Location }.

Record Citation : Type := mkCitation {
  retrievedReferences : list RetrievedReference
}.

Record RetrieveResponse : Type := mkRetrieveResponse {
  output_text : string;            (* response["output"]["text"] *)
  citations : list Citation
}.

(** A chunk is a window of tokens of the document's text; a token is the
    piece of text it stands for. *)
Definition Token : Type := string.
Definition Chunk : Type := list Token.

(** What the f-string of [get_questions] puts into the prompt for a
    chunk: here the text of its tokens. *)
Definition chunk_text (c : Chunk) : string := String.concat "" c.

(** ** The world: Streamlit session, external services and their trace *)

Record UserInfo : Type := mkUserInfo { ui_username : option string }.

(** The keys of [st.session_state] that the pipeline reads or writes. *)
Record Session : Type := mkSession {
  user_info : option UserInfo;
  file_name : string;
  processed_results : list Answer
}.

(** Every call that leaves the process, and every message put on the page. *)
Inductive event : Type :=
| PutItem (item : Item) (stored : bool)      (* dynamodb_client.put_item *)
| LoadAndSplit (docurl : string)             (* AmazonTextractPDFLoader *)
| InvokeModel (req : ModelRequest)           (* bedrock_client.invoke_model *)
| RetrieveAndGenerate (req : RetrieveRequest)(* client.retrieve_and_generate *)
| StError (msg : string)                     (* st.error *)
| StInfo (msg : string)                      (* st.info *)
| StSuccess (msg : string).                  (* st.success *)

(** The services' side of the conversation.  Each oracle sees the trace
    of the run up to the call, so the same request may be answered
    differently at different times. *)
Record Env : Type := mkEnv {
  KNOWLEDGE_BASE_ID : option string;         (* os.environ *)
  now_isoformat : list event -> string;      (* datetime.now().isoformat() *)
  put_item : list event -> Item -> option exn;   (* None: the item was stored *)
  load_and_split : list event -> string -> exn + list Token;
  (* TokenTextSplitter(chunk_size, chunk_overlap).split_documents(documents):
     a library of the process, hence a function of its arguments alone *)
  split_documents : nat -> nat -> list Token -> exn + list Chunk;
  invoke_model : list event -> ModelRequest -> exn + ModelResult;
  retrieve_and_generate : list event -> RetrieveRequest -> exn + RetrieveResponse
}.

Record State : Type := mkState {
  trace : list event;                        (* oldest first *)
  table : gmap string Item;                  (* the documents table *)
  session : Session
}.

Definition log (e : event) : M State unit :=
  fun s => (mkState (trace s ++ [e]) (table s) (session s), inr tt).

(** A call to a service: it is recorded, and answered from the history. *)
Definition call {A} (e : event) (oracle : list event -> exn + A) : M State A :=
  fun s => (mkState (trace s ++ [e]) (table s) (session s), oracle (trace s)).

Definition get_session : M State Session := fun s => (s, inr (session s)).

Definition st_error (msg : string) : M State unit := log (StError msg).
Definition st_info (msg : string) : M State unit := log (StInfo msg).
Definition st_success (msg : string) : M State unit := log (StSuccess msg).

(** ** The pipeline *)

Record Message : Type := mkMessage {
  user_message : string;
  bot_message : list Answer;
  docs : list Answer
}.

(** What [if output:] accepts: a string that is not empty ([None] when
    [get_questions] falls off the end of its loop). *)
Definition truthy (output : option string) : bool :=
  match output with
  | Some (String _ _) => true
  | _ => false
  end.

(** [except ClientError as err:] catches that class only. *)
Definition try_except_ClientError {S A} (body : M S A) (handler : exn -> M S A) : M S A :=
  fun s =>
    match body s with
    | (s', inl e) => if is_ClientError e then handler e s' else (s', inl e)
    | (s', inr a) => (s', inr a)
    end.

Definition questions_prompt (document_chunk : Chunk) : string :=
  " You are business person working on request of information requests.
    Your Job is to extract questions that meet the criteria in <instructions></instructions>.
    

    <document>
    " +:+ chunk_text document_chunk +:+ "
    </document>             

    <instructions>
    The document contains multiple sections.
    The document contains a list of questions and subquestions that are marked with numbers and letters.
    Ignore the page number infront of the questions.
    Ignore Guidance.
    Ignore penalties.
    Ignore Warnings.
    Ignore Non-compliance with this notice. 
    Ignore Intentional obstruction or delay.
    Ignore instructions.
    Ignore Definitions and interpretations.
    </instructions>
    ".

Definition promptTemplate : string :=
  " Human: You are business person working on answering request of information requests. 
    Your Job is to extract answers that meet the criteria in <instructions></instructions> from the $search_results$ which contains numbered answers to questions. Extract the responses, keeping the numbers intact, and put each numbered response on a new line.

    Here are the search results in numbered order:
    $search_results$

    $output_format_instructions$

    <instructions> 
    Look for the exact match to that question or subquestions and provide all the answers and using the existing content as is and keep original text intact 
    When you find the exact match then the answeres will start with same number of the questions.
    Ensure to Provide all the answers that starts with same question number.
    Ignore the references in the end of the page which alwayes start with number then See the the url.
    Dont include the question as part of the result. 
    Include the answer number.
    </instructions>
    
    ".

(** The five phrases of the condition of [get_answer], in its order. *)
Definition negative_phrases : list string :=
  [ "Sorry, I am unable";
    "The search results do not contain";
    "No answer";
    "I could not find";
    "there is no relevant information to extract for this question" ].

(** [p1 not in t and p2 not in t and ...] *)
Definition no_negative_phrase (response_answer : string) : bool :=
  forallb (fun p => negb (PyStr.contains p response_answer)) negative_phrases.

Definition model_request (document_chunk : Chunk) : ModelRequest :=
  mkModelRequest "anthropic.claude-3-sonnet-20240229-v1:0" "bedrock-2023-05-31"
    3200 0 (questions_prompt document_chunk).

Section Pipeline.

Variable env : Env.

(** [dynamodb_client.put_item(TableName=DOCUMENTS_TABLE, Item=item)] *)
Definition dynamodb_put_item (item : Item) : M State unit :=
  fun s =>
    match put_item env (trace s) item with
    | None =>
        (mkState (trace s ++ [PutItem item true])
                 (<[item_document_id item := item]> (table s)) (session s), inr tt)
    | Some e =>
        (mkState (trace s ++ [PutItem item false]) (table s) (session s), inl e)
    end.

(** [if metadata:] holds for both dicts of [Metadata], which are never
    empty, and fails for [None]: the item carries the metadata it was given. *)
Definition update_document_status (document_id file_name s3_url : string)
    (status : Status) (metadata : option Metadata) : M State bool :=
  fun s =>
    let timestamp := now_isoformat env (trace s) in
    let item :=
      mkItem document_id file_name s3_url status timestamp
        (match user_info (session s) with
         | Some ui => Some (default "unknown" (ui_username ui))
         | None => None
         end)
        metadata in
    try_except
      (dynamodb_put_item item ;; ret true)
      (fun e =>
         st_error ("Failed to update document status in DynamoDB: " +:+ str_exn e) ;;
         ret false) s.

Definition get_questions (document_chunk : Chunk) : M State (option string) :=
  let request_body := model_request document_chunk in
  try_except_ClientError
    (result <- call (InvokeModel request_body)
                 (fun h => invoke_model env h request_body) ;;
     let output_list := default [] (content result) in
     (* for output in output_list: both branches of the body return *)
     match output_list with
     | output :: _ =>
         text <- lift_exn (getitem_key "text" (block_text output)) ;;
         if negb (PyStr.startswith text "Unfortunately")
         then ret (Some text)
         else ret (Some "")
     | [] => ret None
     end)
    (fun err =>
       st_error ("Error invoking Claude model: " +:+ str_exn err) ;;
       raise err).

Definition retrieve_request (llm_generated_question : string) : RetrieveRequest :=
  mkRetrieveRequest llm_generated_question
    (default "ZINMEUUJPQ" (KNOWLEDGE_BASE_ID env))
    "arn:aws:bedrock:us-west-2::foundation-model/anthropic.claude-3-haiku-20240307-v1:0"
    5 "SEMANTIC" promptTemplate 4000 ["Observation"] 0 1.

(** The body of the loop of [get_answer] up to [answers.append(answer)]:
    the [try] block and its handler, run on the local dict [answer].  The
    [print] of the response goes to the standard output and is left out. *)
Definition resolve_question (llm_generated_question : string) : M State Answer :=
  scope (mkAnswer "" "" None)
    (try_except
       (response <- world (call (RetrieveAndGenerate (retrieve_request llm_generated_question))
                             (fun h => retrieve_and_generate env h
                                         (retrieve_request llm_generated_question))) ;;
        let response_answer := output_text response in
        update (set_question llm_generated_question) ;;
        if no_negative_phrase response_answer then
          update (set_answer ("Answer: " +:+ response_answer)) ;;
          citation <- lift_exn (getitem_index (citations response) 0) ;;
          if (0 <? length (retrievedReferences citation))%nat then
            reference <- lift_exn (getitem_index (retrievedReferences citation) 0) ;;
            s3 <- lift_exn (getitem_key "s3Location" (s3Location (location reference))) ;;
            update (set_metadata ("url: " +:+ uri s3))
          else
            update (set_metadata " ")
        else
          update (set_answer " ") ;;
          update (set_metadata " "))
       (fun e =>
          world (st_error ("Error during API call: " +:+ str_exn e)) ;;
          update (set_answer "Error: Unable to process the question.") ;;
          update (set_metadata " "))).

Definition get_answer (questions : string) : M State (list Answer) :=
  let llm_generated_questions_array := PyStr.split (PyStr.nl +:+ PyStr.nl) questions in
  for_each
    (fun answers llm_generated_question =>
       answer <- resolve_question llm_generated_question ;;
       ret (answers ++ [answer])%list)
    (tail llm_generated_questions_array) [].

(** The [for] loop of [run_chunk_document], with its two accumulators and
    its [break].  The progress bar is left out. *)
Fixpoint chunk_loop (max_chunks : nat) (chunks : list Chunk)
    (questionandanswer : list Answer) (counter : nat) : M State (list Answer * nat) :=
  match chunks with
  | [] => ret (questionandanswer, counter)
  | document_chunk :: rest =>
      output <- get_questions document_chunk ;;
      questionandanswer <-
        (if truthy output
         then result <- get_answer (default "" output) ;;
              ret (questionandanswer ++ result)%list
         else ret questionandanswer) ;;
      let counter := counter + 1 in
      if (max_chunks <=? counter)%nat
      then ret (questionandanswer, counter)
      else chunk_loop max_chunks rest questionandanswer counter
  end.

(** Lines 496 to 510 of [run_chunk_document]: the report is handed to
    [process_message] and the run is marked as completed. *)
Definition run_chunk_document_report (process_message : Message -> M State unit)
    (docurl document_id : string) (max_chunks : nat)
    (questionandanswer : list Answer) (counter : nat) : M State unit :=
  process_message (mkMessage "" questionandanswer questionandanswer) ;;
  let metadata := RunStats counter max_chunks (length questionandanswer) in
  sess <- get_session ;;
  update_document_status document_id (file_name sess) docurl COMPLETED (Some metadata) ;;
  ret tt.

(** The [except Exception as e:] block of [run_chunk_document]. *)
Definition run_chunk_document_except (docurl document_id : string) (e : exn)
  : M State unit :=
  st_error ("An error occurred in run_chunk_document: " +:+ str_exn e) ;;
  sess <- get_session ;;
  update_document_status document_id (file_name sess) docurl ERROR
    (Some (ErrorInfo (str_exn e))) ;;
  ret tt.

(** The two imports at the head of the [try] block are taken to
    succeed; the spinner is left out. *)
Definition run_chunk_document (process_message : Message -> M State unit)
    (docurl document_id : string) : M State unit :=
  try_except
    (sess <- get_session ;;
     update_document_status document_id (file_name sess) docurl PROCESSING None ;;
     documents <- call (LoadAndSplit docurl) (fun h => load_and_split env h docurl) ;;
     split_docs <- lift_exn (split_documents env 1000 0 documents) ;;
     st_info ("Document processed into " +:+ PyStr.str_nat (length split_docs)
              +:+ " text chunks") ;;
     let max_chunks := length split_docs in
     qc <- chunk_loop max_chunks (take max_chunks split_docs) [] 0 ;;
     run_chunk_document_report process_message docurl document_id max_chunks qc.1 qc.2)
    (run_chunk_document_except docurl document_id).

Definition process_message (message : Message) : M State unit :=
  fun s =>
    (mkState (trace s) (table s)
       (mkSession (user_info (session s)) (file_name (session s)) (bot_message message)),
     inr tt).

Definition set_file_name (name : string) : M State unit :=
  fun s =>
    (mkState (trace s) (table s)
       (mkSession (user_info (session s)) name (processed_results (session s))),
     inr tt).

(** The "Process Document" branch of [display_upload_tab], after the button
    was pressed: [s3_url] is what [upload_to_s3] returned.  The session keys
    [document_id] and [uploaded_file_url], which the pipeline never reads, are
    left out. *)
Definition display_upload_tab (uploaded_file_name document_id : string)
    (s3_url : option string) : M State unit :=
  set_file_name uploaded_file_name ;;
  match s3_url with
  | Some url =>
      st_success ("File uploaded successfully to " +:+ url) ;;
      update_document_status document_id uploaded_file_name url UPLOADED None ;;
      run_chunk_document process_message url document_id ;;
      st_success "Document processed successfully!"
  | None => st_error "Failed to upload the document."
  end.

End Pipeline.

(** ** The exported Word document *)

(** What [python-docx] is asked to build: a sequence of paragraphs, each with
    a style, runs of text and an alignment. *)
Inductive Alignment : Type := CENTER.

Record Run : Type := mkRun {
  run_text : string;
  bold : bool;
  italic : bool;
  rgb : option (nat * nat * nat)
}.

Record Paragraph : Type := mkParagraph {
  style : string;
  runs : list Run;
  alignment : option Alignment
}.

Definition Docx : Type := list Paragraph.

(** [doc.add_paragraph(text)]: a run is added only for a non-empty text. *)
Definition add_paragraph (text : string) : Paragraph :=
  mkParagraph "Normal"
    (match text with
     | EmptyString => []
     | _ => [mkRun text false false None]
     end) None.

(** [doc.add_heading(text, level)] *)
Definition add_heading (text : string) (level : nat) : Paragraph :=
  mkParagraph
    (match level with
     | O => "Title"
     | _ => "Heading " +:+ PyStr.str_nat level
     end)
    (runs (add_paragraph text)) None.

Definition centered (p : Paragraph) : Paragraph :=
  mkParagraph (style p) (runs p) (Some CENTER).

(** [for run in p.runs: run.font.color.rgb = RGBColor(r, g, b)] *)
Definition coloured (c : nat * nat * nat) (p : Paragraph) : Paragraph :=
  mkParagraph (style p)
    (map (fun r => mkRun (run_text r) (bold r) (italic r) (Some c)) (runs p))
    (alignment p).

(** [for run in p.runs: run.italic = True] *)
Definition italicised (p : Paragraph) : Paragraph :=
  mkParagraph (style p)
    (map (fun r => mkRun (run_text r) (bold r) true (rgb r)) (runs p))
    (alignment p).

(** The paragraphs that one turn of the loop of [create_word_document] adds
    for [result], the [i]-th of [n] results. *)
Definition result_section (n i : nat) (result : Answer) : list Paragraph :=
  ([ coloured (0, 0, 139)%nat
       (add_heading ("Question " +:+ PyStr.str_nat (i + 1) +:+ ":") 1);
     mkParagraph "Normal" [mkRun (question result) true false None] None;
     add_heading "Answer:" 2;
     if negb (PyStr.is_blank (answer result))
     then add_paragraph (answer result)
     else italicised (add_paragraph "No answer found for this question.") ]
   ++ match metadata result with
      | Some m =>
          if negb (PyStr.is_blank m)
          then [add_heading "Source:" 2; add_paragraph m]
          else []
      | None => []
      end
   ++ if (i <? n - 1)%nat
      then [ add_paragraph "";
             centered (add_paragraph (PyStr.repeat_str "_" 50));
             add_paragraph "" ]
      else [])%list.

(** [current_time] is [datetime.now().strftime(...)]. *)
Definition create_word_document (current_time : string) (results : list Answer) : Docx :=
  ([ centered (add_heading "Document Analysis Results" 0);
     centered (add_paragraph ("Generated on: " +:+ current_time));
     add_paragraph "" ]
   ++ concat (imap (result_section (length results)) results))%list.

(** Reading an exported document back: the question sections, in document
    order.  A section starts at a first-level heading; its question is the
    text of the paragraph under the heading. *)
Definition paragraph_text (p : Paragraph) : string :=
  String.concat "" (map run_text (runs p)).

Fixpoint question_sections (doc : Docx) : list (string * string) :=
  match doc with
  | [] => []
  | p :: rest =>
      match rest with
      | q :: _ =>
          if String.eqb (style p) "Heading 1"
          then (paragraph_text p, paragraph_text q) :: question_sections rest
          else question_sections rest
      | [] => []
      end
  end.

(** ** The chunker *)

(** Modelled from the spec: the Document Chunker, which the source obtains
    from the third-party class [TokenTextSplitter(chunk_size, chunk_overlap)]
    and whose code is not part of the repository.  Following sections 2, 4.1
    and 7 of the specification it cuts the text into token windows of at most
    [C] tokens, each window starting [C - Ov] tokens after the previous one so
    that consecutive windows share [Ov] tokens, and it rejects an empty text
    with [ChunkingError].  The specification asks for [Ov < C]; outside of it
    the text is left in one window. *)
Equations? token_windows (C Ov : nat) (text : list Token) : list Chunk
  by wf (length text) lt :=
  token_windows C Ov [] := [];
  token_windows C Ov (t :: rest) with (C - Ov)%nat => {
    | 0%nat := [take C (t :: rest)];
    | S k := take C (t :: rest) :: token_windows C Ov (drop k rest) }.
Proof. rewrite length_drop. simpl. lia. Qed.

(** Modelled from the spec: the Chunker's contract of section 4.1, "fails
    with ChunkingError if input text is empty". *)
Definition Chunker (C Ov : nat) (text : list Token) : exn + list Chunk :=
  match text with
  | [] => inl (ChunkingError "input text is empty")
  | _ => inr (token_windows C Ov text)
  end.

(** [ceil(L / d)] on natural numbers. *)
Definition ceil_div (L d : nat) : nat := (L + d - 1) / d.

(** ** Observations on states and traces *)

(** The state after further events were recorded, the table and the
    session being as they were. *)
Definition extend (s : State) (evs : list event) : State :=
  mkState (trace s ++ evs) (table s) (session s).

(** The statuses that were handed to [put_item], in the order of the writes,
    and those the table accepted. *)
Definition statuses_written (tr : list event) : list Status :=
  omap (fun e => match e with
                 | PutItem item _ => Some (item_status item)
                 | _ => None
                 end) tr.

Definition statuses_stored (tr : list event) : list Status :=
  omap (fun e => match e with
                 | PutItem item true => Some (item_status item)
                 | _ => None
                 end) tr.

(** The sub-questions sent to the retrieval service, in the order of the
    calls. *)
Definition retrieval_inputs (tr : list event) : list string :=
  omap (fun e => match e with
                 | RetrieveAndGenerate req => Some (input_text req)
                 | _ => None
                 end) tr.

Definition is_generation_call (e : event) : bool :=
  match e with InvokeModel _ => true | _ => false end.

Definition is_retrieval_call (e : event) : bool :=
  match e with RetrieveAndGenerate _ => true | _ => false end.

Definition is_put_item (e : event) : bool :=
  match e with PutItem _ _ => true | _ => false end.

Definition is_message (e : event) : bool :=
  match e with StError _ | StInfo _ | StSuccess _ => true | _ => false end.

(** What [get_questions] puts on the page before it raises [e] again. *)
Definition client_error_log (e : exn) : list event :=
  if is_ClientError e
  then [StError ("Error invoking Claude model: " +:+ str_exn e)]
  else [].

(** The record that the handler of [get_answer] leaves for a sub-question
    whose retrieval call raised. *)
Definition error_record : Answer :=
  mkAnswer "" "Error: Unable to process the question." (Some " ").

(** [ys = [f(x) for x in l]], leaving at the first exception. *)
Fixpoint map_m {S A B} (f : A -> M S B) (l : list A) : M S (list B) :=
  match l with
  | [] => ret []
  | x :: rest => y <- f x ;; ys <- map_m f rest ;; ret (y :: ys)
  end.

(** One chunk's share of the report: the questions extracted from it,
    resolved one by one. *)
Definition chunk_answers (env : Env) (document_chunk : Chunk) : M State (list Answer) :=
  output <- get_questions env document_chunk ;;
  if truthy output then get_answer env (default "" output) else ret [].

(** The double newline on which [get_answer] splits. *)
Definition blank_line : string := PyStr.nl +:+ PyStr.nl.

Definition sub_questions (questions : string) : list string :=
  tail (PyStr.split blank_line questions).

(** What [get_questions] makes of a response that arrived. *)
Definition extracted (result : ModelResult) : exn + option string :=
  match default [] (content result) with
  | output :: _ =>
      match block_text output with
      | Some text =>
          inr (Some (if PyStr.startswith text "Unfortunately" then "" else text))
      | None => inl (KeyError "text")
      end
  | [] => inr None
  end.

(** The item that [update_document_status] builds in state [s]. *)
Definition status_item (env : Env) (s : State) (document_id file_name s3_url : string)
    (status : Status) (metadata : option Metadata) : Item :=
  mkItem document_id file_name s3_url status (now_isoformat env (trace s))
    (match user_info (session s) with
     | Some ui => Some (default "unknown" (ui_username ui))
     | None => None
     end)
    metadata.

(** The state after [item] was handed to the table, which stored it or
    refused it with the exception [refusal]. *)
Definition written (s : State) (item : Item) (refusal : option exn) : State :=
  match refusal with
  | None =>
      mkState (trace s ++ [PutItem item true])
        (<[item_document_id item := item]> (table s)) (session s)
  | Some e =>
      extend s [PutItem item false;
                StError ("Failed to update document status in DynamoDB: " +:+ str_exn e)]
  end.

(** The status that the table holds for a document. *)
Definition stored_status (s : State) (document_id : string) : option Status :=
  item_status <$> table s !! document_id.

(** The generation requests of a trace, in the order of the calls. *)
Definition generation_calls (tr : list event) : list ModelRequest :=
  omap (fun e => match e with
                 | InvokeModel req => Some req
                 | _ => None
                 end) tr.

(** ** Sample worlds *)

(** Concrete services on which the statements below are tried: a
    two-question document that is answered, the same with a retrieval
    service that fails on its first call, a two-chunk document whose first
    generation call is refused, and a document without text. *)
Module World.

Definition start : State := mkState [] ∅ (mkSession None "rfi.pdf" []).

Definition DEADLINE : string := "1. What is the deadline?".
Definition BUDGET : string := "2. What is the budget?".

Definition questions_text : string :=
  "Here are the questions:" +:+ blank_line +:+ DEADLINE +:+ blank_line +:+ BUDGET.

Definition text_block (t : string) : ContentBlock := mkContentBlock "text" (Some t).

Definition generated (t : string) : exn + ModelResult :=
  inr (mkModelResult (Some [text_block t])).

Definition not_found : RetrieveResponse :=
  mkRetrieveResponse "I could not find the deadline in the documents."
    [mkCitation []].

Definition found : RetrieveResponse :=
  mkRetrieveResponse "2. The budget is 5 million."
    [mkCitation [mkRetrievedReference
                   (mkLocation (Some (mkS3Location "s3://new-rfi-s3-bucket/answers.pdf")))]].

Definition retrieved (req : RetrieveRequest) : exn + RetrieveResponse :=
  if String.eqb (input_text req) DEADLINE then inr not_found else inr found.

Definition chunk : Chunk := ["1. What is the deadline? "; "2. What is the budget?"].

Definition answering : Env :=
  mkEnv None (fun _ => "2024-05-01T10:00:00") (fun _ _ => None)
    (fun _ _ => inr chunk) Chunker
    (fun _ _ => generated questions_text)
    (fun _ req => retrieved req).

(** The model reports that the chunk holds no question, and adds a
    second block. *)
Definition no_questions : Env :=
  mkEnv None (fun _ => "2024-05-01T10:00:00") (fun _ _ => None)
    (fun _ _ => inr chunk) Chunker
    (fun _ _ => inr (mkModelResult
                       (Some [text_block "Unfortunately, the document holds no questions.";
                              text_block DEADLINE])))
    (fun _ req => retrieved req).

(** The retrieval service cannot be reached at the first call. *)
Definition retrieval_down : Env :=
  mkEnv None (fun _ => "2024-05-01T10:00:00") (fun _ _ => None)
    (fun _ _ => inr chunk) Chunker
    (fun _ _ => generated questions_text)
    (fun h req =>
       if existsb is_retrieval_call h
       then retrieved req
       else inl (OtherException "EndpointConnectionError" "Could not connect to the endpoint")).

(** A document of 1001 tokens, hence of two chunks; the first generation
    call is throttled. *)
Definition long_text : list Token := replicate 1000 "x " ++ [DEADLINE].

Definition throttled : Env :=
  mkEnv None (fun _ => "2024-05-01T10:00:00") (fun _ _ => None)
    (fun _ _ => inr long_text) Chunker
    (fun h _ =>
       if existsb is_generation_call h
       then generated questions_text
       else inl (ClientError "ThrottlingException: Too many requests"))
    (fun _ req => retrieved req).

(** The loader finds no text in the document. *)
Definition empty_document : Env :=
  mkEnv None (fun _ => "2024-05-01T10:00:00") (fun _ _ => None)
    (fun _ _ => inr []) Chunker
    (fun _ _ => generated questions_text)
    (fun _ req => retrieved req).

Definition docurl : string := "s3://new-rfi-s3-bucket/rfi.pdf".

(** The events of the run on the throttled service and of [get_answer]
    on the service that is down. *)
Definition throttled_run : list event :=
  trace (run_chunk_document throttled (process_message) docurl "doc-1" start).1.

Definition retrieval_down_events : list event :=
  trace (get_answer retrieval_down questions_text start).1.

End World.

(** ** Further observations *)

(** The shapes of a record of [get_answer]. *)
Definition well_formed_record (q : string) (a : Answer) : Prop :=
  (* a negative result *)
  (question a = q /\ answer a = " " /\ metadata a = Some " ")
  (* a positive answer, with or without a locator *)
  \/ (question a = q /\ (exists t, answer a = "Answer: " +:+ t)
      /\ (metadata a = Some " " \/ exists u, metadata a = Some ("url: " +:+ u)))
  (* an error, before or after the question was stored *)
  \/ ((question a = q \/ question a = "")
      /\ answer a = "Error: Unable to process the question." /\ metadata a = Some " ").


(** Reading the layout of an exported document: the rule between two results,
    the "Source:" headings and the italic placeholder of a missing answer. *)
Definition is_separator (p : Paragraph) : bool :=
  match alignment p with
  | Some CENTER => String.eqb (paragraph_text p) (PyStr.repeat_str "_" 50)
  | None => false
  end.

Definition is_source_heading (p : Paragraph) : bool :=
  String.eqb (style p) "Heading 2" && String.eqb (paragraph_text p) "Source:".

Definition is_placeholder (p : Paragraph) : bool := existsb italic (runs p).

Definition has_source (result : Answer) : bool :=
  match metadata result with
  | Some m => negb (PyStr.is_blank m)
  | None => false
  end.

Definition count_if {A} (P : A -> bool) (l : list A) : nat := length (List.filter P l).

(** ** Further sample worlds *)

Module Edge.

(** The retrieval service answers without any citation. *)
Definition uncited_response : RetrieveResponse :=
  mkRetrieveResponse "The deadline is 1 June." [].

Definition uncited : Env :=
  mkEnv None (fun _ => "2024-05-01T10:00:00") (fun _ _ => None)
    (fun _ _ => inr World.chunk) Chunker
    (fun _ _ => World.generated World.questions_text)
    (fun _ _ => inr uncited_response).

(** The retrieval service cites a source that is not in S3. *)
Definition unlocated_response : RetrieveResponse :=
  mkRetrieveResponse "The deadline is 1 June."
    [mkCitation [mkRetrievedReference (mkLocation None)]].

Definition unlocated : Env :=
  mkEnv None (fun _ => "2024-05-01T10:00:00") (fun _ _ => None)
    (fun _ _ => inr World.chunk) Chunker
    (fun _ _ => World.generated World.questions_text)
    (fun _ _ => inr unlocated_response).

(** The model answers with a block that is not text. *)
Definition image_result : ModelResult :=
  mkModelResult (Some [mkContentBlock "image" None]).

Definition unreadable : Env :=
  mkEnv None (fun _ => "2024-05-01T10:00:00") (fun _ _ => None)
    (fun _ _ => inr World.chunk) Chunker
    (fun _ _ => inr image_result)
    (fun _ req => World.retrieved req).

(** The model answers without any block. *)
Definition silent : Env :=
  mkEnv None (fun _ => "2024-05-01T10:00:00") (fun _ _ => None)
    (fun _ _ => inr World.chunk) Chunker
    (fun _ _ => inr (mkModelResult None))
    (fun _ req => World.retrieved req).

(** A session that starts with the entry of an earlier document. *)
Definition earlier_item : Item :=
  mkItem "doc-0" "old.pdf" "s3://new-rfi-s3-bucket/old.pdf" COMPLETED
    "2024-04-30T09:00:00" None (Some (RunStats 1 1 2)).

Definition earlier : State :=
  mkState [] {["doc-0" := earlier_item]} (mkSession None "old.pdf" []).

End Edge.

(** * The pages around the pipeline: sign-in, history, upload *)

Module App.

(** ** Cognito *)

(** The exceptions of the Cognito client as the handlers of
    [authenticate_user] tell them apart; [msg] is [str(e)]. *)
Inductive CognitoError : Type :=
| NotAuthorizedException (msg : string)
| UserNotConfirmedException (msg : string)
| OtherError (e : exn).

Definition str_error (e : CognitoError) : string :=
  match e with
  | NotAuthorizedException msg => msg
  | UserNotConfirmedException msg => msg
  | OtherError e => str_exn e
  end.

(** The responses of [initiate_auth] and [respond_to_auth_challenge], and of
    [get_user].  A field is [None] when the response has no such key. *)
Record AuthenticationResultType : Type := mkAuthenticationResultType {
  IdToken : option string;
  AccessToken : option string;
  RefreshToken : option string;
  ExpiresIn : option Z
}.

Record AuthResponse : Type := mkAuthResponse {
  ChallengeName : option string;
  Session : option string;
  AuthenticationResult : option AuthenticationResultType
}.

Record AttributeType : Type := mkAttributeType {
  Name : option string;
  Value : option string
}.

Record GetUserResponse : Type := mkGetUserResponse {
  Username : option string;
  UserAttributes : option (list AttributeType)
}.

(** The dict that [authenticate_user] and [set_permanent_password] return:
    a field is [None] when the dict has no such key. *)
Record AuthResult : Type := mkAuthResult {
  success : bool;
  id_token : option string;
  access_token : option string;
  refresh_token : option string;
  expires_in : option Z;
  challenge : option string;
  session : option string;
  message : option string
}.

Definition failed (msg : string) : AuthResult :=
  mkAuthResult false None None None None None None (Some msg).

(** The dict that [get_user_info] returns and that the login page stores
    under [user_info]. *)
Record UserInfoResult : Type := mkUserInfoResult {
  user_success : bool;
  username : option string;
  attributes : option (gmap string string);
  user_message : option string
}.

(** ** DynamoDB's scan and the history *)

(** An attribute value [{'S': s}], or a value of another type, which has
    no key ['S']. *)
Inductive AttributeValue : Type :=
| AttrS (s : string)
| NotS.

Definition RawItem : Type := gmap string AttributeValue.

Record ScanResponse : Type := mkScanResponse { Items : option (list RawItem) }.

(** What [json.loads] returns; a number is kept as its literal. *)
#[warnings="-register-all"]
Inductive Json : Type :=
| JNull
| JBool (b : bool)
| JNumber (literal : string)
| JString (s : string)
| JArray (elements : list Json)
| JObject (members : list (string * Json)).

(** A document of the history: every key but ['metadata'] is always set. *)
Record Document : Type := mkDocument {
  doc_file_name : string;
  doc_s3_url : string;
  doc_status : string;
  doc_timestamp : string;
  doc_document_id : string;
  doc_username : string;
  doc_metadata : option Json
}.

(** ** The session, the services and the trace *)

(** [st.session_state]: a field is [None] when the key is absent.  The last
    three keys hold Python's [None] or a string. *)
Record SessionState : Type := mkSessionState {
  ss_authenticated : option bool;
  ss_access_token : option string;
  ss_id_token : option string;
  ss_refresh_token : option string;
  ss_user_info : option UserInfoResult;
  ss_password_change_required : option bool;
  ss_temp_username : option string;
  ss_temp_session : option string;
  ss_current_page : option string;
  ss_processed_results : option (list Answer);
  ss_uploaded_file_url : option (option string);
  ss_document_id : option (option string);
  ss_file_name : option (option string)
}.

(** Every call that leaves the script and every message put on the page.
    Titles, headers and fixed texts are not recorded. *)
Inductive event : Type :=
| InitiateAuth (username password : string)       (* cognito_idp.initiate_auth *)
| RespondToAuthChallenge (session username new_password : string)
| GetUser (access_token : string)                 (* cognito_idp.get_user *)
| Scan (filter : option (option string))          (* dynamodb_client.scan *)
| NamedTemporaryFile                              (* tempfile.NamedTemporaryFile *)
| TmpWrite (path : string)                        (* tmp.write *)
| UploadFile (path bucket key : string)           (* s3.upload_file *)
| Unlink (path : string)                          (* os.unlink *)
| StError (msg : string)
| StInfo (msg : string)
| StSuccess (msg : string).

(** The services' side.  Each oracle sees the trace up to the call.  The
    filter of a scan is [None] for a scan of the whole table and [Some u] for
    the expression [username = :username] with the value [u], which is
    [None] when the session's user has no name. *)
Record Services : Type := mkServices {
  DOCUMENT_BUCKET : option string;                (* os.environ *)
  initiate_auth : list event -> string -> string -> CognitoError + AuthResponse;
  respond_to_auth_challenge :
    list event -> string -> string -> string -> CognitoError + AuthResponse;
  get_user : list event -> string -> CognitoError + GetUserResponse;
  scan : list event -> option (option string) -> exn + ScanResponse;
  json_loads : string -> option Json;             (* None: JSONDecodeError *)
  named_temporary_file : list event -> exn + string;
  tmp_write : list event -> string -> option exn;
  upload_file : list event -> string -> string -> string -> option exn
}.

Record State : Type := mkState {
  trace : list event;                             (* oldest first *)
  session_state : SessionState;
  files : gset string                             (* the temporary files *)
}.

(** ** Scripts *)

(** A run of the script ends with a value, with [st.rerun()], which no
    handler of this file catches, or with an exception. *)
Inductive outcome (A : Type) : Type :=
| Returned (a : A)
| Rerun
| Raised (e : exn).
Arguments Returned {A} a.
Arguments Rerun {A}.
Arguments Raised {A} e.

Definition Script (A : Type) : Type := State -> State * outcome A.

Definition ret {A} (a : A) : Script A := fun s => (s, Returned a).

Definition raise {A} (e : exn) : Script A := fun s => (s, Raised e).

Definition st_rerun {A} : Script A := fun s => (s, Rerun).

Definition bind {A B} (m : Script A) (k : A -> Script B) : Script B :=
  fun s =>
    match m s with
    | (s', Returned a) => k a s'
    | (s', Rerun) => (s', Rerun)
    | (s', Raised e) => (s', Raised e)
    end.

Declare Scope script_scope.
Delimit Scope script_scope with script.
Notation "x <- m ;; k" := (bind m (fun x => k))
  (at level 100, m at next level, k at level 200, right associativity) : script_scope.
Notation "m ;; k" := (bind m (fun _ => k))
  (at level 100, k at level 200, right associativity) : script_scope.
Local Open Scope script_scope.

(** [try: body  except Exception as e: handler e] *)
Definition try_except {A} (body : Script A) (handler : exn -> Script A) : Script A :=
  fun s =>
    match body s with
    | (s', Raised e) => handler e s'
    | r => r
    end.

(** A step that may raise ([d[k]]). *)
Definition lift_exn {A} (r : exn + A) : Script A :=
  fun s => (s, match r with inr a => Returned a | inl e => Raised e end).

(** A function that handles its own exceptions. *)
Definition total {A} (f : State -> State * A) : Script A :=
  fun s => let (s', a) := f s in (s', Returned a).

Definition log (e : event) (s : State) : State :=
  mkState (trace s ++ [e]) (session_state s) (files s).

Definition emit (e : event) : Script unit := fun s => (log e s, Returned tt).

Definition st_error (msg : string) : Script unit := emit (StError msg).
Definition st_info (msg : string) : Script unit := emit (StInfo msg).
Definition st_success (msg : string) : Script unit := emit (StSuccess msg).

Definition get_session_state : Script SessionState :=
  fun s => (s, Returned (session_state s)).

Definition update (f : SessionState -> SessionState) : Script unit :=
  fun s => (mkState (trace s) (f (session_state s)) (files s), Returned tt).

(** [st.session_state.key], which raises when the key is absent. *)
Definition getattr {A} (key : string) (field : option A) : Script A :=
  match field with
  | Some x => ret x
  | None => raise (OtherException "AttributeError" key)
  end.

(** ** Assignments to the keys of the session *)

Definition set_authenticated (v : option bool) (ss : SessionState) : SessionState :=
  mkSessionState v (ss_access_token ss) (ss_id_token ss) (ss_refresh_token ss)
    (ss_user_info ss) (ss_password_change_required ss) (ss_temp_username ss)
    (ss_temp_session ss) (ss_current_page ss) (ss_processed_results ss)
    (ss_uploaded_file_url ss) (ss_document_id ss) (ss_file_name ss).

Definition set_access_token (v : option string) (ss : SessionState) : SessionState :=
  mkSessionState (ss_authenticated ss) v (ss_id_token ss) (ss_refresh_token ss)
    (ss_user_info ss) (ss_password_change_required ss) (ss_temp_username ss)
    (ss_temp_session ss) (ss_current_page ss) (ss_processed_results ss)
    (ss_uploaded_file_url ss) (ss_document_id ss) (ss_file_name ss).

Definition set_id_token (v : option string) (ss : SessionState) : SessionState :=
  mkSessionState (ss_authenticated ss) (ss_access_token ss) v (ss_refresh_token ss)
    (ss_user_info ss) (ss_password_change_required ss) (ss_temp_username ss)
    (ss_temp_session ss) (ss_current_page ss) (ss_processed_results ss)
    (ss_uploaded_file_url ss) (ss_document_id ss) (ss_file_name ss).

Definition set_refresh_token (v : option string) (ss : SessionState) : SessionState :=
  mkSessionState (ss_authenticated ss) (ss_access_token ss) (ss_id_token ss) v
    (ss_user_info ss) (ss_password_change_required ss) (ss_temp_username ss)
    (ss_temp_session ss) (ss_current_page ss) (ss_processed_results ss)
    (ss_uploaded_file_url ss) (ss_document_id ss) (ss_file_name ss).

Definition set_user_info (v : option UserInfoResult) (ss : SessionState) : SessionState :=
  mkSessionState (ss_authenticated ss) (ss_access_token ss) (ss_id_token ss)
    (ss_refresh_token ss) v (ss_password_change_required ss) (ss_temp_username ss)
    (ss_temp_session ss) (ss_current_page ss) (ss_processed_results ss)
    (ss_uploaded_file_url ss) (ss_document_id ss) (ss_file_name ss).

Definition set_password_change_required (v : option bool) (ss : SessionState)
    : SessionState :=
  mkSessionState (ss_authenticated ss) (ss_access_token ss) (ss_id_token ss)
    (ss_refresh_token ss) (ss_user_info ss) v (ss_temp_username ss)
    (ss_temp_session ss) (ss_current_page ss) (ss_processed_results ss)
    (ss_uploaded_file_url ss) (ss_document_id ss) (ss_file_name ss).

Definition set_temp_username (v : option string) (ss : SessionState) : SessionState :=
  mkSessionState (ss_authenticated ss) (ss_access_token ss) (ss_id_token ss)
    (ss_refresh_token ss) (ss_user_info ss) (ss_password_change_required ss) v
    (ss_temp_session ss) (ss_current_page ss) (ss_processed_results ss)
    (ss_uploaded_file_url ss) (ss_document_id ss) (ss_file_name ss).

Definition set_temp_session (v : option string) (ss : SessionState) : SessionState :=
  mkSessionState (ss_authenticated ss) (ss_access_token ss) (ss_id_token ss)
    (ss_refresh_token ss) (ss_user_info ss) (ss_password_change_required ss)
    (ss_temp_username ss) v (ss_current_page ss) (ss_processed_results ss)
    (ss_uploaded_file_url ss) (ss_document_id ss) (ss_file_name ss).

Definition set_current_page (v : option string) (ss : SessionState) : SessionState :=
  mkSessionState (ss_authenticated ss) (ss_access_token ss) (ss_id_token ss)
    (ss_refresh_token ss) (ss_user_info ss) (ss_password_change_required ss)
    (ss_temp_username ss) (ss_temp_session ss) v (ss_processed_results ss)
    (ss_uploaded_file_url ss) (ss_document_id ss) (ss_file_name ss).

Definition set_processed_results (v : option (list Answer)) (ss : SessionState)
    : SessionState :=
  mkSessionState (ss_authenticated ss) (ss_access_token ss) (ss_id_token ss)
    (ss_refresh_token ss) (ss_user_info ss) (ss_password_change_required ss)
    (ss_temp_username ss) (ss_temp_session ss) (ss_current_page ss) v
    (ss_uploaded_file_url ss) (ss_document_id ss) (ss_file_name ss).

Definition set_uploaded_file_url (v : option (option string)) (ss : SessionState)
    : SessionState :=
  mkSessionState (ss_authenticated ss) (ss_access_token ss) (ss_id_token ss)
    (ss_refresh_token ss) (ss_user_info ss) (ss_password_change_required ss)
    (ss_temp_username ss) (ss_temp_session ss) (ss_current_page ss)
    (ss_processed_results ss) v (ss_document_id ss) (ss_file_name ss).

Definition set_document_id (v : option (option string)) (ss : SessionState)
    : SessionState :=
  mkSessionState (ss_authenticated ss) (ss_access_token ss) (ss_id_token ss)
    (ss_refresh_token ss) (ss_user_info ss) (ss_password_change_required ss)
    (ss_temp_username ss) (ss_temp_session ss) (ss_current_page ss)
    (ss_processed_results ss) (ss_uploaded_file_url ss) v (ss_file_name ss).

Definition set_file_name (v : option (option string)) (ss : SessionState)
    : SessionState :=
  mkSessionState (ss_authenticated ss) (ss_access_token ss) (ss_id_token ss)
    (ss_refresh_token ss) (ss_user_info ss) (ss_password_change_required ss)
    (ss_temp_username ss) (ss_temp_session ss) (ss_current_page ss)
    (ss_processed_results ss) (ss_uploaded_file_url ss) (ss_document_id ss) v.

(** [key in st.session_state] and [del st.session_state[key]] for the keys
    that the two logout loops name. *)
Definition has_key (key : string) (ss : SessionState) : bool :=
  if String.eqb key "authenticated" then bool_decide (is_Some (ss_authenticated ss))
  else if String.eqb key "access_token" then bool_decide (is_Some (ss_access_token ss))
  else if String.eqb key "id_token" then bool_decide (is_Some (ss_id_token ss))
  else if String.eqb key "refresh_token" then bool_decide (is_Some (ss_refresh_token ss))
  else if String.eqb key "user_info" then bool_decide (is_Some (ss_user_info ss))
  else false.

Definition del_key (key : string) (ss : SessionState) : SessionState :=
  if String.eqb key "authenticated" then set_authenticated None ss
  else if String.eqb key "access_token" then set_access_token None ss
  else if String.eqb key "id_token" then set_id_token None ss
  else if String.eqb key "refresh_token" then set_refresh_token None ss
  else if String.eqb key "user_info" then set_user_info None ss
  else ss.

(** [for key in [...]: if key in st.session_state: del st.session_state[key]] *)
Definition clear_login (ss : SessionState) : SessionState :=
  foldl (fun ss key => if has_key key ss then del_key key ss else ss) ss
    ["authenticated"; "access_token"; "id_token"; "refresh_token"; "user_info"].

(** What [if x:] accepts of a flag, and [not s] of a string. *)
Definition flag (v : option bool) : bool := default false v.

Definition is_empty (s : string) : bool :=
  match s with
  | EmptyString => true
  | _ => false
  end.

(** ** The widgets *)

(** What the user did in this run of the script: the texts of the inputs and
    the buttons that were pressed. *)
Record Widgets : Type := mkWidgets {
  username_input : string;
  password_input : string;
  login_button : bool;
  new_password_input : string;
  confirm_password_input : string;
  set_password_button : bool;
  cancel_button : bool;
  navigation : string;                            (* st.radio *)
  sidebar_logout_button : bool;
  logout_button : bool
}.

Section Pages.

Variable services : Services.

(** ** The four Cognito helpers *)

(** The dict of tokens; its values are read in the order of the literal. *)
Definition tokens (r : AuthenticationResultType) : exn + AuthResult :=
  match getitem_key "IdToken" (IdToken r) with
  | inl e => inl e
  | inr id =>
      match getitem_key "AccessToken" (AccessToken r) with
      | inl e => inl e
      | inr access =>
          match getitem_key "RefreshToken" (RefreshToken r) with
          | inl e => inl e
          | inr refresh =>
              match getitem_key "ExpiresIn" (ExpiresIn r) with
              | inl e => inl e
              | inr expires =>
                  inr (mkAuthResult true (Some id) (Some access) (Some refresh)
                         (Some expires) None None None)
              end
          end
      end
  end.

(** The body of the [try] of [authenticate_user] after the call. *)
Definition authenticate_user_result (response : AuthResponse) : exn + AuthResult :=
  if bool_decide (ChallengeName response = Some "NEW_PASSWORD_REQUIRED")
  then
    match getitem_key "Session" (Session response) with
    | inl e => inl e
    | inr sess =>
        inr (mkAuthResult false None None None None (Some "NEW_PASSWORD_REQUIRED")
               (Some sess)
               (Some "You need to set a permanent password. Please enter a new password."))
    end
  else
    match AuthenticationResult response with
    | Some r => tokens r
    | None => inr (failed "Authentication failed - no result returned")
    end.

Definition authenticate_user (username password : string) : State -> State * AuthResult :=
  fun s =>
    (log (InitiateAuth username password) s,
     match initiate_auth services (trace s) username password with
     | inr response =>
         match authenticate_user_result response with
         | inr result => result
         | inl e => failed (str_exn e)
         end
     | inl (NotAuthorizedException _) => failed "Incorrect username or password"
     | inl (UserNotConfirmedException _) => failed "User is not confirmed"
     | inl (OtherError e) => failed (str_exn e)
     end).

Definition set_permanent_password (username new_password session : string)
    : State -> State * AuthResult :=
  fun s =>
    (log (RespondToAuthChallenge session username new_password) s,
     match respond_to_auth_challenge services (trace s) session username new_password with
     | inr response =>
         match
           match AuthenticationResult response with
           | Some r => tokens r
           | None => inr (failed "Failed to set permanent password")
           end
         with
         | inr result => result
         | inl e => failed ("Error setting permanent password: " +:+ str_exn e)
         end
     | inl e => failed ("Error setting permanent password: " +:+ str_error e)
     end).

(** [for attr in ...: user_attrs[attr['Name']] = attr['Value']]: the value is
    read before the name. *)
Fixpoint user_attrs (attrs : list AttributeType) (acc : gmap string string)
    : exn + gmap string string :=
  match attrs with
  | [] => inr acc
  | attr :: rest =>
      match getitem_key "Value" (Value attr) with
      | inl e => inl e
      | inr v =>
          match getitem_key "Name" (Name attr) with
          | inl e => inl e
          | inr n => user_attrs rest (<[n := v]> acc)
          end
      end
  end.

Definition get_user_info_result (response : GetUserResponse) : exn + UserInfoResult :=
  match getitem_key "UserAttributes" (UserAttributes response) with
  | inl e => inl e
  | inr attrs =>
      match user_attrs attrs ∅ with
      | inl e => inl e
      | inr dict =>
          match getitem_key "Username" (Username response) with
          | inl e => inl e
          | inr name => inr (mkUserInfoResult true (Some name) (Some dict) None)
          end
      end
  end.

Definition user_failed (msg : string) : UserInfoResult :=
  mkUserInfoResult false None None (Some msg).

Definition get_user_info (access_token : string) : State -> State * UserInfoResult :=
  fun s =>
    (log (GetUser access_token) s,
     match get_user services (trace s) access_token with
     | inr response =>
         match get_user_info_result response with
         | inr result => result
         | inl e => user_failed (str_exn e)
         end
     | inl e => user_failed (str_error e)
     end).

Definition verify_token (token : string) : State -> State * bool :=
  fun s =>
    (log (GetUser token) s,
     match get_user services (trace s) token with
     | inr _ => true
     | inl _ => false
     end).

(** ** The login page *)

(** The statements that follow a successful [authenticate_user] or
    [set_permanent_password], up to the user's information; [greeting] is the
    prefix of the message, [cleanup] the deletion of the temporary keys. *)
Definition store_tokens (result : AuthResult) : Script unit :=
  update (set_authenticated (Some true)) ;;
  access <- lift_exn (getitem_key "access_token" (access_token result)) ;;
  update (set_access_token (Some access)) ;;
  id <- lift_exn (getitem_key "id_token" (id_token result)) ;;
  update (set_id_token (Some id)) ;;
  refresh <- lift_exn (getitem_key "refresh_token" (refresh_token result)) ;;
  update (set_refresh_token (Some refresh)).

Definition welcome (greeting : string) (result : AuthResult) : Script unit :=
  access <- lift_exn (getitem_key "access_token" (access_token result)) ;;
  user_info <- total (get_user_info access) ;;
  if user_success user_info
  then
    update (set_user_info (Some user_info)) ;;
    name <- lift_exn (getitem_key "username" (username user_info)) ;;
    st_success (greeting +:+ name +:+ "!") ;;
    st_rerun
  else
    msg <- lift_exn (getitem_key "message" (user_message user_info)) ;;
    st_error ("Error retrieving user information: " +:+ msg).

(** [del st.session_state.key] *)
Definition del_password_change_required : Script unit :=
  ss <- get_session_state ;;
  getattr "password_change_required" (ss_password_change_required ss) ;;
  update (set_password_change_required None).

Definition del_temp_username : Script unit :=
  ss <- get_session_state ;;
  getattr "temp_username" (ss_temp_username ss) ;;
  update (set_temp_username None).

Definition del_temp_session : Script unit :=
  ss <- get_session_state ;;
  getattr "temp_session" (ss_temp_session ss) ;;
  update (set_temp_session None).

Definition set_password_form (w : Widgets) : Script unit :=
  let new_password := new_password_input w in
  let confirm_password := confirm_password_input w in
  if is_empty new_password || is_empty confirm_password
  then st_error "Please enter and confirm your new password"
  else if negb (String.eqb new_password confirm_password)
  then st_error "Passwords do not match"
  else if String.length new_password <? 8
  then st_error "Password must be at least 8 characters long"
  else
    ss <- get_session_state ;;
    temp_username <- getattr "temp_username" (ss_temp_username ss) ;;
    temp_session <- getattr "temp_session" (ss_temp_session ss) ;;
    result <- total (set_permanent_password temp_username new_password temp_session) ;;
    if success result
    then
      store_tokens result ;;
      del_password_change_required ;;
      del_temp_username ;;
      del_temp_session ;;
      welcome "Password set successfully! Welcome, " result
    else
      msg <- lift_exn (getitem_key "message" (message result)) ;;
      st_error msg.

(** [if key in st.session_state: del st.session_state.key], three times. *)
Definition cancel_form : Script unit :=
  update (set_password_change_required None) ;;
  update (set_temp_username None) ;;
  update (set_temp_session None) ;;
  st_rerun.

Definition login_form (w : Widgets) : Script unit :=
  let username := username_input w in
  let password := password_input w in
  if is_empty username || is_empty password
  then st_error "Please enter both username and password"
  else
    auth_result <- total (authenticate_user username password) ;;
    if success auth_result
    then
      store_tokens auth_result ;;
      welcome "Welcome, " auth_result
    else if bool_decide (challenge auth_result = Some "NEW_PASSWORD_REQUIRED")
    then
      update (set_password_change_required (Some true)) ;;
      update (set_temp_username (Some username)) ;;
      session <- lift_exn (getitem_key "session" (session auth_result)) ;;
      update (set_temp_session (Some session)) ;;
      st_rerun
    else
      msg <- lift_exn (getitem_key "message" (message auth_result)) ;;
      st_error msg.

Definition display_login_page (w : Widgets) : Script unit :=
  ss <- get_session_state ;;
  if flag (ss_password_change_required ss)
  then
    st_info ("Your account has a temporary password. "
             +:+ "Please set a permanent password to continue.") ;;
    (if set_password_button w then set_password_form w else ret tt) ;;
    (if cancel_button w then cancel_form else ret tt)
  else
    (if login_button w then login_form w else ret tt).

(** ** The account tab and the main script *)

Definition display_account_tab (w : Widgets) : Script unit :=
  ss <- get_session_state ;;
  match ss_user_info ss with
  | Some user_info =>
      lift_exn (getitem_key "username" (username user_info)) ;;
      if logout_button w
      then
        update clear_login ;;
        update (set_current_page (Some "Upload")) ;;
        st_rerun
      else ret tt
  | None =>
      st_error "User information is not available. Please log out and log in again."
  end.

(** [if key not in st.session_state: st.session_state.key = v] *)
Definition initialise (ss : SessionState) : SessionState :=
  let ss1 := match ss_processed_results ss with
             | Some _ => ss
             | None => set_processed_results (Some []) ss
             end in
  let ss2 := match ss_uploaded_file_url ss1 with
             | Some _ => ss1
             | None => set_uploaded_file_url (Some None) ss1
             end in
  let ss3 := match ss_document_id ss2 with
             | Some _ => ss2
             | None => set_document_id (Some None) ss2
             end in
  let ss4 := match ss_file_name ss3 with
             | Some _ => ss3
             | None => set_file_name (Some None) ss3
             end in
  match ss_current_page ss4 with
  | Some _ => ss4
  | None => set_current_page (Some "Upload") ss4
  end.

Definition sidebar (w : Widgets) : Script unit :=
  ss <- get_session_state ;;
  match ss_user_info ss with
  | Some user_info => lift_exn (getitem_key "username" (username user_info)) ;; ret tt
  | None => ret tt
  end ;;
  current_page <- getattr "current_page" (ss_current_page ss) ;;
  if negb (String.eqb (navigation w) current_page)
  then update (set_current_page (Some (navigation w))) ;; st_rerun
  else if sidebar_logout_button w
  then update clear_login ;; st_rerun
  else ret tt.

(** The upload tab and the history tab are scripts of their own. *)
Definition main (display_upload_tab display_history_tab : Script unit) (w : Widgets)
    : Script unit :=
  update initialise ;;
  ss <- get_session_state ;;
  if negb (flag (ss_authenticated ss))
  then display_login_page w
  else
    valid <- match ss_access_token ss with
             | Some token => total (verify_token token)
             | None => ret true
             end ;;
    if negb valid
    then
      st_error "Your session has expired. Please log in again." ;;
      update clear_login ;;
      display_login_page w
    else
      sidebar w ;;
      ss <- get_session_state ;;
      current_page <- getattr "current_page" (ss_current_page ss) ;;
      if String.eqb current_page "Upload" then display_upload_tab
      else if String.eqb current_page "History" then display_history_tab
      else if String.eqb current_page "Account" then display_account_tab w
      else ret tt.

(** ** The history *)

(** [item.get(key, {}).get('S', default)] *)
Definition get_S (item : RawItem) (key default : string) : string :=
  match item !! key with
  | Some (AttrS s) => s
  | _ => default
  end.

Definition document (item : RawItem) : Document :=
  mkDocument (get_S item "file_name" "") (get_S item "s3_url" "")
    (get_S item "status" "") (get_S item "timestamp" "")
    (get_S item "document_id" "") (get_S item "username" "unknown")
    (match item !! "metadata" with
     | Some (AttrS s) => Some (default (JObject []) (json_loads services s))
     | Some NotS => Some (JObject [])
     | None => None
     end).

(** [documents.sort(key=lambda x: x['timestamp'], reverse=True)]: the sort is
    stable, so that documents of one timestamp keep their order. *)
Fixpoint insert_newest (d : Document) (sorted : list Document) : list Document :=
  match sorted with
  | [] => [d]
  | d' :: rest =>
      if String.leb (doc_timestamp d') (doc_timestamp d)
      then d :: sorted
      else d' :: insert_newest d rest
  end.

Definition sort_newest_first (documents : list Document) : list Document :=
  foldr insert_newest [] documents.

(** The filter of the scan: the whole table for an administrator and for
    a session without user information. *)
Definition is_admin (user_info : UserInfoResult) : bool :=
  bool_decide (default ∅ (attributes user_info) !! "custom:role" = Some "admin").

Definition scan_filter (ss : SessionState) : option (option string) :=
  match ss_user_info ss with
  | Some user_info => if is_admin user_info then None else Some (username user_info)
  | None => None
  end.

Definition get_document_history : State -> State * list Document :=
  fun s =>
    let filter := scan_filter (session_state s) in
    match scan services (trace s) filter with
    | inr response =>
        (log (Scan filter) s,
         sort_newest_first (document <$> default [] (Items response)))
    | inl e =>
        (log (StError ("Failed to retrieve document history: " +:+ str_exn e))
           (log (Scan filter) s),
         [])
    end.

(** ** The upload *)

(** [file.name.replace(" ", "_")] *)
Definition space : Ascii.ascii := Ascii.ascii_of_nat 32.
Definition underscore : Ascii.ascii := Ascii.ascii_of_nat 95.

Fixpoint replace_spaces (name : string) : string :=
  match name with
  | EmptyString => EmptyString
  | String c rest =>
      String (if Ascii.eqb c space then underscore else c) (replace_spaces rest)
  end.

Definition new_temporary_file : Script string :=
  fun s =>
    match named_temporary_file services (trace s) with
    | inr path =>
        (mkState (trace s ++ [NamedTemporaryFile]) (session_state s) ({[path]} ∪ files s),
         Returned path)
    | inl e => (log NamedTemporaryFile s, Raised e)
    end.

Definition write_tmp (path : string) : Script unit :=
  fun s =>
    (log (TmpWrite path) s,
     match tmp_write services (trace s) path with
     | None => Returned tt
     | Some e => Raised e
     end).

Definition s3_upload_file (path bucket key : string) : Script unit :=
  fun s =>
    (log (UploadFile path bucket key) s,
     match upload_file services (trace s) path bucket key with
     | None => Returned tt
     | Some e => Raised e
     end).

(** [os.unlink(path)] *)
Definition unlink (path : string) : Script unit :=
  fun s =>
    if bool_decide (path ∈ files s)
    then (mkState (trace s ++ [Unlink path]) (session_state s) (files s ∖ {[path]}),
          Returned tt)
    else (log (Unlink path) s, Raised (OtherException "FileNotFoundError" path)).

(** The creation of the S3 client is taken to succeed. *)
Definition upload_to_s3 (file_name : string) : Script (option string) :=
  let bucket_name := default "new-rfi-s3-bucket" (DOCUMENT_BUCKET services) in
  let safe_filename := replace_spaces file_name in
  tmp_path <- new_temporary_file ;;
  write_tmp tmp_path ;;
  try_except
    (s3_upload_file tmp_path bucket_name safe_filename ;;
     unlink tmp_path ;;
     ret (Some ("s3://" +:+ bucket_name +:+ "/" +:+ safe_filename)))
    (fun e =>
       st_error ("Failed to upload to S3: " +:+ str_exn e) ;;
       unlink tmp_path ;;
       ret None).

End Pages.

End App.

(** ** Observations on the session *)

(** What the pages rely on when they read the session: an authenticated
    session holds its access token, a pending password change holds the user
    name and the Cognito session it belongs to, and stored user information
    holds a user name. *)
Definition session_consistent (ss : App.SessionState) : Prop :=
  (App.flag (App.ss_authenticated ss) = true -> is_Some (App.ss_access_token ss))
  /\ (App.flag (App.ss_password_change_required ss) = true ->
      is_Some (App.ss_temp_username ss) /\ is_Some (App.ss_temp_session ss))
  /\ (forall user_info, App.ss_user_info ss = Some user_info ->
                        is_Some (App.username user_info)).

(** The events that a run added to the trace. *)
Definition new_events (s s' : App.State) : list App.event :=
  drop (length (App.trace s)) (App.trace s').

(** What the login page may send to Cognito: the credentials as typed, both
    filled in, after the Login button; a new password that was typed twice
    and has eight characters, for the user and the Cognito session of the
    pending password change, after the Set Permanent Password button. *)
Definition sent_by_login (w : App.Widgets) (ss : App.SessionState)
    (username password : string) : Prop :=
  username = App.username_input w /\ password = App.password_input w
  /\ username <> "" /\ password <> ""
  /\ App.login_button w = true
  /\ App.flag (App.ss_password_change_required ss) = false.

Definition sent_by_password_form (w : App.Widgets) (ss : App.SessionState)
    (session username new_password : string) : Prop :=
  new_password = App.new_password_input w
  /\ new_password = App.confirm_password_input w
  /\ 8 <= String.length new_password
  /\ App.ss_temp_username ss = Some username
  /\ App.ss_temp_session ss = Some session
  /\ App.set_password_button w = true
  /\ App.flag (App.ss_password_change_required ss) = true.

(** The tokens of a session are those of a response. *)
Definition holds_tokens_of (ss : App.SessionState) (response : App.AuthResponse) : Prop :=
  exists r, App.AuthenticationResult response = Some r
            /\ is_Some (App.ss_access_token ss)
            /\ App.ss_access_token ss = App.AccessToken r
            /\ App.ss_id_token ss = App.IdToken r
            /\ App.ss_refresh_token ss = App.RefreshToken r.

Definition password_info : App.event :=
  App.StInfo ("Your account has a temporary password. "
              +:+ "Please set a permanent password to continue.").

(** The values of the attributes named [name], in the order of the
    response. *)
Definition attribute_values (name : string) (attrs : list App.AttributeType)
    : list string :=
  omap (fun attr => if bool_decide (App.Name attr = Some name) then App.Value attr else None)
    attrs.

Definition well_formed_attribute (attr : App.AttributeType) : Prop :=
  is_Some (App.Name attr) /\ is_Some (App.Value attr).

(** The session after a logout. *)
Definition logged_out (ss : App.SessionState) : App.SessionState :=
  App.mkSessionState None None None None None (App.ss_password_change_required ss)
    (App.ss_temp_username ss) (App.ss_temp_session ss) (App.ss_current_page ss)
    (App.ss_processed_results ss) (App.ss_uploaded_file_url ss) (App.ss_document_id ss)
    (App.ss_file_name ss).

(** The DynamoDB form of the item that [update_document_status] hands to
    [put_item]: every value is a string attribute, the user name and the
    metadata are present only when the item has them, and the metadata is the
    text that [json_dumps] makes of it. *)
Definition dynamodb_item (json_dumps : Metadata -> string) (item : Item) : App.RawItem :=
  let base : App.RawItem :=
    <["document_id" := App.AttrS (item_document_id item)]>
      (<["file_name" := App.AttrS (item_file_name item)]>
         (<["s3_url" := App.AttrS (item_s3_url item)]>
            (<["status" := App.AttrS (status_name (item_status item))]>
               (<["timestamp" := App.AttrS (item_timestamp item)]> ∅)))) in
  let with_user :=
    match item_username item with
    | Some u => <["username" := App.AttrS u]> base
    | None => base
    end in
  match item_metadata item with
  | Some m => <["metadata" := App.AttrS (json_dumps m)]> with_user
  | None => with_user
  end.

(** Newest first: no document is followed by a newer one. *)
Fixpoint newest_first (documents : list App.Document) : Prop :=
  match documents with
  | [] => True
  | d :: rest =>
      Forall (fun d' => String.le (App.doc_timestamp d') (App.doc_timestamp d)) rest
      /\ newest_first rest
  end.

(** The documents of one timestamp, in their order. *)
Definition stamped (t : string) (documents : list App.Document) : list App.Document :=
  List.filter (fun d => String.eqb (App.doc_timestamp d) t) documents.

(** ** Sample sessions and services for the pages *)

Module Desk.

Definition anonymous : App.SessionState :=
  App.mkSessionState None None None None None None None None None None None None None.

Definition fresh : App.State := App.mkState [] anonymous ∅.

Definition alice_tokens : App.AuthenticationResultType :=
  App.mkAuthenticationResultType (Some "id-1") (Some "access-1") (Some "refresh-1")
    (Some 3600%Z).

(** The second role of the response is the one that counts. *)
Definition alice_attributes : list App.AttributeType :=
  [App.mkAttributeType (Some "email") (Some "alice@example.com");
   App.mkAttributeType (Some "custom:role") (Some "admin");
   App.mkAttributeType (Some "custom:role") (Some "user")].

Definition alice : App.GetUserResponse :=
  App.mkGetUserResponse (Some "alice") (Some alice_attributes).

Definition challenge : App.AuthResponse :=
  App.mkAuthResponse (Some "NEW_PASSWORD_REQUIRED") (Some "session-1") None.

Definition accepted : App.AuthResponse :=
  App.mkAuthResponse None None (Some alice_tokens).

(** Two items of the table: one as a status write leaves it, one that has a
    file name only. *)
Definition bare_item : App.RawItem := {["file_name" := App.AttrS "notes.pdf"]}.

Definition scanned : App.ScanResponse :=
  App.mkScanResponse (Some [bare_item; dynamodb_item (fun _ => "{}") Edge.earlier_item]).

(** Cognito knows alice with a temporary and with a permanent password. *)
Definition cognito : App.Services :=
  App.mkServices None
    (fun _ _ password =>
       if String.eqb password "Temp#2024" then inr challenge
       else if String.eqb password "Correct#2024" then inr accepted
       else inl (App.NotAuthorizedException "Incorrect username or password."))
    (fun _ _ _ _ => inr accepted)
    (fun _ token =>
       if String.eqb token "access-1" then inr alice
       else inl (App.NotAuthorizedException "Access Token has expired"))
    (fun _ _ => inr scanned)
    (fun _ => None)
    (fun _ => inr "/tmp/tmpk3x9")
    (fun _ _ => None)
    (fun _ _ _ _ => None).

(** The same, but the user cannot be read. *)
Definition unreadable_user : App.Services :=
  App.mkServices None (App.initiate_auth cognito) (App.respond_to_auth_challenge cognito)
    (fun _ _ => inl (App.OtherError (OtherException "InternalErrorException" "Try again")))
    (App.scan cognito) (App.json_loads cognito) (App.named_temporary_file cognito)
    (App.tmp_write cognito) (App.upload_file cognito).

(** The same, but the disk is full. *)
Definition full_disk : App.Services :=
  App.mkServices None (App.initiate_auth cognito) (App.respond_to_auth_challenge cognito)
    (App.get_user cognito) (App.scan cognito) (App.json_loads cognito)
    (App.named_temporary_file cognito)
    (fun _ _ => Some (OtherException "OSError" "No space left on device"))
    (App.upload_file cognito).

Definition idle : App.Widgets :=
  App.mkWidgets "" "" false "" "" false false "Upload" false false.

Definition typing (username password : string) : App.Widgets :=
  App.mkWidgets username password true "" "" false false "Upload" false false.

Definition choosing (new_password : string) : App.Widgets :=
  App.mkWidgets "" "" false new_password new_password true false "Upload" false false.

Definition leaving : App.Widgets :=
  App.mkWidgets "" "" false "" "" false false "Account" false true.

(** A session with a pending password change, and one that is signed in. *)
Definition pending : App.State :=
  App.mkState []
    (App.set_temp_session (Some "session-1")
       (App.set_temp_username (Some "alice")
          (App.set_password_change_required (Some true) anonymous)))
    ∅.

Definition alice_info : App.UserInfoResult :=
  App.mkUserInfoResult true (Some "alice")
    (Some {["email" := "alice@example.com"; "custom:role" := "user"]}) None.

Definition signed_in : App.State :=
  App.mkState []
    (App.mkSessionState (Some true) (Some "access-1") (Some "id-1") (Some "refresh-1")
       (Some alice_info) None None None (Some "Account")
       (Some [mkAnswer World.DEADLINE "Answer: 1 June" (Some " ")])
       (Some (Some World.docurl)) (Some (Some "doc-1")) (Some (Some "rfi.pdf")))
    ∅.

End Desk.

(** ** The results on the page *)

(** What [display_results] puts on the page. *)
#[warnings="-register-all"]
Inductive Widget : Type :=
| Subheader (text : string)                      (* st.subheader *)
| Expander (label : string) (body : list Widget) (* with st.expander(label): *)
| Markdown (text : string)                       (* st.markdown *)
| WriteText (text : string).                     (* st.write *)

(** [s[:n]] *)
Fixpoint str_take (n : nat) (s : string) : string :=
  match n, s with
  | S k, String c rest => String c (str_take k rest)
  | _, _ => EmptyString
  end.

(** The body of the expander of one result. *)
Definition result_body (result : Answer) : list Widget :=
  [ Markdown "### Answer";
    if negb (PyStr.is_blank (answer result))
    then WriteText (answer result)
    else WriteText "No answer found for this question." ]
  ++ match metadata result with
     | Some m =>
         if negb (PyStr.is_blank m) then [Markdown "### Source"; WriteText m] else []
     | None => []
     end.

(** [processed_results] is [None] when the session has no such key. *)
Definition display_results (processed_results : option (list Answer)) : list Widget :=
  match processed_results with
  | Some ((_ :: _) as results) =>
      Subheader "Document Analysis Results"
      :: imap (fun i result =>
                 Expander ("Question " +:+ PyStr.str_nat (i + 1) +:+ ": "
                           +:+ str_take 100 (question result) +:+ "...")
                   (result_body result))
           results
  | _ => []
  end.

(** Reading the page: the bodies of the expanders, and whether a body shows a
    source. *)
Definition expander_bodies (page : list Widget) : list (list Widget) :=
  omap (fun widget => match widget with
                      | Expander _ body => Some body
                      | _ => None
                      end) page.

Definition shows_source (body : list Widget) : bool :=
  existsb (fun widget => match widget with
                         | Markdown text => String.eqb text "### Source"
                         | _ => false
                         end) body.

(** * Properties *)

(** ** Python strings and the chunker on examples *)

Example split_two_questions :
  PyStr.split (PyStr.nl +:+ PyStr.nl)
    ("Here are the questions:" +:+ PyStr.nl +:+ PyStr.nl +:+
     "1. What is the deadline?" +:+ PyStr.nl +:+ PyStr.nl +:+
     "2. What is the budget?")
  = ["Here are the questions:"; "1. What is the deadline?"; "2. What is the budget?"].
Proof. reflexivity. Qed.

Example split_three_newlines :
  PyStr.split (PyStr.nl +:+ PyStr.nl) ("a" +:+ PyStr.nl +:+ PyStr.nl +:+ PyStr.nl +:+ "b")
  = ["a"; PyStr.nl +:+ "b"].
Proof. reflexivity. Qed.

Example split_empty : PyStr.split (PyStr.nl +:+ PyStr.nl) "" = [""].
Proof. reflexivity. Qed.

Example contains_inner : PyStr.contains "I could not find" "Sorry, I could not find it" = true.
Proof. reflexivity. Qed.

Example str_nat_12 : PyStr.str_nat 12 = "12".
Proof. reflexivity. Qed.

Example token_windows_overlap :
  token_windows 4 2 ["a"; "b"; "c"; "d"; "e"; "f"; "g"]
  = [["a"; "b"; "c"; "d"]; ["c"; "d"; "e"; "f"]; ["e"; "f"; "g"]; ["g"]].
Proof. reflexivity. Qed.

(** ** Lists of events *)

(** If the events of [l1] all satisfy [P] and [x] does not, an occurrence
    of [x] in [l1 ++ l2] lies in [l2]. *)
Lemma app_split_outside {A} (P : A -> Prop) (l1 l2 before after : list A) (x : A) :
  Forall P l1 -> ~ P x ->
  l1 ++ l2 = before ++ x :: after ->
  exists b, before = l1 ++ b /\ l2 = b ++ x :: after.
Proof.
  revert before. induction l1 as [|y l1 IH]; intros before HP Hx Heq.
  - exists before. split; [reflexivity | exact Heq].
  - inversion HP as [|? ? Hy HP']; subst.
    destruct before as [|b before]; simpl in Heq.
    + injection Heq as -> _. contradiction.
    + injection Heq as -> Heq.
      destruct (IH before HP' Hx Heq) as (b' & -> & ->).
      exists b'. split; reflexivity.
Qed.

(** If the events of [l2] all satisfy [P] and [x] does not, an occurrence
    of [x] in [l1 ++ l2] lies in [l1]. *)
Lemma app_split_inside {A} (P : A -> Prop) (l1 l2 before after : list A) (x : A) :
  Forall P l2 -> ~ P x ->
  l1 ++ l2 = before ++ x :: after ->
  exists a, l1 = before ++ x :: a /\ after = a ++ l2.
Proof.
  revert before. induction l1 as [|y l1 IH]; intros before HP Hx Heq; simpl in Heq.
  - exfalso. subst l2. apply Forall_app in HP as [_ HP].
    inversion HP; contradiction.
  - destruct before as [|b before]; simpl in Heq.
    + injection Heq as -> <-. exists l1. split; reflexivity.
    + injection Heq as -> Heq.
      destruct (IH before HP Hx Heq) as (a & -> & ->).
      exists a. split; reflexivity.
Qed.

Lemma extend_extend (s : State) (e1 e2 : list event) :
  extend (extend s e1) e2 = extend s (e1 ++ e2).
Proof. unfold extend. simpl. rewrite <- app_assoc. reflexivity. Qed.

Lemma extend_nil (s : State) : extend s [] = s.
Proof. destruct s. unfold extend. simpl. rewrite app_nil_r. reflexivity. Qed.

Lemma retrieval_inputs_app (l1 l2 : list event) :
  retrieval_inputs (l1 ++ l2) = retrieval_inputs l1 ++ retrieval_inputs l2.
Proof. apply omap_app. Qed.

Lemma statuses_written_app (l1 l2 : list event) :
  statuses_written (l1 ++ l2) = statuses_written l1 ++ statuses_written l2.
Proof. apply omap_app. Qed.

Lemma statuses_stored_app (l1 l2 : list event) :
  statuses_stored (l1 ++ l2) = statuses_stored l1 ++ statuses_stored l2.
Proof. apply omap_app. Qed.

Lemma generation_calls_elem (req : ModelRequest) (tr : list event) :
  InvokeModel req ∈ tr -> req ∈ generation_calls tr.
Proof.
  intros Hin. unfold generation_calls. apply list_elem_of_omap.
  exists (InvokeModel req). split; [exact Hin | reflexivity].
Qed.

Lemma retrieval_inputs_messages (l : list event) :
  Forall (fun e => is_message e = true) l -> retrieval_inputs l = [].
Proof.
  induction 1 as [|e l He _ IH]; [reflexivity|].
  destruct e; try discriminate He; exact IH.
Qed.

Lemma statuses_written_none (l : list event) :
  Forall (fun e => is_put_item e = false) l -> statuses_written l = [].
Proof.
  induction 1 as [|e l He _ IH]; [reflexivity|].
  destruct e; try discriminate He; exact IH.
Qed.

Lemma statuses_stored_none (l : list event) :
  Forall (fun e => is_put_item e = false) l -> statuses_stored l = [].
Proof.
  induction 1 as [|e l He _ IH]; [reflexivity|].
  destruct e; try discriminate He; exact IH.
Qed.

(** ** Running computations *)

Lemma bind_run {S A B} (m : M S A) (k : A -> M S B) (s : S) :
  bind m k s =
  match m s with
  | (s', inr a) => k a s'
  | (s', inl e) => (s', inl e)
  end.
Proof. reflexivity. Qed.

Lemma try_except_run {S A} (body : M S A) (handler : exn -> M S A) (s : S) :
  try_except body handler s =
  match body s with
  | (s', inl e) => handler e s'
  | (s', inr a) => (s', inr a)
  end.
Proof. reflexivity. Qed.

(** ** The Answer Resolver *)

Section AnswerResolver.

Variable env : Env.

Local Abbreviation request := (retrieve_request env).
Local Abbreviation resolve := (resolve_question env).

Ltac run_resolve :=
  unfold resolve_question, scope, try_except, bind, world, call, update,
    lift_exn, st_error, log, ret, extend; simpl.

(** The retrieval call raised: the handler leaves the error record. *)
Lemma resolve_question_raised (q : string) (s : State) (e : exn) :
  retrieve_and_generate env (trace s) (request q) = inl e ->
  resolve q s =
    (extend s [RetrieveAndGenerate (request q);
               StError ("Error during API call: " +:+ str_exn e)],
     inr error_record).
Proof.
  intros H. run_resolve. rewrite H. simpl. rewrite <- app_assoc. reflexivity.
Qed.

(** The answer holds one of the negative phrases. *)
Lemma resolve_question_negative (q : string) (s : State) (response : RetrieveResponse) :
  retrieve_and_generate env (trace s) (request q) = inr response ->
  no_negative_phrase (output_text response) = false ->
  resolve q s =
    (extend s [RetrieveAndGenerate (request q)], inr (mkAnswer q " " (Some " "))).
Proof.
  intros H Hn. run_resolve. rewrite H. simpl. rewrite Hn. reflexivity.
Qed.

(** A positive answer whose first citation has no retrieved reference. *)
Lemma resolve_question_uncited (q : string) (s : State) (response : RetrieveResponse)
    (c : Citation) (cs : list Citation) :
  retrieve_and_generate env (trace s) (request q) = inr response ->
  no_negative_phrase (output_text response) = true ->
  citations response = c :: cs ->
  retrievedReferences c = [] ->
  resolve q s =
    (extend s [RetrieveAndGenerate (request q)],
     inr (mkAnswer q ("Answer: " +:+ output_text response) (Some " "))).
Proof.
  intros H Hn Hc Hr. run_resolve. rewrite H. simpl. rewrite Hn, Hc. simpl.
  rewrite Hr. reflexivity.
Qed.

(** A positive answer whose first citation's first reference is in S3. *)
Lemma resolve_question_cited (q : string) (s : State) (response : RetrieveResponse)
    (c : Citation) (cs : list Citation) (r : RetrievedReference)
    (rs : list RetrievedReference) (loc : S3Location) :
  retrieve_and_generate env (trace s) (request q) = inr response ->
  no_negative_phrase (output_text response) = true ->
  citations response = c :: cs ->
  retrievedReferences c = r :: rs ->
  s3Location (location r) = Some loc ->
  resolve q s =
    (extend s [RetrieveAndGenerate (request q)],
     inr (mkAnswer q ("Answer: " +:+ output_text response) (Some ("url: " +:+ uri loc)))).
Proof.
  intros H Hn Hc Hr Hl. run_resolve. rewrite H. simpl. rewrite Hn, Hc. simpl.
  rewrite Hr. simpl. rewrite Hl. reflexivity.
Qed.

(** Whatever the service does, one sub-question costs one retrieval call
    and at most one message, yields one record and never raises. *)
Lemma resolve_question_run (q : string) (s : State) :
  exists (a : Answer) (msgs : list event),
    resolve q s = (extend s (RetrieveAndGenerate (request q) :: msgs), inr a)
    /\ Forall (fun e => is_message e = true) msgs
    /\ (question a = q \/ question a = "").
Proof.
  destruct (retrieve_and_generate env (trace s) (request q)) as [e|response] eqn:H.
  - eexists _, [_]. rewrite (resolve_question_raised _ _ _ H).
    split; [reflexivity|]. split; [repeat constructor | right; reflexivity].
  - run_resolve. rewrite H. simpl.
    destruct (no_negative_phrase (output_text response)); simpl.
    + destruct (citations response) as [|c cs]; simpl.
      * eexists _, [_]. rewrite <- app_assoc. split; [reflexivity|].
        split; [repeat constructor | left; reflexivity].
      * destruct (retrievedReferences c) as [|r rs]; simpl.
        -- eexists _, []. split; [reflexivity|]. split; [constructor | left; reflexivity].
        -- destruct (s3Location (location r)); simpl.
           ++ eexists _, []. split; [reflexivity|]. split; [constructor | left; reflexivity].
           ++ eexists _, [_]. rewrite <- app_assoc. split; [reflexivity|].
              split; [repeat constructor | left; reflexivity].
    + eexists _, []. split; [reflexivity|]. split; [constructor | left; reflexivity].
Qed.

(** [get_answer] runs [resolve_question] on the sub-questions, one after
    the other, and collects the records. *)
Lemma for_each_collect {S A B} (f : A -> M S B) (l : list A) (acc : list B) (s : S) :
  for_each (fun answers x => y <- f x ;; ret (answers ++ [y])) l acc s =
  (ys <- map_m f l ;; ret (acc ++ ys)) s.
Proof.
  revert acc s. induction l as [|x l IH]; intros acc s; simpl.
  - unfold bind, ret. rewrite app_nil_r. reflexivity.
  - rewrite !bind_run. destruct (f x s) as [s1 [e|y]]; [reflexivity|].
    unfold ret at 1. rewrite IH, !bind_run.
    destruct (map_m f l s1) as [s2 [e|ys]]; [reflexivity|].
    unfold ret. rewrite <- app_assoc. reflexivity.
Qed.

Lemma get_answer_map_m (questions : string) (s : State) :
  get_answer env questions s = map_m resolve (sub_questions questions) s.
Proof.
  unfold get_answer. rewrite for_each_collect. unfold bind, ret.
  fold blank_line. fold (sub_questions questions).
  destruct (map_m resolve (sub_questions questions) s) as [s' [e|ys]]; reflexivity.
Qed.

(** One record for each sub-question, one call for each sub-question, in
    the order of the sub-questions; no exception leaves the loop. *)
Lemma resolve_all_run (qs : list string) (s : State) :
  exists (answers : list Answer) (evs : list event),
    map_m resolve qs s = (extend s evs, inr answers)
    /\ length answers = length qs
    /\ retrieval_inputs evs = qs
    /\ Forall (fun e => is_generation_call e = false /\ is_put_item e = false) evs
    /\ Forall2 (fun q a => exists s0, (resolve q s0).2 = inr a) qs answers.
Proof.
  revert s. induction qs as [|q qs IH]; intros s; simpl.
  - exists [], []. unfold ret. rewrite extend_nil. repeat split; constructor.
  - destruct (resolve_question_run q s) as (a & msgs & Hq & Hmsgs & _).
    destruct (IH (extend s (RetrieveAndGenerate (request q) :: msgs)))
      as (answers & evs & Hrest & Hlen & Hin & Hev & Hord).
    exists (a :: answers), ((RetrieveAndGenerate (request q) :: msgs) ++ evs).
    unfold bind. rewrite Hq, Hrest. unfold ret. rewrite extend_extend.
    split; [reflexivity|]. split; [simpl; congruence|].
    split.
    { rewrite retrieval_inputs_app. simpl. fold (retrieval_inputs msgs).
      rewrite (retrieval_inputs_messages _ Hmsgs). simpl. congruence. }
    split.
    { apply Forall_app. split; [|exact Hev]. constructor; [split; reflexivity|].
      eapply Forall_impl; [exact Hmsgs|]. intros [] He; try discriminate He; split; reflexivity. }
    constructor; [|exact Hord]. exists s. rewrite Hq. reflexivity.
Qed.

(** A retrieval call that raised, found in the trace of the loop: the
    record at the position of the call is the error record, a message follows
    the call, and the sub-questions after it are still sent. *)
Lemma resolve_all_raised (qs : list string) (s s' : State) (r : exn + list Answer)
    (before after : list event) (req : RetrieveRequest) (e : exn) :
  map_m resolve qs s = (s', r) ->
  trace s' = trace s ++ before ++ RetrieveAndGenerate req :: after ->
  retrieve_and_generate env (trace s ++ before) req = inl e ->
  exists (answers : list Answer) (after' : list event),
    r = inr answers
    /\ answers !! length (retrieval_inputs before) = Some error_record
    /\ qs !! length (retrieval_inputs before) = Some (input_text req)
    /\ after = StError ("Error during API call: " +:+ str_exn e) :: after'
    /\ retrieval_inputs after' = drop (S (length (retrieval_inputs before))) qs.
Proof.
  revert s s' r before.
  induction qs as [|q qs IH]; intros s s' r before Hrun Htr Hcall; simpl in Hrun.
  - unfold ret in Hrun. injection Hrun as <- <-.
    apply (f_equal length) in Htr. rewrite !length_app in Htr. simpl in Htr. lia.
  - rewrite bind_run in Hrun.
    destruct (resolve_question_run q s) as (a & msgs & Hq & Hmsgs & _).
    rewrite Hq, bind_run in Hrun.
    destruct (resolve_all_run qs (extend s (RetrieveAndGenerate (request q) :: msgs)))
      as (answers & evs & Hrest & Hlen & Hin & _ & _).
    rewrite Hrest in Hrun. unfold ret in Hrun. injection Hrun as <- <-.
    rewrite extend_extend in Htr. simpl in Htr.
    apply app_inv_head in Htr.
    destruct before as [|b before]; simpl in Htr.
    + (* the raising call is the call for [q] *)
      injection Htr as <- <-. rewrite app_nil_r in Hcall.
      rewrite (resolve_question_raised _ _ _ Hcall) in Hq.
      injection Hq as Hm Ha. apply app_inv_head in Hm. injection Hm as Hm.
      subst a msgs.
      exists (error_record :: answers), evs. simpl.
      rewrite drop_0. repeat split; try reflexivity. exact Hin.
    + (* the raising call comes later *)
      injection Htr as <- Htr.
      destruct (app_split_outside (fun e => is_message e = true) msgs evs before after
                  (RetrieveAndGenerate req) Hmsgs ltac:(discriminate) Htr)
        as (b & -> & Hevs).
      destruct (IH (extend s (RetrieveAndGenerate (request q) :: msgs)) _ _ b
                  Hrest) as (answers' & after' & Ha & Hrec & Hqs & Hafter & Hdrop).
      { simpl. rewrite Hevs, <- !app_assoc. reflexivity. }
      { simpl. rewrite <- app_assoc. exact Hcall. }
      injection Ha as <-.
      exists (a :: answers), after'. simpl.
      rewrite retrieval_inputs_app, (retrieval_inputs_messages _ Hmsgs). simpl.
      repeat split; assumption.
Qed.

Lemma no_negative_phrase_false (t : string) :
  no_negative_phrase t = false <->
  exists p, p ∈ negative_phrases /\ PyStr.contains p t = true.
Proof.
  unfold no_negative_phrase. split.
  - intros H. destruct (forallb _ _) eqn:E in H; [discriminate|].
    clear H. induction negative_phrases as [|p l IH]; [discriminate|].
    simpl in E. apply andb_false_iff in E as [E|E].
    + exists p. split; [left|]. destruct (PyStr.contains p t); [reflexivity|discriminate].
    + destruct (IH E) as (p' & Hin & Hp'). exists p'. split; [right; exact Hin | exact Hp'].
  - intros (p & Hin & Hp). apply not_true_is_false. intros H.
    rewrite forallb_forall in H. apply list_elem_of_In in Hin.
    specialize (H p Hin). rewrite Hp in H. discriminate.
Qed.

(** C3 (as amended): when the retrieval call for a sub-question returns, a
    response whose text holds one of the five negative phrases ("I could not
    find" among them) is recorded with the sub-question, the one-space answer
    " " and the one-space citation " "; blank, not an error marker.  A response
    without such a phrase whose citation list is not empty is recorded with the
    answer "Answer: " followed by the text and, as citation, "url: " followed by
    the S3 locator of the first reference of the first citation when that
    citation has references, else the one-space placeholder " ". *)
Theorem get_answer_records_response (q : string) (s : State) (response : RetrieveResponse) :
  retrieve_and_generate env (trace s) (request q) = inr response ->
  ((exists p, p ∈ negative_phrases /\ PyStr.contains p (output_text response) = true) ->
   (resolve q s).2 = inr (mkAnswer q " " (Some " ")))
  /\ (PyStr.contains "I could not find" (output_text response) = true ->
      (resolve q s).2 = inr (mkAnswer q " " (Some " ")))
  /\ (no_negative_phrase (output_text response) = true ->
      forall c cs, citations response = c :: cs ->
        (retrievedReferences c = [] ->
         (resolve q s).2 =
           inr (mkAnswer q ("Answer: " +:+ output_text response) (Some " ")))
        /\ (forall r rs loc,
              retrievedReferences c = r :: rs ->
              s3Location (location r) = Some loc ->
              (resolve q s).2 =
                inr (mkAnswer q ("Answer: " +:+ output_text response)
                       (Some ("url: " +:+ uri loc))))).
Proof.
  intros Hcall. split; [|split].
  - intros Hneg. apply no_negative_phrase_false in Hneg.
    rewrite (resolve_question_negative _ _ _ Hcall Hneg). reflexivity.
  - intros Hfind.
    assert (Hneg : no_negative_phrase (output_text response) = false).
    { apply no_negative_phrase_false. exists "I could not find".
      split; [|exact Hfind]. unfold negative_phrases. set_solver. }
    rewrite (resolve_question_negative _ _ _ Hcall Hneg). reflexivity.
  - intros Hpos c cs Hc. split.
    + intros Hr. rewrite (resolve_question_uncited _ _ _ _ _ Hcall Hpos Hc Hr). reflexivity.
    + intros r rs loc Hr Hl.
      rewrite (resolve_question_cited _ _ _ _ _ _ _ _ Hcall Hpos Hc Hr Hl). reflexivity.
Qed.

(** C4: [get_answer] works on the segments that splitting its argument on
    double newlines gives, the first segment left out: it sends exactly these
    to the retrieval service, in their order, returns one record for each of
    them (so no more records than segments), in the same order, and never
    leaves by an exception. *)
Theorem get_answer_one_record_per_sub_question (questions : string) (s : State) :
  get_answer env questions s =
    map_m resolve (tail (PyStr.split (PyStr.nl +:+ PyStr.nl) questions)) s
  /\ exists (answers : list Answer) (evs : list event),
       get_answer env questions s = (extend s evs, inr answers)
       /\ retrieval_inputs evs = tail (PyStr.split (PyStr.nl +:+ PyStr.nl) questions)
       /\ length answers = length (tail (PyStr.split (PyStr.nl +:+ PyStr.nl) questions))
       /\ length answers <= length (PyStr.split (PyStr.nl +:+ PyStr.nl) questions)
       /\ Forall2 (fun q a => (exists s0, (resolve q s0).2 = inr a)
                              /\ (question a = q \/ question a = ""))
            (tail (PyStr.split (PyStr.nl +:+ PyStr.nl) questions)) answers.
Proof.
  split; [apply get_answer_map_m|].
  rewrite get_answer_map_m. unfold sub_questions, blank_line.
  destruct (resolve_all_run (tail (PyStr.split (PyStr.nl +:+ PyStr.nl) questions)) s)
    as (answers & evs & Hrun & Hlen & Hin & _ & Hord).
  exists answers, evs. repeat split; try assumption.
  - rewrite Hlen. destruct (PyStr.split _ questions); simpl; lia.
  - eapply Forall2_impl; [exact Hord|].
    intros q a [s0 Ha]. split; [exists s0; exact Ha|].
    destruct (resolve_question_run q s0) as (a' & msgs & Hq & _ & Hqa).
    rewrite Hq in Ha. simpl in Ha. injection Ha as <-. exact Hqa.
Qed.

(** C5: a retrieval call of [get_answer] that raises leaves, at the
    position of its sub-question, a record with the error marker as answer and
    the blank citation; a message is shown, the sub-questions after it are
    still sent to the service, and the list that is returned has one record for
    every sub-question, the failed one included. *)
Theorem get_answer_isolates_failed_call (questions : string) (s : State)
    (before after : list event) (req : RetrieveRequest) (e : exn) :
  trace (get_answer env questions s).1
    = trace s ++ before ++ RetrieveAndGenerate req :: after ->
  retrieve_and_generate env (trace s ++ before) req = inl e ->
  exists (answers : list Answer) (a : Answer) (after' : list event),
    (get_answer env questions s).2 = inr answers
    /\ length answers = length (sub_questions questions)
    /\ sub_questions questions !! length (retrieval_inputs before) = Some (input_text req)
    /\ answers !! length (retrieval_inputs before) = Some a
    /\ answer a = "Error: Unable to process the question."
    /\ metadata a = Some " "
    /\ after = StError ("Error during API call: " +:+ str_exn e) :: after'
    /\ retrieval_inputs after'
       = drop (S (length (retrieval_inputs before))) (sub_questions questions).
Proof.
  intros Htr Hcall. rewrite get_answer_map_m in *.
  destruct (map_m resolve (sub_questions questions) s) as [s' r] eqn:Hrun.
  destruct (resolve_all_raised _ _ _ _ _ _ _ _ Hrun Htr Hcall)
    as (answers & after' & -> & Hrec & Hq & Hafter & Hdrop).
  destruct (resolve_all_run (sub_questions questions) s)
    as (answers' & evs & Hrun' & Hlen & _).
  rewrite Hrun in Hrun'. injection Hrun' as _ <-.
  exists answers, error_record, after'. repeat split; assumption.
Qed.

(** C10: the record left for a sub-question whose retrieval call raised
    has the empty string as its question: the text of the sub-question, which
    was sent to the service, is not in the record. *)
Theorem get_answer_error_record_has_no_question (questions : string) (s : State)
    (before after : list event) (req : RetrieveRequest) (e : exn) :
  trace (get_answer env questions s).1
    = trace s ++ before ++ RetrieveAndGenerate req :: after ->
  retrieve_and_generate env (trace s ++ before) req = inl e ->
  exists (answers : list Answer) (a : Answer),
    (get_answer env questions s).2 = inr answers
    /\ sub_questions questions !! length (retrieval_inputs before) = Some (input_text req)
    /\ answers !! length (retrieval_inputs before) = Some a
    /\ question a = "".
Proof.
  intros Htr Hcall. rewrite get_answer_map_m in *.
  destruct (map_m resolve (sub_questions questions) s) as [s' r] eqn:Hrun.
  destruct (resolve_all_raised _ _ _ _ _ _ _ _ Hrun Htr Hcall)
    as (answers & after' & -> & Hrec & Hq & _).
  exists answers, error_record. repeat split; assumption.
Qed.

End AnswerResolver.

(** ** The Question Extractor *)

Section QuestionExtractor.

Variable env : Env.

Ltac run_get_questions :=
  unfold get_questions, try_except_ClientError, bind, call, lift_exn,
    st_error, log, ret, raise, extend; simpl.

(** The generation call raised: a [ClientError] is shown on the page, and
    the exception goes on to the caller. *)
Lemma get_questions_raised (c : Chunk) (s : State) (e : exn) :
  invoke_model env (trace s) (model_request c) = inl e ->
  get_questions env c s =
    (extend s (InvokeModel (model_request c) :: client_error_log e), inl e).
Proof.
  intros H. run_get_questions. rewrite H. unfold client_error_log.
  destruct (is_ClientError e); simpl; [rewrite <- app_assoc|]; reflexivity.
Qed.

Lemma get_questions_returned (c : Chunk) (s : State) (result : ModelResult) :
  invoke_model env (trace s) (model_request c) = inr result ->
  get_questions env c s = (extend s [InvokeModel (model_request c)], extracted result).
Proof.
  intros H. run_get_questions. rewrite H. unfold extracted.
  destruct (default [] (content result)) as [|output rest]; [reflexivity|].
  simpl. destruct (block_text output) as [text|]; simpl; [|reflexivity].
  destruct (PyStr.startswith text "Unfortunately"); reflexivity.
Qed.

(** C6: of a generation response [get_questions] reads the first content
    block only: it returns the empty string when the text of that block begins
    with "Unfortunately", and the text itself, unchanged, otherwise; the blocks
    after the first have no part in the result. *)
Theorem get_questions_reads_first_block (c : Chunk) (s : State) (result : ModelResult)
    (first : ContentBlock) (others : list ContentBlock) (text : string) :
  invoke_model env (trace s) (model_request c) = inr result ->
  content result = Some (first :: others) ->
  block_text first = Some text ->
  get_questions env c s =
    (extend s [InvokeModel (model_request c)],
     inr (Some (if PyStr.startswith text "Unfortunately" then "" else text))).
Proof.
  intros Hcall Hcontent Htext.
  rewrite (get_questions_returned _ _ _ Hcall). unfold extracted.
  rewrite Hcontent. simpl. rewrite Htext. reflexivity.
Qed.

(** A response without content blocks: the loop body never runs and the
    function returns [None]. *)
Lemma get_questions_no_block (c : Chunk) (s : State) (result : ModelResult) :
  invoke_model env (trace s) (model_request c) = inr result ->
  default [] (content result) = [] ->
  get_questions env c s = (extend s [InvokeModel (model_request c)], inr None).
Proof.
  intros Hcall Hcontent.
  rewrite (get_questions_returned _ _ _ Hcall). unfold extracted.
  rewrite Hcontent. reflexivity.
Qed.

End QuestionExtractor.

(** ** The chunk loop *)

Section ChunkLoop.

Variable env : Env.

Lemma extend_inj (s : State) (e1 e2 : list event) :
  extend s e1 = extend s e2 -> e1 = e2.
Proof.
  unfold extend. intros H. injection H as H. exact (app_inv_head _ _ _ H).
Qed.

(** [get_answer] never raises; its events are retrieval calls and
    messages. *)
Lemma get_answer_run (questions : string) (s : State) :
  exists (answers : list Answer) (evs : list event),
    get_answer env questions s = (extend s evs, inr answers)
    /\ Forall (fun e => is_generation_call e = false /\ is_put_item e = false) evs.
Proof.
  rewrite get_answer_map_m.
  destruct (resolve_all_run env (sub_questions questions) s)
    as (answers & evs & Hrun & _ & _ & Hev & _).
  exists answers, evs. split; assumption.
Qed.

(** One turn of the loop whose generation call returned: after the call
    come the events of [get_answer], if it ran; then the loop either ends (an
    exception on reading the response, or the [break]) or goes on with the
    chunks that are left. *)
Lemma chunk_loop_turn (c : Chunk) (rest : list Chunk) (max_chunks : nat)
    (qa : list Answer) (n : nat) (s : State) (result : ModelResult) :
  invoke_model env (trace s) (model_request c) = inr result ->
  exists evs1 : list event,
    Forall (fun e => is_generation_call e = false /\ is_put_item e = false) evs1
    /\ ((exists r, chunk_loop env max_chunks (c :: rest) qa n s
                   = (extend s (InvokeModel (model_request c) :: evs1), r))
        \/ (exists qa', chunk_loop env max_chunks (c :: rest) qa n s
                        = chunk_loop env max_chunks rest qa' (n + 1)
                            (extend s (InvokeModel (model_request c) :: evs1)))).
Proof.
  intros Hcall. simpl. rewrite bind_run, (get_questions_returned _ _ _ _ Hcall).
  destruct (extracted result) as [e|output].
  { exists []. split; [constructor|]. left. eexists. reflexivity. }
  rewrite bind_run. destruct (truthy output).
  - rewrite bind_run.
    destruct (get_answer_run (default "" output) (extend s [InvokeModel (model_request c)]))
      as (answers & evs & Hga & Hev).
    rewrite Hga. unfold ret at 1 2. rewrite extend_extend. simpl.
    exists evs. split; [exact Hev|].
    destruct (max_chunks <=? n + 1); [left | right]; eexists; reflexivity.
  - unfold ret at 1. exists []. split; [constructor|].
    destruct (max_chunks <=? n + 1); [left | right]; eexists; reflexivity.
Qed.

(** The loop touches neither the table nor the session, and writes no
    status. *)
Lemma chunk_loop_run (chunks : list Chunk) (max_chunks : nat) (qa : list Answer)
    (n : nat) (s : State) :
  exists (evs : list event) (r : exn + list Answer * nat),
    chunk_loop env max_chunks chunks qa n s = (extend s evs, r)
    /\ Forall (fun e => is_put_item e = false) evs.
Proof.
  revert qa n s. induction chunks as [|c rest IH]; intros qa n s.
  - exists [], (inr (qa, n)). simpl. unfold ret. rewrite extend_nil. split; constructor.
  - destruct (invoke_model env (trace s) (model_request c)) as [e|result] eqn:Hcall.
    + simpl. rewrite bind_run, (get_questions_raised _ _ _ _ Hcall).
      eexists _, _. split; [reflexivity|].
      constructor; [reflexivity|]. unfold client_error_log.
      destruct (is_ClientError e); repeat constructor.
    + destruct (chunk_loop_turn c rest max_chunks qa n s result Hcall)
        as (evs1 & Hev1 & [[r Hstop] | [qa' Hgo]]).
      * rewrite Hstop. eexists _, _. split; [reflexivity|].
        constructor; [reflexivity|].
        eapply Forall_impl; [exact Hev1|]. intros ? [_ H]; exact H.
      * rewrite Hgo.
        destruct (IH qa' (n + 1) (extend s (InvokeModel (model_request c) :: evs1)))
          as (evs2 & r & Hloop & Hev2).
        rewrite Hloop, extend_extend. eexists _, _. split; [reflexivity|].
        simpl. constructor; [reflexivity|]. apply Forall_app. split; [|exact Hev2].
        eapply Forall_impl; [exact Hev1|]. intros ? [_ H]; exact H.
Qed.

(** A generation call that raised, found among the events of the loop:
    the loop ended there with that exception, and after the call came only what
    [get_questions] itself shows for a [ClientError]. *)
Lemma chunk_loop_failed_call (chunks : list Chunk) (max_chunks : nat)
    (qa : list Answer) (n : nat) (s : State) (evs : list event)
    (r : exn + list Answer * nat)
    (before after : list event) (req : ModelRequest) (e : exn) :
  chunk_loop env max_chunks chunks qa n s = (extend s evs, r) ->
  evs = before ++ InvokeModel req :: after ->
  invoke_model env (trace s ++ before) req = inl e ->
  r = inl e /\ after = client_error_log e.
Proof.
  revert qa n s evs r before.
  induction chunks as [|c rest IH]; intros qa n s evs r before Hrun Hevs Hcall.
  - simpl in Hrun. unfold ret in Hrun. rewrite <- (extend_nil s) in Hrun at 1.
    injection Hrun as Hrun _. apply app_inv_head in Hrun. rewrite <- Hrun in Hevs.
    destruct before; discriminate Hevs.
  - assert (Hquiet : forall l b a,
              Forall (fun e0 => is_generation_call e0 = false) l ->
              l = b ++ InvokeModel req :: a -> False).
    { intros l b a Hl ->. apply Forall_app in Hl as [_ Hl].
      inversion Hl as [|? ? Hx _]. discriminate Hx. }
    destruct (invoke_model env (trace s) (model_request c)) as [e0|result] eqn:Hc.
    + simpl in Hrun. rewrite bind_run, (get_questions_raised _ _ _ _ Hc) in Hrun.
      injection Hrun as Hrun <-. apply app_inv_head in Hrun. subst evs.
      destruct before as [|b before]; simpl in Hevs.
      * injection Hevs as <- <-. rewrite app_nil_r in Hcall.
        rewrite Hc in Hcall. injection Hcall as <-. split; reflexivity.
      * injection Hevs as _ Hevs. exfalso. eapply Hquiet; [|exact Hevs].
        unfold client_error_log. destruct (is_ClientError e0); repeat constructor.
    + destruct (chunk_loop_turn c rest max_chunks qa n s result Hc)
        as (evs1 & Hev1 & Hturn).
      assert (Hev1' : Forall (fun e0 => is_generation_call e0 = false) evs1).
      { eapply Forall_impl; [exact Hev1|]. intros ? [H _]; exact H. }
      assert (Hfirst : forall tl, evs = InvokeModel (model_request c) :: tl ->
                exists b, before = InvokeModel (model_request c) :: b
                          /\ tl = b ++ InvokeModel req :: after).
      { intros tl ->. destruct before as [|b before]; simpl in Hevs.
        - injection Hevs as <- _. rewrite app_nil_r in Hcall.
          rewrite Hc in Hcall. discriminate Hcall.
        - injection Hevs as <- Hevs. exists before. split; [reflexivity | exact Hevs]. }
      destruct Hturn as [[r0 Hstop] | [qa' Hgo]].
      * rewrite Hstop in Hrun. injection Hrun as Hrun _. apply app_inv_head in Hrun.
        destruct (Hfirst _ (eq_sym Hrun)) as (b & _ & Hb).
        exfalso. eapply Hquiet; eassumption.
      * rewrite Hgo in Hrun.
        destruct (chunk_loop_run rest max_chunks qa' (n + 1)
                    (extend s (InvokeModel (model_request c) :: evs1)))
          as (evs2 & r2 & H2 & _).
        rewrite H2 in Hrun. rewrite extend_extend in Hrun.
        injection Hrun as Hrun <-. apply app_inv_head in Hrun.
        destruct (Hfirst _ (eq_sym Hrun)) as (b & -> & Hb).
        destruct (app_split_outside (fun e0 => is_generation_call e0 = false)
                    evs1 evs2 b after (InvokeModel req) Hev1'
                    ltac:(discriminate) Hb) as (b' & -> & Hevs2).
        eapply (IH _ _ _ _ _ b' H2 Hevs2).
        simpl. rewrite <- app_assoc. exact Hcall.
Qed.

End ChunkLoop.

(** ** Status writes *)

Section Run.

Variable env : Env.

Local Abbreviation status_item := (status_item env).

Lemma update_document_status_run (document_id file_name s3_url : string)
    (status : Status) (metadata : option Metadata) (s : State) :
  update_document_status env document_id file_name s3_url status metadata s =
    (written s (status_item s document_id file_name s3_url status metadata)
       (put_item env (trace s)
          (status_item s document_id file_name s3_url status metadata)),
     inr (bool_decide (put_item env (trace s)
            (status_item s document_id file_name s3_url status metadata) = None))).
Proof.
  unfold update_document_status, try_except, bind, dynamodb_put_item, st_error,
    log, ret, written, extend. fold (status_item s document_id file_name s3_url status metadata).
  destruct (put_item env (trace s) _) as [e|]; simpl; [|reflexivity].
  rewrite <- app_assoc. reflexivity.
Qed.

Lemma written_trace (s : State) (item : Item) (refusal : option exn) :
  exists msgs,
    trace (written s item refusal)
      = trace s ++ PutItem item (bool_decide (refusal = None)) :: msgs
    /\ Forall (fun e => is_message e = true) msgs.
Proof.
  destruct refusal as [e|]; simpl.
  - eexists [_]. split; [reflexivity | repeat constructor].
  - exists []. split; [reflexivity | constructor].
Qed.

Lemma written_session (s : State) (item : Item) (refusal : option exn) :
  session (written s item refusal) = session s.
Proof. destruct refusal; reflexivity. Qed.

Lemma statuses_written_messages (l : list event) :
  Forall (fun e => is_message e = true) l -> statuses_written l = [].
Proof.
  intros H. apply statuses_written_none.
  eapply Forall_impl; [exact H|]. intros [] He; try discriminate He; reflexivity.
Qed.

Lemma statuses_stored_messages (l : list event) :
  Forall (fun e => is_message e = true) l -> statuses_stored l = [].
Proof.
  intros H. apply statuses_stored_none.
  eapply Forall_impl; [exact H|]. intros [] He; try discriminate He; reflexivity.
Qed.

(** The [except] block: the message, then the ERROR write. *)
Lemma run_chunk_document_except_run (docurl document_id : string) (e : exn) (s : State) :
  run_chunk_document_except env docurl document_id e s =
    (let s1 := extend s [StError ("An error occurred in run_chunk_document: " +:+ str_exn e)] in
     let item := status_item s1 document_id (file_name (session s)) docurl ERROR
                   (Some (ErrorInfo (str_exn e))) in
     written s1 item (put_item env (trace s1) item),
     inr tt).
Proof.
  unfold run_chunk_document_except.
  rewrite bind_run. unfold st_error at 1, log at 1.
  rewrite bind_run. unfold get_session at 1.
  rewrite bind_run, update_document_status_run. reflexivity.
Qed.

(** The report block: [process_message] puts the report into the session,
    then comes the COMPLETED write. *)
Lemma run_chunk_document_report_run (docurl document_id : string) (max_chunks : nat)
    (qa : list Answer) (n : nat) (s : State) :
  run_chunk_document_report env (process_message) docurl document_id max_chunks qa n s =
    (let s1 := mkState (trace s) (table s)
                 (mkSession (user_info (session s)) (file_name (session s)) qa) in
     let item := status_item s1 document_id (file_name (session s)) docurl COMPLETED
                   (Some (RunStats n max_chunks (length qa))) in
     written s1 item (put_item env (trace s1) item),
     inr tt).
Proof.
  unfold run_chunk_document_report.
  rewrite bind_run. unfold process_message at 1. simpl.
  rewrite bind_run. unfold get_session at 1.
  rewrite bind_run, update_document_status_run. reflexivity.
Qed.

(** The ways through [run_chunk_document]: after the PROCESSING write and
    the loading of the document, either the loader or the chunker raised, or
    the loop over the chunks raised, or the loop returned and the report block
    ran; in the first two cases the [except] block ran from the state that was
    reached. *)
Lemma run_chunk_document_cases (docurl document_id : string) (s : State) :
  let run := run_chunk_document env process_message docurl document_id s in
  let itemP := status_item s document_id (file_name (session s)) docurl PROCESSING None in
  let s1 := written s itemP (put_item env (trace s) itemP) in
  let s2 := extend s1 [LoadAndSplit docurl] in
  match load_and_split env (trace s1) docurl with
  | inl e => run = run_chunk_document_except env docurl document_id e s2
  | inr documents =>
      match split_documents env 1000 0 documents with
      | inl e => run = run_chunk_document_except env docurl document_id e s2
      | inr chunks =>
          let s3 := extend s2 [StInfo ("Document processed into "
                                        +:+ PyStr.str_nat (length chunks)
                                        +:+ " text chunks")] in
          exists (evs : list event) (r : exn + list Answer * nat),
            chunk_loop env (length chunks) chunks [] 0 s3 = (extend s3 evs, r)
            /\ Forall (fun e => is_put_item e = false) evs
            /\ match r with
               | inl e =>
                   run = run_chunk_document_except env docurl document_id e (extend s3 evs)
               | inr qc =>
                   run = run_chunk_document_report env process_message docurl document_id
                           (length chunks) qc.1 qc.2 (extend s3 evs)
               end
      end
  end.
Proof.
  intros run itemP s1 s2.
  assert (Hstart : run =
    try_except
      (fun s0 =>
         (documents <- call (LoadAndSplit docurl) (fun h => load_and_split env h docurl) ;;
          split_docs <- lift_exn (split_documents env 1000 0 documents) ;;
          st_info ("Document processed into " +:+ PyStr.str_nat (length split_docs)
                   +:+ " text chunks") ;;
          qc <- chunk_loop env (length split_docs)
                  (take (length split_docs) split_docs) [] 0 ;;
          run_chunk_document_report env process_message docurl document_id
            (length split_docs) qc.1 qc.2) s1)
      (run_chunk_document_except env docurl document_id) s).
  { subst run. unfold run_chunk_document. rewrite !try_except_run, bind_run.
    unfold get_session at 1. rewrite bind_run, update_document_status_run.
    reflexivity. }
  assert (Hload : forall r,
            load_and_split env (trace s1) docurl = r ->
            call (LoadAndSplit docurl) (fun h => load_and_split env h docurl) s1 = (s2, r)).
  { intros r <-. reflexivity. }
  destruct (load_and_split env (trace s1) docurl) as [e|documents].
  { rewrite Hstart, try_except_run. cbv beta.
    rewrite bind_run, (Hload _ eq_refl). reflexivity. }
  destruct (split_documents env 1000 0 documents) as [e|chunks] eqn:Hsplit.
  { rewrite Hstart, try_except_run. cbv beta.
    rewrite bind_run, (Hload _ eq_refl), bind_run. unfold lift_exn at 1.
    rewrite Hsplit. reflexivity. }
  intros s3.
  destruct (chunk_loop_run env chunks (length chunks) [] 0 s3) as (evs & r & Hloop & Hevs).
  exists evs, r. split; [exact Hloop|]. split; [exact Hevs|].
  assert (Hrun : run =
            match r with
            | inl e => run_chunk_document_except env docurl document_id e (extend s3 evs)
            | inr qc =>
                run_chunk_document_report env process_message docurl document_id
                  (length chunks) qc.1 qc.2 (extend s3 evs)
            end).
  { rewrite Hstart, try_except_run. cbv beta.
    rewrite bind_run, (Hload _ eq_refl), bind_run. unfold lift_exn at 1.
    rewrite Hsplit, bind_run. unfold st_info at 1, log at 1.
    change (mkState _ _ _) with s3. rewrite bind_run, firstn_all, Hloop.
    destruct r as [e|qc]; [reflexivity|].
    rewrite run_chunk_document_report_run. reflexivity. }
  destruct r as [e|qc]; exact Hrun.
Qed.

Lemma statuses_written_written (s : State) (item : Item) (refusal : option exn) :
  statuses_written (trace (written s item refusal))
  = statuses_written (trace s) ++ [item_status item].
Proof.
  destruct (written_trace s item refusal) as (msgs & -> & Hmsgs).
  rewrite statuses_written_app. simpl.
  change (omap _ msgs) with (statuses_written msgs).
  rewrite (statuses_written_messages _ Hmsgs). reflexivity.
Qed.

Lemma statuses_stored_written (s : State) (item : Item) (refusal : option exn) :
  statuses_stored (trace (written s item refusal))
  = statuses_stored (trace s)
    ++ (if bool_decide (refusal = None) then [item_status item] else []).
Proof.
  destruct refusal as [e|]; simpl; rewrite statuses_stored_app; simpl; reflexivity.
Qed.

Lemma statuses_written_extend (s : State) (evs : list event) :
  Forall (fun e => is_put_item e = false) evs ->
  statuses_written (trace (extend s evs)) = statuses_written (trace s).
Proof.
  intros H. simpl. rewrite statuses_written_app, (statuses_written_none _ H).
  apply app_nil_r.
Qed.

Lemma statuses_stored_extend (s : State) (evs : list event) :
  Forall (fun e => is_put_item e = false) evs ->
  statuses_stored (trace (extend s evs)) = statuses_stored (trace s).
Proof.
  intros H. simpl. rewrite statuses_stored_app, (statuses_stored_none _ H).
  apply app_nil_r.
Qed.

(** The status of the document in the table after a write. *)
Lemma stored_status_written (s : State) (item : Item) (refusal : option exn) :
  stored_status (written s item refusal) (item_document_id item)
  = if bool_decide (refusal = None)
    then Some (item_status item)
    else stored_status s (item_document_id item).
Proof.
  unfold stored_status. destruct refusal as [e|]; simpl; [reflexivity|].
  rewrite lookup_insert_eq. reflexivity.
Qed.

(** A first write, events that are no writes, and a closing write, all
    for one document. *)
Lemma two_writes (s sE : State) (itemP itemT : Item) (refP refT : option exn)
    (evs : list event) (document_id : string) :
  trace sE = trace (written s itemP refP) ++ evs ->
  table sE = table (written s itemP refP) ->
  Forall (fun e => is_put_item e = false) evs ->
  item_document_id itemP = document_id ->
  item_document_id itemT = document_id ->
  exists stored : list Status,
    statuses_written (trace (written sE itemT refT))
      = statuses_written (trace s) ++ [item_status itemP; item_status itemT]
    /\ statuses_stored (trace (written sE itemT refT))
       = statuses_stored (trace s) ++ stored
    /\ stored `sublist_of` [item_status itemP; item_status itemT]
    /\ stored_status (written sE itemT refT) document_id
       = match last stored with
         | Some st => Some st
         | None => stored_status s document_id
         end.
Proof.
  intros Htr Htab Hevs <- HidT.
  exists ((if bool_decide (refP = None) then [item_status itemP] else [])
          ++ (if bool_decide (refT = None) then [item_status itemT] else [])).
  rewrite statuses_written_written, statuses_stored_written, Htr.
  rewrite statuses_written_app, statuses_stored_app.
  rewrite (statuses_written_none _ Hevs), (statuses_stored_none _ Hevs), !app_nil_r.
  rewrite statuses_written_written, statuses_stored_written, <- !app_assoc.
  split; [reflexivity|]. split; [reflexivity|].
  rewrite <- HidT, stored_status_written, HidT.
  assert (HsE : stored_status sE (item_document_id itemP)
                = stored_status (written s itemP refP) (item_document_id itemP)).
  { unfold stored_status. rewrite Htab. reflexivity. }
  rewrite HsE, stored_status_written.
  destruct (bool_decide (refP = None)), (bool_decide (refT = None)); simpl;
    (split; [repeat first [apply sublist_nil | apply sublist_skip | apply sublist_cons
                          | reflexivity]
            | reflexivity]).
Qed.

(** The statuses of one call of [run_chunk_document]: PROCESSING, then
    one terminal status; the call itself never raises. *)
Lemma run_chunk_document_statuses (docurl document_id : string) (s : State) :
  exists (t : Status) (stored : list Status),
    terminal t = true
    /\ (run_chunk_document env process_message docurl document_id s).2 = inr tt
    /\ statuses_written
         (trace (run_chunk_document env process_message docurl document_id s).1)
       = statuses_written (trace s) ++ [PROCESSING; t]
    /\ statuses_stored
         (trace (run_chunk_document env process_message docurl document_id s).1)
       = statuses_stored (trace s) ++ stored
    /\ stored `sublist_of` [PROCESSING; t]
    /\ stored_status (run_chunk_document env process_message docurl document_id s).1
         document_id
       = match last stored with
         | Some st => Some st
         | None => stored_status s document_id
         end.
Proof.
  pose proof (run_chunk_document_cases docurl document_id s) as Hcases.
  cbv zeta in Hcases.
  set (itemP := status_item s document_id (file_name (session s)) docurl PROCESSING None) in *.
  set (refP := put_item env (trace s) itemP) in *.
  set (s1 := written s itemP refP) in *.
  assert (Hexcept : forall e evs,
            Forall (fun e0 => is_put_item e0 = false) evs ->
            run_chunk_document env process_message docurl document_id s
              = run_chunk_document_except env docurl document_id e (extend s1 evs) ->
            exists (t : Status) (stored : list Status),
              terminal t = true
              /\ (run_chunk_document env process_message docurl document_id s).2 = inr tt
              /\ statuses_written
                   (trace (run_chunk_document env process_message docurl document_id s).1)
                 = statuses_written (trace s) ++ [PROCESSING; t]
              /\ statuses_stored
                   (trace (run_chunk_document env process_message docurl document_id s).1)
                 = statuses_stored (trace s) ++ stored
              /\ stored `sublist_of` [PROCESSING; t]
              /\ stored_status
                   (run_chunk_document env process_message docurl document_id s).1
                   document_id
                 = match last stored with
                   | Some st => Some st
                   | None => stored_status s document_id
                   end).
  { intros e evs Hevs ->. rewrite run_chunk_document_except_run. cbv zeta. cbn [fst snd].
    set (sE := extend (extend s1 evs) _). set (itemE := status_item sE _ _ _ _ _).
    destruct (two_writes s sE itemP itemE refP (put_item env (trace sE) itemE)
                (evs ++ [StError ("An error occurred in run_chunk_document: "
                                  +:+ str_exn e)]) document_id)
      as (stored & Hw & Hs & Hsub & Htab); try reflexivity.
    { subst sE. simpl. rewrite <- app_assoc. reflexivity. }
    { apply Forall_app. split; [exact Hevs | repeat constructor]. }
    exists ERROR, stored. repeat split; assumption. }
  destruct (load_and_split env (trace s1) docurl) as [e|documents].
  { apply (Hexcept e [LoadAndSplit docurl]); [repeat constructor | exact Hcases]. }
  destruct (split_documents env 1000 0 documents) as [e|chunks].
  { apply (Hexcept e [LoadAndSplit docurl]); [repeat constructor | exact Hcases]. }
  destruct Hcases as (evs & r & _ & Hevs & Hrun).
  rewrite !extend_extend in Hrun.
  destruct r as [e|qc].
  { eapply Hexcept; [|exact Hrun].
    simpl. constructor; [reflexivity|]. constructor; [reflexivity | exact Hevs]. }
  rewrite Hrun, run_chunk_document_report_run. cbv zeta. cbn [fst snd].
  set (sC := mkState _ _ _). set (itemC := status_item sC _ _ _ _ _).
  destruct (two_writes s sC itemP itemC refP (put_item env (trace sC) itemC)
              (LoadAndSplit docurl :: StInfo ("Document processed into "
                                               +:+ PyStr.str_nat (length chunks)
                                               +:+ " text chunks") :: evs) document_id)
    as (stored & Hw & Hs & Hsub & Htab); try reflexivity.
  { constructor; [reflexivity|]. constructor; [reflexivity | exact Hevs]. }
  exists COMPLETED, stored. repeat split; assumption.
Qed.

(** The "Process Document" branch after a successful upload. *)
Lemma display_upload_tab_run (uploaded_file_name document_id url : string) (s : State) :
  let s0 := mkState (trace s ++ [StSuccess ("File uploaded successfully to " +:+ url)])
              (table s)
              (mkSession (user_info (session s)) uploaded_file_name
                 (processed_results (session s))) in
  let itemU := status_item s0 document_id uploaded_file_name url UPLOADED None in
  display_upload_tab env uploaded_file_name document_id (Some url) s =
    (extend (run_chunk_document env process_message url document_id
               (written s0 itemU (put_item env (trace s0) itemU))).1
       [StSuccess "Document processed successfully!"],
     inr tt).
Proof.
  intros s0 itemU. unfold display_upload_tab.
  rewrite bind_run. unfold set_file_name at 1.
  rewrite bind_run. unfold st_success at 1, log at 1. cbn [trace table session].
  rewrite bind_run, update_document_status_run. fold s0. fold itemU.
  rewrite bind_run.
  destruct (run_chunk_document_statuses url document_id
              (written s0 itemU (put_item env (trace s0) itemU)))
    as (_ & _ & _ & Hret & _).
  destruct (run_chunk_document env process_message url document_id _) as [s' r].
  simpl in Hret. subst r. reflexivity.
Qed.

(** C7: in one run the statuses handed to the documents table are
    UPLOADED, then PROCESSING, then one of COMPLETED and ERROR, and nothing
    after it.  The statuses that the table accepted are these in the same
    order, without those of the writes it refused, and the status that the
    table holds for the document at the end is the last one it accepted (the
    one it held before, if it refused them all). *)
Theorem run_status_transitions (uploaded_file_name document_id url : string) (s : State) :
  exists (t : Status) (stored : list Status),
    terminal t = true
    /\ statuses_written
         (trace (display_upload_tab env uploaded_file_name document_id (Some url) s).1)
       = statuses_written (trace s) ++ [UPLOADED; PROCESSING; t]
    /\ statuses_stored
         (trace (display_upload_tab env uploaded_file_name document_id (Some url) s).1)
       = statuses_stored (trace s) ++ stored
    /\ stored `sublist_of` [UPLOADED; PROCESSING; t]
    /\ stored_status
         (display_upload_tab env uploaded_file_name document_id (Some url) s).1 document_id
       = match last stored with
         | Some st => Some st
         | None => stored_status s document_id
         end.
Proof.
  rewrite display_upload_tab_run. cbv zeta.
  set (s0 := mkState _ _ _).
  set (itemU := status_item s0 document_id uploaded_file_name url UPLOADED None).
  set (refU := put_item env (trace s0) itemU).
  destruct (run_chunk_document_statuses url document_id (written s0 itemU refU))
    as (t & stored & Ht & _ & Hw & Hs & Hsub & Htab).
  exists t, ((if bool_decide (refU = None) then [UPLOADED] else []) ++ stored).
  split; [exact Ht|].
  cbn [fst]. rewrite statuses_written_extend, statuses_stored_extend by (repeat constructor).
  rewrite Hw, Hs, statuses_written_written, statuses_stored_written.
  subst s0. cbn [trace]. rewrite statuses_written_app, statuses_stored_app.
  simpl. rewrite (app_nil_r (statuses_written (trace s))), (app_nil_r (statuses_stored (trace s))).
  rewrite <- !app_assoc. split; [reflexivity|]. split; [reflexivity|].
  split.
  { destruct (bool_decide (refU = None)); simpl.
    - apply sublist_skip. exact Hsub.
    - apply sublist_cons. exact Hsub. }
  change (stored_status (extend ?x _) document_id) with (stored_status x document_id).
  rewrite Htab, last_app.
  destruct (last stored) as [st|]; [reflexivity|].
  change document_id with (item_document_id itemU) at 1.
  rewrite stored_status_written.
  destruct (bool_decide (refU = None)); reflexivity.
Qed.

Lemma run_chunk_document_except_trace (docurl document_id : string) (e : exn) (s : State) :
  exists (item : Item) (stored : bool) (msgs : list event),
    trace (run_chunk_document_except env docurl document_id e s).1
      = trace s ++ StError ("An error occurred in run_chunk_document: " +:+ str_exn e)
                   :: PutItem item stored :: msgs
    /\ item_status item = ERROR
    /\ item_document_id item = document_id
    /\ item_metadata item = Some (ErrorInfo (str_exn e))
    /\ Forall (fun ev => is_message ev = true) msgs
    /\ session (run_chunk_document_except env docurl document_id e s).1 = session s.
Proof.
  rewrite run_chunk_document_except_run. cbv zeta. cbn [fst].
  set (s1 := extend s _). set (item := status_item s1 _ _ _ _ _).
  destruct (written_trace s1 item (put_item env (trace s1) item)) as (msgs & Htr & Hmsgs).
  exists item, (bool_decide (put_item env (trace s1) item = None)), msgs.
  rewrite Htr, written_session. subst s1. simpl. rewrite <- app_assoc.
  repeat split; try reflexivity. exact Hmsgs.
Qed.

Lemma messages_quiet (l : list event) :
  Forall (fun ev => is_message ev = true) l ->
  Forall (fun ev => is_generation_call ev = false /\ is_retrieval_call ev = false) l.
Proof.
  intros H. eapply Forall_impl; [exact H|].
  intros [] Hev; try discriminate Hev; split; reflexivity.
Qed.

Lemma no_generation_call_inside (l before after : list event) (req : ModelRequest) :
  Forall (fun ev => is_generation_call ev = false) l ->
  l = before ++ InvokeModel req :: after -> False.
Proof.
  intros Hl ->. apply Forall_app in Hl as [_ Hl].
  inversion Hl as [|? ? Hx _]. discriminate Hx.
Qed.

(** C1 (as amended): a generation call of a run that raised ends the run.
    After the call come only the message of [get_questions] for a
    [ClientError], the message of the run's handler and the ERROR write with the
    text of the exception: no retrieval call for that chunk, no call for a later
    chunk, no second attempt; the report is not published, and the terminal
    status is ERROR whether or not other chunks had been processed. *)
Theorem run_aborts_on_failed_extraction (docurl document_id : string) (s : State)
    (before after : list event) (req : ModelRequest) (e : exn) :
  trace (run_chunk_document env process_message docurl document_id s).1
    = trace s ++ before ++ InvokeModel req :: after ->
  invoke_model env (trace s ++ before) req = inl e ->
  exists (item : Item) (stored : bool) (msgs : list event),
    after = client_error_log e
            ++ StError ("An error occurred in run_chunk_document: " +:+ str_exn e)
               :: PutItem item stored :: msgs
    /\ item_status item = ERROR
    /\ item_document_id item = document_id
    /\ item_metadata item = Some (ErrorInfo (str_exn e))
    /\ Forall (fun ev => is_message ev = true) msgs
    /\ Forall (fun ev => is_generation_call ev = false /\ is_retrieval_call ev = false) after
    /\ statuses_written after = [ERROR]
    /\ session (run_chunk_document env process_message docurl document_id s).1 = session s.
Proof.
  intros Htr Hcall.
  pose proof (run_chunk_document_cases docurl document_id s) as Hcases.
  cbv zeta in Hcases.
  set (itemP := status_item s document_id (file_name (session s)) docurl PROCESSING None) in *.
  set (refP := put_item env (trace s) itemP) in *.
  destruct (written_trace s itemP refP) as (msgsP & HtrP & HmsgsP).
  set (s1 := written s itemP refP) in *.
  assert (HquietP : Forall (fun ev => is_generation_call ev = false)
                      (PutItem itemP (bool_decide (refP = None)) :: msgsP)).
  { constructor; [reflexivity|]. eapply Forall_impl; [exact HmsgsP|].
    intros [] Hev; try discriminate Hev; reflexivity. }
  (* a run that went to the handler without a generation call *)
  assert (Hnocall : forall e0 evs,
            Forall (fun ev => is_generation_call ev = false) evs ->
            run_chunk_document env process_message docurl document_id s
              = run_chunk_document_except env docurl document_id e0 (extend s1 evs) ->
            False).
  { intros e0 evs Hevs Hrun. rewrite Hrun in Htr.
    destruct (run_chunk_document_except_trace docurl document_id e0 (extend s1 evs))
      as (item & stored & msgs & Hx & _ & _ & _ & Hmsgs & _).
    rewrite Hx in Htr. simpl in Htr. rewrite HtrP, <- !app_assoc in Htr.
    apply app_inv_head in Htr.
    eapply no_generation_call_inside; [|exact Htr].
    simpl. constructor; [reflexivity|]. apply Forall_app. split.
    { inversion HquietP; assumption. }
    apply Forall_app. split; [exact Hevs|].
    constructor; [reflexivity|]. constructor; [reflexivity|].
    eapply Forall_impl; [exact Hmsgs|]. intros [] Hev; try discriminate Hev; reflexivity. }
  destruct (load_and_split env (trace s1) docurl) as [e0|documents].
  { exfalso. apply (Hnocall e0 [LoadAndSplit docurl]); [repeat constructor | exact Hcases]. }
  destruct (split_documents env 1000 0 documents) as [e0|chunks].
  { exfalso. apply (Hnocall e0 [LoadAndSplit docurl]); [repeat constructor | exact Hcases]. }
  destruct Hcases as (evs & r & Hloop & Hevs & Hrun).
  set (info := StInfo _) in *.
  rewrite !extend_extend in Hrun.
  (* the trace of the run ends with what the handler or the report block added *)
  assert (Hshape : exists ending,
            trace (run_chunk_document env process_message docurl document_id s).1
              = trace s ++ (PutItem itemP (bool_decide (refP = None)) :: msgsP
                            ++ [LoadAndSplit docurl; info]) ++ evs ++ ending
            /\ Forall (fun ev => is_generation_call ev = false) ending
            /\ match r with
               | inl e0 =>
                   exists (item : Item) (stored : bool) (msgs : list event),
                     ending = StError ("An error occurred in run_chunk_document: "
                                       +:+ str_exn e0)
                              :: PutItem item stored :: msgs
                     /\ item_status item = ERROR
                     /\ item_document_id item = document_id
                     /\ item_metadata item = Some (ErrorInfo (str_exn e0))
                     /\ Forall (fun ev => is_message ev = true) msgs
                     /\ session (run_chunk_document env process_message docurl document_id s).1
                        = session s
               | inr _ => True
               end).
  { destruct r as [e0|qc].
    - rewrite Hrun.
      destruct (run_chunk_document_except_trace docurl document_id e0
                  (extend s1 ([LoadAndSplit docurl] ++ [info] ++ evs)))
        as (item & stored & msgs & Hx & Hst & Hid & Hmd & Hmsgs & Hsess).
      eexists. split.
      { rewrite Hx. simpl. rewrite HtrP, <- !app_assoc. reflexivity. }
      split.
      { constructor; [reflexivity|]. constructor; [reflexivity|].
        eapply Forall_impl; [exact Hmsgs|]. intros [] Hev; try discriminate Hev; reflexivity. }
      exists item, stored, msgs. repeat split; try assumption.
      rewrite Hsess. simpl. subst s1. apply written_session.
    - rewrite Hrun, run_chunk_document_report_run. cbv zeta. cbn [fst].
      set (s4 := mkState _ _ _). set (itemC := status_item s4 _ _ _ _ _).
      destruct (written_trace s4 itemC (put_item env (trace s4) itemC))
        as (msgs & Hx & Hmsgs).
      eexists. split.
      { rewrite Hx. subst s4. simpl. rewrite HtrP, <- !app_assoc. reflexivity. }
      split; [|exact I].
      constructor; [reflexivity|].
      eapply Forall_impl; [exact Hmsgs|]. intros [] Hev; try discriminate Hev; reflexivity. }
  destruct Hshape as (ending & Hshape & Hending & Hr).
  rewrite Hshape in Htr. apply app_inv_head in Htr.
  assert (Hhead : Forall (fun ev => is_generation_call ev = false)
                    (PutItem itemP (bool_decide (refP = None))
                     :: msgsP ++ [LoadAndSplit docurl; info])).
  { constructor; [reflexivity|]. apply Forall_app. split.
    - inversion HquietP; assumption.
    - repeat constructor. }
  destruct (app_split_outside (fun ev => is_generation_call ev = false) _ _ before after
              (InvokeModel req) Hhead ltac:(discriminate) Htr) as (b & -> & Hb).
  destruct (app_split_inside (fun ev => is_generation_call ev = false) _ _ b after
              (InvokeModel req) Hending ltac:(discriminate) Hb) as (a & -> & ->).
  destruct (chunk_loop_failed_call env chunks (length chunks) [] 0 _ _ _ b a req e
              Hloop eq_refl) as [-> ->].
  { simpl. rewrite HtrP, <- !app_assoc. simpl.
    match goal with
    | |- invoke_model _ ?h _ = _ =>
        match type of Hcall with
        | invoke_model _ ?h' _ = _ => replace h with h'; [exact Hcall|]
        end
    end.
    simpl. rewrite <- !app_assoc. reflexivity. }
  destruct Hr as (item & stored & msgs & -> & Hst & Hid & Hmd & Hmsgs & Hsess).
  exists item, stored, msgs. repeat split; try assumption; try reflexivity.
  - apply Forall_app. split.
    + unfold client_error_log. destruct (is_ClientError e); repeat constructor.
    + constructor; [split; reflexivity|]. constructor; [split; reflexivity|].
      apply messages_quiet. exact Hmsgs.
  - rewrite statuses_written_app. unfold client_error_log.
    destruct (is_ClientError e); simpl;
      change (omap _ msgs) with (statuses_written msgs);
      rewrite (statuses_written_messages _ Hmsgs), Hst; reflexivity.
Qed.

(** C2: a run on a document whose text is empty, with the chunker of the
    specification: the chunker raises [ChunkingError], the handler of the run
    shows its message and writes ERROR with it, and the trace of the run holds
    neither a generation call nor a retrieval call; nothing is published. *)
Theorem empty_document_fails_before_any_call (docurl document_id : string) (s : State) :
  (forall h, load_and_split env h docurl = inr []) ->
  split_documents env 1000 0 [] = Chunker 1000 0 [] ->
  exists (itemP item : Item) (storedP stored : bool) (msgsP msgs : list event),
    trace (run_chunk_document env process_message docurl document_id s).1
      = trace s ++ PutItem itemP storedP :: msgsP
                ++ LoadAndSplit docurl
                   :: StError ("An error occurred in run_chunk_document: "
                               +:+ str_exn (ChunkingError "input text is empty"))
                   :: PutItem item stored :: msgs
    /\ item_status itemP = PROCESSING
    /\ item_status item = ERROR
    /\ item_metadata item = Some (ErrorInfo "input text is empty")
    /\ Forall (fun ev => is_message ev = true) (msgsP ++ msgs)
    /\ Forall (fun ev => is_generation_call ev = false /\ is_retrieval_call ev = false)
         (PutItem itemP storedP :: msgsP
          ++ LoadAndSplit docurl
             :: StError ("An error occurred in run_chunk_document: "
                         +:+ str_exn (ChunkingError "input text is empty"))
             :: PutItem item stored :: msgs)
    /\ session (run_chunk_document env process_message docurl document_id s).1 = session s.
Proof.
  intros Hload Hsplit.
  pose proof (run_chunk_document_cases docurl document_id s) as Hcases.
  cbv zeta in Hcases. rewrite Hload, Hsplit in Hcases. simpl in Hcases.
  set (itemP := status_item s document_id (file_name (session s)) docurl PROCESSING None) in *.
  set (refP := put_item env (trace s) itemP) in *.
  destruct (written_trace s itemP refP) as (msgsP & HtrP & HmsgsP).
  destruct (run_chunk_document_except_trace docurl document_id
              (ChunkingError "input text is empty")
              (extend (written s itemP refP) [LoadAndSplit docurl]))
    as (item & stored & msgs & Hx & Hst & _ & Hmd & Hmsgs & Hsess).
  exists itemP, item, (bool_decide (refP = None)), stored, msgsP, msgs.
  rewrite Hcases, Hx, Hsess. simpl. rewrite HtrP, <- !app_assoc, written_session.
  repeat split; try assumption; try reflexivity.
  - apply Forall_app. split; assumption.
  - constructor; [split; reflexivity|]. apply Forall_app. split.
    + apply messages_quiet. exact HmsgsP.
    + repeat (constructor; [split; reflexivity|]). apply messages_quiet. exact Hmsgs.
Qed.

(** The source itself has no check for an empty document: when the
    splitter answers with no chunk at all, the loop has nothing to do and the
    run is marked COMPLETED with an empty report. *)
Lemma run_without_chunks_completes (docurl document_id : string) (s : State)
    (documents : list Token) :
  (forall h, load_and_split env h docurl = inr documents) ->
  split_documents env 1000 0 documents = inr [] ->
  exists evs : list event,
    trace (run_chunk_document env process_message docurl document_id s).1 = trace s ++ evs
    /\ statuses_written evs = [PROCESSING; COMPLETED]
    /\ Forall (fun ev => is_generation_call ev = false /\ is_retrieval_call ev = false) evs
    /\ processed_results
         (session (run_chunk_document env process_message docurl document_id s).1) = [].
Proof.
  intros Hload Hsplit.
  pose proof (run_chunk_document_cases docurl document_id s) as Hcases.
  cbv zeta in Hcases. rewrite Hload, Hsplit in Hcases.
  destruct Hcases as (evs & r & Hloop & _ & Hrun).
  simpl in Hloop. unfold ret in Hloop. injection Hloop as Hevs <-.
  assert (Hnil : evs = []).
  { eapply app_inv_head. rewrite app_nil_r. symmetry. exact Hevs. }
  subst evs. clear Hevs.
  rewrite Hrun, run_chunk_document_report_run. cbv zeta. cbn [fst].
  set (itemP := status_item s document_id (file_name (session s)) docurl PROCESSING None) in *.
  set (refP := put_item env (trace s) itemP) in *.
  destruct (written_trace s itemP refP) as (msgsP & HtrP & HmsgsP).
  set (s4 := mkState _ _ _). set (itemC := status_item s4 _ _ _ _ _).
  destruct (written_trace s4 itemC (put_item env (trace s4) itemC)) as (msgs & Hx & Hmsgs).
  eexists. rewrite Hx, written_session. subst s4. cbn [trace session].
  rewrite !extend_nil. cbn [extend trace]. rewrite HtrP, <- !app_assoc.
  split; [reflexivity|]. split.
  { simpl. rewrite statuses_written_app, (statuses_written_messages _ HmsgsP). simpl.
    change (omap _ msgs) with (statuses_written msgs).
    rewrite (statuses_written_messages _ Hmsgs). reflexivity. }
  split.
  { constructor; [split; reflexivity|]. apply Forall_app. split.
    - apply messages_quiet. exact HmsgsP.
    - repeat (constructor; [split; reflexivity|]). apply messages_quiet. exact Hmsgs. }
  reflexivity.
Qed.

(** The loop of [run_chunk_document], with its counter and its [break],
    visits every chunk in order and appends each chunk's answers. *)
Lemma chunk_loop_report (chunks : list Chunk) (qa : list Answer) (n : nat) (s : State) :
  chunk_loop env (n + length chunks) chunks qa n s =
    (per <- map_m (chunk_answers env) chunks ;;
     ret (qa ++ concat per, n + length chunks)) s.
Proof.
  revert qa n s. induction chunks as [|c rest IH]; intros qa n s.
  - simpl. unfold bind, ret. rewrite app_nil_r, Nat.add_0_r. reflexivity.
  - cbn [chunk_loop map_m]. unfold chunk_answers at 1. rewrite !bind_run.
    destruct (get_questions env c s) as [s1 [e|output]]; [reflexivity|].
    assert (Hnext : forall qa' s',
              (if n + length (c :: rest) <=? n + 1
               then ret (qa', n + 1)
               else chunk_loop env (n + length (c :: rest)) rest qa' (n + 1)) s' =
              (per <- map_m (chunk_answers env) rest ;;
               ret (qa' ++ concat per, n + length (c :: rest))) s').
    { intros qa' s'. destruct rest as [|c' rest'].
      - simpl. rewrite Nat.leb_refl. unfold bind, ret. rewrite app_nil_r. reflexivity.
      - destruct (Nat.leb_spec (n + length (c :: c' :: rest')) (n + 1)) as [Hle|_];
          [simpl in Hle; lia|].
        replace (n + length (c :: c' :: rest')) with (n + 1 + length (c' :: rest'))
          by (simpl; lia).
        apply IH. }
    destruct (truthy output).
    + rewrite !bind_run.
      destruct (get_answer env (default "" output) s1) as [s2 [e|result]]; [reflexivity|].
      unfold ret at 1. etransitivity; [exact (Hnext _ _)|]. rewrite !bind_run.
      destruct (map_m (chunk_answers env) rest s2) as [s3 [e|per]]; [reflexivity|].
      unfold ret. simpl. rewrite <- app_assoc. reflexivity.
    + unfold ret at 1. etransitivity; [exact (Hnext _ _)|]. rewrite !bind_run.
      change (ret [] s1) with (s1, @inr exn (list Answer) []). cbv iota beta.
      rewrite bind_run.
      destruct (map_m (chunk_answers env) rest s1) as [s3 [e|per]]; [reflexivity|].
      unfold ret. reflexivity.
Qed.

End Run.

(** ** The exported document *)

Lemma question_sections_skip (l k : Docx) :
  Forall (fun p => String.eqb (style p) "Heading 1" = false) l ->
  question_sections (l ++ k) = question_sections k.
Proof.
  induction 1 as [|p l Hp _ IH]; [reflexivity|].
  simpl. destruct (l ++ k) as [|q rest] eqn:E.
  - destruct l; [simpl in E; subst k; reflexivity | discriminate E].
  - rewrite Hp. exact IH.
Qed.

Lemma question_sections_heading (p q : Paragraph) (rest : Docx) :
  style p = "Heading 1" ->
  question_sections (p :: q :: rest)
  = (paragraph_text p, paragraph_text q) :: question_sections (q :: rest).
Proof. intros H. cbn [question_sections]. rewrite H. reflexivity. Qed.

(** The section of one result: the heading with its number, the question,
    and paragraphs that are no first-level heading. *)
Lemma result_section_shape (n i : nat) (result : Answer) :
  exists (heading body : Paragraph) (others : list Paragraph),
    result_section n i result = heading :: body :: others
    /\ style heading = "Heading 1"
    /\ paragraph_text heading = "Question " +:+ PyStr.str_nat (i + 1) +:+ ":"
    /\ style body = "Normal"
    /\ paragraph_text body = question result
    /\ Forall (fun p => String.eqb (style p) "Heading 1" = false) others.
Proof.
  unfold result_section. eexists _, _, _. split; [reflexivity|].
  split; [reflexivity|]. split; [reflexivity|]. split; [reflexivity|].
  split.
  { unfold paragraph_text. simpl. destruct (question result); reflexivity. }
  constructor; [reflexivity|]. constructor.
  { destruct (negb (PyStr.is_blank (answer result))); reflexivity. }
  apply Forall_app. split.
  - destruct (metadata result) as [m|]; [|constructor].
    destruct (negb (PyStr.is_blank m)); repeat constructor.
  - destruct (i <? n - 1); repeat constructor.
Qed.

Lemma question_sections_results (n : nat) (results : list Answer) (i : nat) :
  question_sections (concat (imap (fun j => result_section n (i + j)) results))
  = imap (fun j r => ("Question " +:+ PyStr.str_nat (i + j + 1) +:+ ":", question r)) results.
Proof.
  revert i. induction results as [|r results IH]; intros i; [reflexivity|].
  rewrite !imap_cons. cbn [concat].
  destruct (result_section_shape n (i + 0) r)
    as (heading & body & others & -> & Hh & Hht & Hb & Hbt & Hothers).
  cbn [app]. rewrite (question_sections_heading _ _ _ Hh), Hht, Hbt.
  change (body :: others ++ ?k) with ((body :: others) ++ k).
  rewrite (question_sections_skip (body :: others))
    by (constructor; [rewrite Hb; reflexivity | exact Hothers]).
  rewrite Nat.add_0_r. f_equal.
  rewrite (imap_ext _ (fun j => result_section n (S i + j)))
    by (intros j x _; simpl; f_equal; lia).
  rewrite IH. apply imap_ext. intros j x _. simpl.
  replace (S (i + j + 1)) with (i + S j + 1) by lia. reflexivity.
Qed.

Lemma question_sections_create_word_document (current_time : string) (results : list Answer) :
  question_sections (create_word_document current_time results)
  = imap (fun i r => ("Question " +:+ PyStr.str_nat (i + 1) +:+ ":", question r)) results.
Proof.
  unfold create_word_document.
  rewrite (question_sections_skip [_; _; _]) by (repeat constructor).
  exact (question_sections_results (length results) results 0).
Qed.

Lemma map_snd_numbered (h : nat -> string) (results : list Answer) :
  map snd (imap (fun i r => (h i, question r)) results) = map question results.
Proof.
  revert h. induction results as [|r results IH]; intros h; [reflexivity|].
  rewrite imap_cons. simpl. f_equal. apply (IH (fun i => h (S i))).
Qed.

(** C8: the report and its export keep the order.  The loop of the run
    returns the answers of the chunks appended in the order of the chunks; the
    answers of one chunk are those of its sub-questions in their order; the
    report block publishes the list as it is; and the question sections of the
    exported document are the questions of the list in the order of the list,
    numbered from 1, the same at every export of that list. *)
Theorem report_and_export_keep_order (env : Env) :
  (forall (chunks : list Chunk) (s : State),
     chunk_loop env (length chunks) chunks [] 0 s =
       (per <- map_m (chunk_answers env) chunks ;;
        ret (concat per, length chunks)) s)
  /\ (forall (questions : string) (s : State),
        get_answer env questions s =
          map_m (resolve_question env) (sub_questions questions) s)
  /\ (forall (docurl document_id : string) (max_chunks : nat) (qa : list Answer)
             (n : nat) (s : State),
        processed_results
          (session (run_chunk_document_report env process_message docurl document_id
                      max_chunks qa n s).1) = qa)
  /\ (forall (current_time : string) (results : list Answer),
        question_sections (create_word_document current_time results)
        = imap (fun i r => ("Question " +:+ PyStr.str_nat (i + 1) +:+ ":", question r))
            results)
  /\ (forall (current_time : string) (results : list Answer),
        map snd (question_sections (create_word_document current_time results))
        = map question results)
  /\ (forall (t1 t2 : string) (results : list Answer),
        question_sections (create_word_document t1 results)
        = question_sections (create_word_document t2 results)).
Proof.
  split; [|split; [|split; [|split; [|split]]]].
  - intros chunks s. exact (chunk_loop_report env chunks [] 0 s).
  - intros questions s. apply get_answer_map_m.
  - intros docurl document_id max_chunks qa n s.
    rewrite run_chunk_document_report_run. cbv zeta. cbn [fst].
    rewrite written_session. reflexivity.
  - apply question_sections_create_word_document.
  - intros current_time results. rewrite question_sections_create_word_document.
    exact (map_snd_numbered
             (fun i => "Question " +:+ PyStr.str_nat (i + 1) +:+ ":") results).
  - intros t1 t2 results. rewrite !question_sections_create_word_document. reflexivity.
Qed.

(** ** The chunker of the specification *)

(** [ceil_div L d] is the least [n] with [L <= n * d]. *)
Lemma ceil_div_spec (L d n : nat) : 0 < d -> ceil_div L d <= n <-> L <= n * d.
Proof.
  intros Hd. unfold ceil_div.
  pose proof (Nat.div_mod_eq (L + d - 1) d) as Hdm.
  pose proof (Nat.mod_upper_bound (L + d - 1) d ltac:(lia)) as Hr.
  split; intros H; nia.
Qed.

Lemma ceil_div_step (L k : nat) :
  ceil_div (S L) (S k) = S (ceil_div (L - k) (S k)).
Proof.
  unfold ceil_div.
  replace (S L + S k - 1) with (L + 1 * S k) by lia.
  rewrite Nat.div_add by lia.
  destruct (Nat.le_gt_cases k L) as [Hle|Hgt].
  - replace (L - k + S k - 1) with L by lia. lia.
  - replace (L - k + S k - 1) with k by lia.
    rewrite !Nat.div_small by lia. reflexivity.
Qed.

Lemma token_windows_length (C Ov : nat) (text : list Token) :
  Ov < C -> length (token_windows C Ov text) = ceil_div (length text) (C - Ov).
Proof.
  intros Hlt. funelim (token_windows C Ov text).
  - unfold ceil_div. simpl. rewrite Nat.div_small by lia. reflexivity.
  - lia.
  - simpl. rewrite H by assumption. rewrite length_drop, Heq. symmetry.
    apply ceil_div_step.
Qed.

Lemma token_windows_bounded (C Ov : nat) (text : list Token) :
  Ov < C ->
  Forall (fun c : Chunk => 0 < length c <= C) (token_windows C Ov text).
Proof.
  intros Hlt. funelim (token_windows C Ov text).
  - constructor.
  - lia.
  - constructor; [|apply H; assumption].
    rewrite length_take. simpl. lia.
Qed.

(** C9: for a text of [L] tokens, chunk size [C] and overlap [Ov < C] the
    chunker of the specification cuts [ceil(L / (C - Ov))] windows, which is
    [ceil(L / C)] when there is no overlap; no window has more than [C] tokens
    and none is empty; a text that is not empty is answered with these
    windows. *)
Theorem chunker_window_count (C Ov : nat) (text : list Token) :
  Ov < C ->
  length (token_windows C Ov text) = ceil_div (length text) (C - Ov)
  /\ (Ov = 0 -> length (token_windows C Ov text) = ceil_div (length text) C)
  /\ Forall (fun c : Chunk => 0 < length c <= C) (token_windows C Ov text)
  /\ (text <> [] -> Chunker C Ov text = inr (token_windows C Ov text)).
Proof.
  intros Hlt. split; [|split; [|split]].
  - apply token_windows_length. exact Hlt.
  - intros ->. rewrite token_windows_length by exact Hlt. rewrite Nat.sub_0_r. reflexivity.
  - apply token_windows_bounded. exact Hlt.
  - intros Hne. destruct text; [contradiction | reflexivity].
Qed.

(** ** The statements on the sample worlds *)

Example scenario_two_answers :
  (get_answer World.answering World.questions_text World.start).2
  = inr [ mkAnswer World.DEADLINE " " (Some " ");
          mkAnswer World.BUDGET "Answer: 2. The budget is 5 million."
            (Some "url: s3://new-rfi-s3-bucket/answers.pdf") ].
Proof. vm_compute. reflexivity. Qed.

Example scenario_statuses :
  statuses_written
    (trace (display_upload_tab World.answering "rfi.pdf" "doc-1" (Some World.docurl)
              World.start).1)
  = [UPLOADED; PROCESSING; COMPLETED].
Proof. vm_compute. reflexivity. Qed.

(** C1, the claim as it stands fails: the document has two chunks, the
    generation call for the first is refused, and the run makes no call for
    the second, publishes nothing and ends in ERROR. *)
Lemma failed_extraction_stops_the_run :
  Chunker 1000 0 World.long_text
    = inr [replicate 1000 "x "; [World.DEADLINE]]
  /\ generation_calls World.throttled_run = [model_request (replicate 1000 "x ")]
  /\ (InvokeModel (model_request [World.DEADLINE]) ∉ World.throttled_run)
  /\ retrieval_inputs World.throttled_run = []
  /\ statuses_written World.throttled_run = [PROCESSING; ERROR]
  /\ processed_results
       (session (run_chunk_document World.throttled process_message World.docurl
                   "doc-1" World.start).1) = [].
Proof.
  split; [vm_compute; reflexivity|]. split; [vm_compute; reflexivity|].
  split.
  { intros Hin. apply generation_calls_elem in Hin.
    replace (generation_calls World.throttled_run)
      with [model_request (replicate 1000 "x ")] in Hin by (vm_compute; reflexivity).
    apply list_elem_of_singleton in Hin. apply (f_equal prompt) in Hin.
    apply (f_equal String.length) in Hin. vm_compute in Hin. discriminate Hin. }
  vm_compute. repeat split; reflexivity.
Qed.

(** The amended C1 on the throttled service. *)
Lemma run_aborts_on_failed_extraction_witness :
  exists (item : Item) (stored : bool) (msgs : list event),
    drop 4 World.throttled_run
    = client_error_log (ClientError "ThrottlingException: Too many requests")
      ++ StError ("An error occurred in run_chunk_document: "
                  +:+ str_exn (ClientError "ThrottlingException: Too many requests"))
         :: PutItem item stored :: msgs
    /\ item_status item = ERROR
    /\ item_document_id item = "doc-1"
    /\ item_metadata item
       = Some (ErrorInfo (str_exn (ClientError "ThrottlingException: Too many requests")))
    /\ Forall (fun ev => is_message ev = true) msgs
    /\ Forall (fun ev => is_generation_call ev = false /\ is_retrieval_call ev = false)
         (drop 4 World.throttled_run)
    /\ statuses_written (drop 4 World.throttled_run) = [ERROR]
    /\ session (run_chunk_document World.throttled process_message World.docurl
                  "doc-1" World.start).1 = session World.start.
Proof.
  apply (run_aborts_on_failed_extraction World.throttled World.docurl "doc-1" World.start
           (take 3 World.throttled_run) (drop 4 World.throttled_run)
           (model_request (replicate 1000 "x "))
           (ClientError "ThrottlingException: Too many requests")).
  - vm_compute. reflexivity.
  - vm_compute. reflexivity.
Defined.

(** C2 on the document without text. *)
Lemma empty_document_fails_before_any_call_witness :
  exists (itemP item : Item) (storedP stored : bool) (msgsP msgs : list event),
    trace (run_chunk_document World.empty_document process_message World.docurl
             "doc-1" World.start).1
      = trace World.start ++ PutItem itemP storedP :: msgsP
          ++ LoadAndSplit World.docurl
             :: StError ("An error occurred in run_chunk_document: "
                         +:+ str_exn (ChunkingError "input text is empty"))
             :: PutItem item stored :: msgs
    /\ item_status itemP = PROCESSING
    /\ item_status item = ERROR
    /\ item_metadata item = Some (ErrorInfo "input text is empty")
    /\ Forall (fun ev => is_message ev = true) (msgsP ++ msgs)
    /\ Forall (fun ev => is_generation_call ev = false /\ is_retrieval_call ev = false)
         (PutItem itemP storedP :: msgsP
          ++ LoadAndSplit World.docurl
             :: StError ("An error occurred in run_chunk_document: "
                         +:+ str_exn (ChunkingError "input text is empty"))
             :: PutItem item stored :: msgs)
    /\ session (run_chunk_document World.empty_document process_message World.docurl
                  "doc-1" World.start).1 = session World.start.
Proof.
  apply (empty_document_fails_before_any_call World.empty_document World.docurl
           "doc-1" World.start).
  - intros h. reflexivity.
  - reflexivity.
Defined.

(** C3, the claim as it stands fails: the answer holds "I could not
    find", and the record has the one-space string, not the empty string, as
    answer and as citation. *)
Lemma negative_answer_is_not_empty :
  PyStr.contains "I could not find" (output_text World.not_found) = true
  /\ retrieve_and_generate World.answering (trace World.start)
       (retrieve_request World.answering World.DEADLINE) = inr World.not_found
  /\ exists a : Answer,
       (resolve_question World.answering World.DEADLINE World.start).2 = inr a
       /\ answer a = " " /\ answer a <> ""
       /\ metadata a = Some " " /\ metadata a <> Some "".
Proof.
  split; [vm_compute; reflexivity|]. split; [vm_compute; reflexivity|].
  exists (mkAnswer World.DEADLINE " " (Some " ")).
  split; [vm_compute; reflexivity|]. repeat split; discriminate.
Qed.

(** The amended C3 on the answering service: the negative answer to the
    first question and the cited answer to the second. *)
Lemma get_answer_records_response_witness :
  (resolve_question World.answering World.DEADLINE World.start).2
    = inr (mkAnswer World.DEADLINE " " (Some " "))
  /\ (resolve_question World.answering World.BUDGET World.start).2
     = inr (mkAnswer World.BUDGET ("Answer: " +:+ output_text World.found)
              (Some ("url: " +:+ "s3://new-rfi-s3-bucket/answers.pdf"))).
Proof.
  split.
  - apply (get_answer_records_response World.answering World.DEADLINE World.start
             World.not_found); vm_compute; reflexivity.
  - destruct (get_answer_records_response World.answering World.BUDGET World.start
                World.found eq_refl) as (_ & _ & Hpositive).
    destruct (Hpositive eq_refl
                (mkCitation [mkRetrievedReference
                               (mkLocation (Some (mkS3Location
                                                    "s3://new-rfi-s3-bucket/answers.pdf")))])
                [] eq_refl) as [_ Hcited].
    exact (Hcited _ [] (mkS3Location "s3://new-rfi-s3-bucket/answers.pdf") eq_refl eq_refl).
Defined.

(** C5 on the retrieval service that is down at the first call. *)
Lemma get_answer_isolates_failed_call_witness :
  exists (answers : list Answer) (a : Answer) (after' : list event),
    (get_answer World.retrieval_down World.questions_text World.start).2 = inr answers
    /\ length answers = length (sub_questions World.questions_text)
    /\ sub_questions World.questions_text !! 0 = Some World.DEADLINE
    /\ answers !! 0 = Some a
    /\ answer a = "Error: Unable to process the question."
    /\ metadata a = Some " "
    /\ drop 1 World.retrieval_down_events
       = StError ("Error during API call: " +:+ "Could not connect to the endpoint")
         :: after'
    /\ retrieval_inputs after' = drop 1 (sub_questions World.questions_text).
Proof.
  apply (get_answer_isolates_failed_call World.retrieval_down World.questions_text
           World.start [] (drop 1 World.retrieval_down_events)
           (retrieve_request World.retrieval_down World.DEADLINE)
           (OtherException "EndpointConnectionError" "Could not connect to the endpoint")).
  - vm_compute. reflexivity.
  - vm_compute. reflexivity.
Defined.

(** C10 on the same service. *)
Lemma get_answer_error_record_has_no_question_witness :
  exists (answers : list Answer) (a : Answer),
    (get_answer World.retrieval_down World.questions_text World.start).2 = inr answers
    /\ sub_questions World.questions_text !! 0 = Some World.DEADLINE
    /\ answers !! 0 = Some a
    /\ question a = "".
Proof.
  apply (get_answer_error_record_has_no_question World.retrieval_down
           World.questions_text World.start [] (drop 1 World.retrieval_down_events)
           (retrieve_request World.retrieval_down World.DEADLINE)
           (OtherException "EndpointConnectionError" "Could not connect to the endpoint")).
  - vm_compute. reflexivity.
  - vm_compute. reflexivity.
Defined.

(** C6 on a response that lists questions and on one that begins with
    the marker and has a second block. *)
Lemma get_questions_reads_first_block_witness :
  get_questions World.answering World.chunk World.start
    = (extend World.start [InvokeModel (model_request World.chunk)],
       inr (Some World.questions_text))
  /\ get_questions World.no_questions World.chunk World.start
     = (extend World.start [InvokeModel (model_request World.chunk)], inr (Some "")).
Proof.
  split.
  - apply (get_questions_reads_first_block World.answering World.chunk World.start
             (mkModelResult (Some [World.text_block World.questions_text]))
             (World.text_block World.questions_text) [] World.questions_text);
      reflexivity.
  - apply (get_questions_reads_first_block World.no_questions World.chunk World.start
             (mkModelResult
                (Some [World.text_block "Unfortunately, the document holds no questions.";
                       World.text_block World.DEADLINE]))
             (World.text_block "Unfortunately, the document holds no questions.")
             [World.text_block World.DEADLINE]
             "Unfortunately, the document holds no questions.");
      reflexivity.
Defined.

(** C9 on seven tokens, windows of four with an overlap of two. *)
Lemma chunker_window_count_witness :
  length (token_windows 4 2 ["a"; "b"; "c"; "d"; "e"; "f"; "g"])
    = ceil_div (length ["a"; "b"; "c"; "d"; "e"; "f"; "g"]) (4 - 2)
  /\ (2 = 0 ->
      length (token_windows 4 2 ["a"; "b"; "c"; "d"; "e"; "f"; "g"])
      = ceil_div (length ["a"; "b"; "c"; "d"; "e"; "f"; "g"]) 4)
  /\ Forall (fun c : Chunk => 0 < length c <= 4)
       (token_windows 4 2 ["a"; "b"; "c"; "d"; "e"; "f"; "g"])
  /\ (["a"; "b"; "c"; "d"; "e"; "f"; "g"] <> [] ->
      Chunker 4 2 ["a"; "b"; "c"; "d"; "e"; "f"; "g"]
      = inr (token_windows 4 2 ["a"; "b"; "c"; "d"; "e"; "f"; "g"])).
Proof.
  apply (chunker_window_count 4 2 ["a"; "b"; "c"; "d"; "e"; "f"; "g"]). lia.
Defined.

(** * Further properties of the pipeline *)

(** ** Splitting on the blank line *)

Lemma append_empty_r (s : string) : s +:+ "" = s.
Proof.
  induction s as [|c s IH]; [reflexivity|].
  change (String c s +:+ "") with (String c (s +:+ "")). rewrite IH. reflexivity.
Qed.

Lemma append_assoc (s1 s2 s3 : string) : (s1 +:+ s2) +:+ s3 = s1 +:+ (s2 +:+ s3).
Proof.
  induction s1 as [|c s1 IH]; [reflexivity|].
  change (String c ((s1 +:+ s2) +:+ s3) = String c (s1 +:+ (s2 +:+ s3))).
  rewrite IH. reflexivity.
Qed.

Lemma append_length (s1 s2 : string) :
  String.length (s1 +:+ s2) = String.length s1 + String.length s2.
Proof.
  induction s1 as [|c s1 IH]; [reflexivity|].
  change (S (String.length (s1 +:+ s2)) = S (String.length s1 + String.length s2)).
  rewrite IH. reflexivity.
Qed.

Lemma prefix_append (p s : string) :
  String.prefix p s = true -> exists t, s = p +:+ t.
Proof.
  revert s. induction p as [|c p IH]; intros s H.
  - exists s. reflexivity.
  - destruct s as [|d s]; [discriminate H|]. simpl in H.
    destruct (Ascii.ascii_dec c d) as [->|]; [|discriminate H].
    destruct (IH s H) as [t ->]. exists t. reflexivity.
Qed.

(** The characters of a separator that was met are passed over. *)
Lemma split_go_skip (sep p cur t : string) :
  PyStr.split_go sep (String.length p) cur (p +:+ t) = PyStr.split_go sep 0 cur t.
Proof.
  induction p as [|c p IH]; [reflexivity|].
  simpl. exact IH.
Qed.

Lemma split_go_not_nil (sep : string) (skip : nat) (cur s : string) :
  PyStr.split_go sep skip cur s <> [].
Proof.
  revert skip cur. induction s as [|c s IH]; intros skip cur.
  - intros H. discriminate H.
  - cbn [PyStr.split_go]. destruct skip; [|apply IH].
    destruct (String.prefix sep (String c s)); [intros H; discriminate H | apply IH].
Qed.

Lemma concat_cons_not_nil (sep x : string) (l : list string) :
  l <> [] -> String.concat sep (x :: l) = x +:+ sep +:+ String.concat sep l.
Proof. destruct l; [contradiction | reflexivity]. Qed.

(** [sep.join(s.split(sep)) == s] *)
Lemma join_split_go (sep : string) (n : nat) (s cur : string) :
  sep <> "" -> String.length s <= n ->
  String.concat sep (PyStr.split_go sep 0 cur s) = cur +:+ s.
Proof.
  intros Hsep. revert s cur. induction n as [|n IH]; intros s cur Hn.
  - destruct s; [|simpl in Hn; lia]. simpl. rewrite append_empty_r. reflexivity.
  - destruct s as [|c s]; [simpl; rewrite append_empty_r; reflexivity|].
    cbn [PyStr.split_go].
    destruct (String.prefix sep (String c s)) eqn:Hp.
    + destruct (prefix_append _ _ Hp) as [t Ht].
      destruct sep as [|c0 sep']; [contradiction|].
      simpl in Ht. injection Ht as -> ->.
      replace (String.length (String c0 sep') - 1) with (String.length sep')
        by (simpl; lia).
      rewrite split_go_skip.
      rewrite concat_cons_not_nil by apply split_go_not_nil.
      rewrite IH.
      * simpl. reflexivity.
      * simpl in Hn. rewrite append_length in Hn. lia.
    + rewrite IH by (simpl in Hn; lia).
      rewrite append_assoc. reflexivity.
Qed.

Lemma join_split (sep s : string) :
  sep <> "" -> String.concat sep (PyStr.split sep s) = s.
Proof.
  intros Hsep. unfold PyStr.split.
  rewrite (join_split_go sep (String.length s)) by (assumption || lia). reflexivity.
Qed.

(** A text without the separator is one segment. *)
Lemma split_go_without (sep s cur : string) :
  PyStr.contains sep s = false -> PyStr.split_go sep 0 cur s = [cur +:+ s].
Proof.
  revert cur. induction s as [|c s IH]; intros cur H.
  - simpl. rewrite append_empty_r. reflexivity.
  - cbn [PyStr.contains] in H. apply orb_false_iff in H as [Hp Hc].
    cbn [PyStr.split_go]. rewrite Hp, (IH _ Hc), append_assoc. reflexivity.
Qed.

(** X1: nothing of the extractor's output is lost by the split of
    [get_answer] but the separators: the segment that is left out and the
    sub-questions, joined again by blank lines, are the output. *)
Theorem sub_questions_reassemble (questions : string) :
  exists first : string,
    PyStr.split (PyStr.nl +:+ PyStr.nl) questions = first :: sub_questions questions
    /\ String.concat (PyStr.nl +:+ PyStr.nl) (first :: sub_questions questions) = questions.
Proof.
  unfold sub_questions, blank_line.
  destruct (PyStr.split (PyStr.nl +:+ PyStr.nl) questions) as [|first rest] eqn:E.
  - exfalso. exact (split_go_not_nil _ _ _ _ E).
  - exists first. split; [reflexivity|].
    simpl tail. rewrite <- E. apply join_split. discriminate.
Qed.

(** X2: an output of the extractor that holds no blank line gives no
    record and no retrieval call: the whole text is the first segment, which is
    left out. *)
Theorem get_answer_without_blank_line (env : Env) (questions : string) (s : State) :
  PyStr.contains (PyStr.nl +:+ PyStr.nl) questions = false ->
  get_answer env questions s = (s, inr []).
Proof.
  intros H. rewrite get_answer_map_m. unfold sub_questions, blank_line, PyStr.split.
  rewrite (split_go_without _ _ _ H). reflexivity.
Qed.

(** ** What the resolver leaves in a record *)

Section Records.

Variable env : Env.

Ltac run_resolve_question :=
  unfold resolve_question, scope, try_except, bind, world, call, update,
    lift_exn, st_error, log, ret, extend; simpl.

(** A positive answer that cannot be cited. *)
Lemma resolve_question_uncitable (q : string) (s : State)
    (response : RetrieveResponse) :
  retrieve_and_generate env (trace s) (retrieve_request env q) = inr response ->
  no_negative_phrase (output_text response) = true ->
  (citations response = [] ->
   resolve_question env q s =
     (extend s [RetrieveAndGenerate (retrieve_request env q);
                StError ("Error during API call: " +:+ "list index out of range")],
      inr (mkAnswer q "Error: Unable to process the question." (Some " "))))
  /\ (forall c cs r rs,
        citations response = c :: cs ->
        retrievedReferences c = r :: rs ->
        s3Location (location r) = None ->
        resolve_question env q s =
          (extend s [RetrieveAndGenerate (retrieve_request env q);
                     StError ("Error during API call: " +:+ "'s3Location'")],
           inr (mkAnswer q "Error: Unable to process the question." (Some " ")))).
Proof.
  intros Hcall Hpos. split.
  - intros Hc. run_resolve_question. rewrite Hcall. simpl. rewrite Hpos, Hc. simpl.
    rewrite <- app_assoc. reflexivity.
  - intros c cs r rs Hc Hr Hl. run_resolve_question. rewrite Hcall. simpl.
    rewrite Hpos, Hc. simpl. rewrite Hr. simpl. rewrite Hl. simpl.
    rewrite <- app_assoc. reflexivity.
Qed.

(** X3: an exception raised after the retrieval call returned is caught
    like one raised by the call, but the record keeps the question: a positive
    answer without any citation ([citations[0]] out of range) and one whose
    first reference has no S3 location (a missing key) both leave the error
    marker under the sub-question's text, and the answer that was retrieved is
    lost. *)
Theorem get_answer_loses_uncitable_answer (q : string) (s : State)
    (response : RetrieveResponse) :
  retrieve_and_generate env (trace s) (retrieve_request env q) = inr response ->
  no_negative_phrase (output_text response) = true ->
  (citations response = [] ->
   resolve_question env q s =
     (extend s [RetrieveAndGenerate (retrieve_request env q);
                StError ("Error during API call: " +:+ "list index out of range")],
      inr (mkAnswer q "Error: Unable to process the question." (Some " "))))
  /\ (forall c cs r rs,
        citations response = c :: cs ->
        retrievedReferences c = r :: rs ->
        s3Location (location r) = None ->
        resolve_question env q s =
          (extend s [RetrieveAndGenerate (retrieve_request env q);
                     StError ("Error during API call: " +:+ "'s3Location'")],
           inr (mkAnswer q "Error: Unable to process the question." (Some " ")))).
Proof. apply resolve_question_uncitable. Qed.

Lemma resolve_question_well_formed (q : string) (s : State) (a : Answer) :
  (resolve_question env q s).2 = inr a -> well_formed_record q a.
Proof.
  unfold well_formed_record.
  destruct (retrieve_and_generate env (trace s) (retrieve_request env q))
    as [e|response] eqn:Hcall.
  - rewrite (resolve_question_raised env _ _ _ Hcall). simpl. intros [= <-].
    right. right. split; [right; reflexivity | split; reflexivity].
  - destruct (no_negative_phrase (output_text response)) eqn:Hpos.
    + destruct (citations response) as [|c cs] eqn:Hc.
      * rewrite (proj1 (resolve_question_uncitable q s response Hcall Hpos) Hc).
        simpl. intros [= <-]. right. right.
        split; [left; reflexivity | split; reflexivity].
      * destruct (retrievedReferences c) as [|r rs] eqn:Hr.
        -- rewrite (resolve_question_uncited env _ _ _ _ _ Hcall Hpos Hc Hr).
           simpl. intros [= <-]. right. left.
           split; [reflexivity|]. split; [eexists; reflexivity | left; reflexivity].
        -- destruct (s3Location (location r)) as [loc|] eqn:Hl.
           ++ rewrite (resolve_question_cited env _ _ _ _ _ _ _ _ Hcall Hpos Hc Hr Hl).
              simpl. intros [= <-]. right. left.
              split; [reflexivity|]. split; [eexists; reflexivity | right; eexists; reflexivity].
           ++ rewrite (proj2 (resolve_question_uncitable q s response Hcall Hpos)
                         c cs r rs Hc Hr Hl).
              simpl. intros [= <-]. right. right.
              split; [left; reflexivity | split; reflexivity].
    + rewrite (resolve_question_negative env _ _ _ Hcall Hpos). simpl. intros [= <-].
      left. repeat split; reflexivity.
Qed.

(** X4: whatever the services answer, every record that [get_answer]
    returns has the key ["metadata"], holding the one-space placeholder or
    "url: " and a locator, and an answer that is the placeholder, the error
    marker or "Answer: " and a text; a locator is there only beside such an
    answer text, and the question is the sub-question of the record's position
    or, in an error record, possibly empty. *)
Theorem get_answer_records_well_formed (questions : string) (s : State) :
  exists answers : list Answer,
    (get_answer env questions s).2 = inr answers
    /\ Forall2 well_formed_record (sub_questions questions) answers.
Proof.
  rewrite get_answer_map_m.
  destruct (resolve_all_run env (sub_questions questions) s)
    as (answers & evs & Hrun & _ & _ & _ & Hord).
  exists answers. rewrite Hrun. split; [reflexivity|].
  eapply Forall2_impl; [exact Hord|].
  intros q a [s0 Ha]. exact (resolve_question_well_formed q s0 a Ha).
Qed.

End Records.

(** ** What one generation response does to the loop *)

Section Loop.

Variable env : Env.

(** X5: a generation response whose first content block has no text
    ends the loop at its chunk with the [KeyError]: no retrieval call is made
    for the chunk, no later chunk is looked at, and, other than for a
    [ClientError], [get_questions] shows no message of its own. *)
Theorem chunk_loop_stops_at_unreadable_response (c : Chunk) (rest : list Chunk)
    (max_chunks : nat) (qa : list Answer) (n : nat) (s : State)
    (result : ModelResult) (first : ContentBlock) (others : list ContentBlock) :
  invoke_model env (trace s) (model_request c) = inr result ->
  content result = Some (first :: others) ->
  block_text first = None ->
  chunk_loop env max_chunks (c :: rest) qa n s
  = (extend s [InvokeModel (model_request c)], inl (KeyError "text")).
Proof.
  intros Hcall Hcontent Htext. cbn [chunk_loop].
  rewrite bind_run, (get_questions_returned env _ _ _ Hcall).
  unfold extracted. rewrite Hcontent. simpl. rewrite Htext. reflexivity.
Qed.

(** X6: a chunk for which the model reports nothing is passed over
    without any retrieval call: a response without content blocks, one whose
    first block starts with "Unfortunately" and one whose first block is empty
    all add nothing to the report. *)
Theorem chunk_without_questions_costs_no_retrieval (c : Chunk) (s : State)
    (result : ModelResult) :
  invoke_model env (trace s) (model_request c) = inr result ->
  (default [] (content result) = []
   \/ exists first others text,
        content result = Some (first :: others)
        /\ block_text first = Some text
        /\ (PyStr.startswith text "Unfortunately" = true \/ text = "")) ->
  chunk_answers env c s = (extend s [InvokeModel (model_request c)], inr []).
Proof.
  intros Hcall Hshape. unfold chunk_answers.
  rewrite bind_run, (get_questions_returned env _ _ _ Hcall). unfold extracted.
  destruct Hshape as [Hnil | (first & others & text & Hcontent & Htext & Hempty)].
  - rewrite Hnil. reflexivity.
  - rewrite Hcontent. simpl. rewrite Htext.
    destruct Hempty as [Hstart | ->].
    + rewrite Hstart. reflexivity.
    + reflexivity.
Qed.

(** The events of the chunks' answers: one generation call for each
    chunk when no exception ended the walk. *)
Lemma chunk_answers_run (c : Chunk) (s : State) :
  exists (evs : list event) (r : exn + list Answer),
    chunk_answers env c s = (extend s (InvokeModel (model_request c) :: evs), r)
    /\ Forall (fun e => is_generation_call e = false /\ is_put_item e = false) evs.
Proof.
  unfold chunk_answers. rewrite bind_run.
  destruct (invoke_model env (trace s) (model_request c)) as [e|result] eqn:Hcall.
  - rewrite (get_questions_raised env _ _ _ Hcall). eexists _, _.
    split; [reflexivity|]. unfold client_error_log.
    destruct (is_ClientError e); repeat constructor.
  - rewrite (get_questions_returned env _ _ _ Hcall).
    destruct (extracted result) as [e|output].
    { eexists [], _. split; [reflexivity | constructor]. }
    destruct (truthy output).
    + destruct (get_answer_run env (default "" output)
                  (extend s [InvokeModel (model_request c)]))
        as (answers & evs & Hga & Hev).
      rewrite Hga, extend_extend. eexists evs, _. split; [reflexivity | exact Hev].
    + unfold ret. eexists [], _. split; [reflexivity | constructor].
Qed.

Lemma generation_calls_app (l1 l2 : list event) :
  generation_calls (l1 ++ l2) = generation_calls l1 ++ generation_calls l2.
Proof. apply omap_app. Qed.

Lemma generation_calls_none (l : list event) :
  Forall (fun e => is_generation_call e = false /\ is_put_item e = false) l ->
  generation_calls l = [].
Proof.
  induction 1 as [|e l [He _] _ IH]; [reflexivity|].
  destruct e; try discriminate He; exact IH.
Qed.

Lemma all_chunk_answers_run (chunks : list Chunk) (s : State) :
  exists (evs : list event) (r : exn + list (list Answer)),
    map_m (chunk_answers env) chunks s = (extend s evs, r)
    /\ Forall (fun e => is_put_item e = false) evs
    /\ (forall per, r = inr per ->
          generation_calls evs = model_request <$> chunks
          /\ length per = length chunks).
Proof.
  revert s. induction chunks as [|c chunks IH]; intros s.
  - exists [], (inr []). simpl. unfold ret. rewrite extend_nil.
    split; [reflexivity|]. split; [constructor|]. intros per [= <-]. split; reflexivity.
  - cbn [map_m]. rewrite bind_run.
    destruct (chunk_answers_run c s) as (evs1 & r1 & Hc & Hev1). rewrite Hc.
    assert (Hput : Forall (fun e => is_put_item e = false)
                     (InvokeModel (model_request c) :: evs1)).
    { constructor; [reflexivity|]. eapply Forall_impl; [exact Hev1|].
      intros ? [_ H]; exact H. }
    destruct r1 as [e|answers].
    { eexists _, _. split; [reflexivity|]. split; [exact Hput|]. intros per [=]. }
    rewrite bind_run.
    destruct (IH (extend s (InvokeModel (model_request c) :: evs1)))
      as (evs2 & r2 & Hrest & Hev2 & Hcalls).
    rewrite Hrest, extend_extend.
    destruct r2 as [e|per].
    { eexists _, _. split; [reflexivity|]. split.
      - apply Forall_app. split; assumption.
      - intros per [=]. }
    unfold ret. eexists _, _. split; [reflexivity|]. split.
    { apply Forall_app. split; assumption. }
    intros per' [= <-]. destruct (Hcalls per eq_refl) as [Hg Hl].
    rewrite generation_calls_app. simpl.
    fold (generation_calls evs1). rewrite (generation_calls_none _ Hev1), Hg.
    split; [reflexivity | simpl; congruence].
Qed.

End Loop.

(** ** The two writes of a run *)

Section RunShape.

Variable env : Env.

(** A run is a PROCESSING write, events that are no writes, and a closing
    write for the same document: ERROR from the state of the session as it was,
    or COMPLETED with the counts of the report that was published. *)
Lemma run_chunk_document_shape (docurl document_id : string) (s : State) :
  exists (itemP itemT : Item) (refP refT : option exn) (middle : list event) (sE : State),
    (run_chunk_document env process_message docurl document_id s).1 = written sE itemT refT
    /\ trace sE = trace (written s itemP refP) ++ middle
    /\ table sE = table (written s itemP refP)
    /\ Forall (fun e => is_put_item e = false) middle
    /\ item_document_id itemP = document_id
    /\ item_document_id itemT = document_id
    /\ item_status itemP = PROCESSING
    /\ ((item_status itemT = ERROR /\ session sE = session s)
        \/ (item_status itemT = COMPLETED
            /\ item_metadata itemT
               = Some (RunStats (length (generation_calls middle))
                         (length (generation_calls middle))
                         (length (processed_results (session sE)))))).
Proof.
  pose proof (run_chunk_document_cases env docurl document_id s) as Hcases.
  cbv zeta in Hcases.
  set (itemP := status_item env s document_id (file_name (session s)) docurl
                  PROCESSING None) in *.
  set (refP := put_item env (trace s) itemP) in *.
  set (s1 := written s itemP refP) in *.
  assert (Hexcept : forall e evs,
            Forall (fun e0 => is_put_item e0 = false) evs ->
            run_chunk_document env process_message docurl document_id s
              = run_chunk_document_except env docurl document_id e (extend s1 evs) ->
            exists (itemP itemT : Item) (refP refT : option exn) (middle : list event)
                   (sE : State),
              (run_chunk_document env process_message docurl document_id s).1
                = written sE itemT refT
              /\ trace sE = trace (written s itemP refP) ++ middle
              /\ table sE = table (written s itemP refP)
              /\ Forall (fun e => is_put_item e = false) middle
              /\ item_document_id itemP = document_id
              /\ item_document_id itemT = document_id
              /\ item_status itemP = PROCESSING
              /\ ((item_status itemT = ERROR /\ session sE = session s)
                  \/ (item_status itemT = COMPLETED
                      /\ item_metadata itemT
                         = Some (RunStats (length (generation_calls middle))
                                   (length (generation_calls middle))
                                   (length (processed_results (session sE))))))).
  { intros e evs Hevs ->. rewrite run_chunk_document_except_run. cbv zeta. cbn [fst].
    set (sE := extend (extend s1 evs) _). set (itemE := status_item env sE _ _ _ _ _).
    exists itemP, itemE, refP, (put_item env (trace sE) itemE),
      (evs ++ [StError ("An error occurred in run_chunk_document: " +:+ str_exn e)]), sE.
    split; [reflexivity|]. split; [subst sE; simpl; rewrite <- app_assoc; reflexivity|].
    split; [reflexivity|].
    split; [apply Forall_app; split; [exact Hevs | repeat constructor]|].
    split; [reflexivity|]. split; [reflexivity|]. split; [reflexivity|].
    left. split; [reflexivity|]. subst sE s1. simpl. apply written_session. }
  destruct (load_and_split env (trace s1) docurl) as [e|documents].
  { apply (Hexcept e [LoadAndSplit docurl]); [repeat constructor | exact Hcases]. }
  destruct (split_documents env 1000 0 documents) as [e|chunks].
  { apply (Hexcept e [LoadAndSplit docurl]); [repeat constructor | exact Hcases]. }
  destruct Hcases as (evs & r & Hloop & Hevs & Hrun).
  set (info := StInfo _) in *.
  destruct r as [e|qc].
  { rewrite !extend_extend in Hrun. eapply Hexcept; [|exact Hrun].
    simpl. constructor; [reflexivity|]. constructor; [reflexivity | exact Hevs]. }
  (* the loop returned: its events hold one generation call for each chunk *)
  pose proof (chunk_loop_report env chunks [] 0
                (extend (extend s1 [LoadAndSplit docurl]) [info])) as Hreport.
  simpl Nat.add in Hreport. rewrite Hloop, bind_run in Hreport.
  destruct (all_chunk_answers_run env chunks
              (extend (extend s1 [LoadAndSplit docurl]) [info]))
    as (evs' & r' & Hall & _ & Hcalls).
  rewrite Hall in Hreport. destruct r' as [e|per]; [discriminate Hreport|].
  unfold ret in Hreport. injection Hreport as Hevs' Hqc.
  apply app_inv_head in Hevs'. subst evs' qc.
  destruct (Hcalls per eq_refl) as [Hgen Hlen].
  rewrite Hrun, run_chunk_document_report_run. cbv zeta. cbn [fst snd].
  set (sC := mkState _ _ _). set (itemC := status_item env sC _ _ _ _ _).
  exists itemP, itemC, refP, (put_item env (trace sC) itemC),
    (LoadAndSplit docurl :: info :: evs), sC.
  split; [reflexivity|].
  split; [subst sC; simpl; rewrite <- !app_assoc; reflexivity|].
  split; [reflexivity|].
  split; [constructor; [reflexivity|]; constructor; [reflexivity | exact Hevs]|].
  split; [reflexivity|]. split; [reflexivity|]. split; [reflexivity|].
  right. split; [reflexivity|].
  subst itemC sC. unfold status_item. simpl.
  fold (generation_calls evs). rewrite Hgen, length_fmap. reflexivity.
Qed.

Lemma not_put_item_elem (item : Item) (stored : bool) (l : list event) :
  Forall (fun e => is_put_item e = false) l -> PutItem item stored ∈ l -> False.
Proof.
  intros Hl Hin. rewrite Forall_forall in Hl. specialize (Hl _ Hin). discriminate Hl.
Qed.

(** X7: every COMPLETED item of a run carries [chunks_processed] equal
    to [total_chunks], both the number of generation calls of the run, and
    [answers_found] equal to the number of records that were published, error
    records and blank records included. *)
Theorem completed_item_counts (docurl document_id : string) (s : State) :
  exists evs : list event,
    trace (run_chunk_document env process_message docurl document_id s).1 = trace s ++ evs
    /\ forall (item : Item) (stored : bool),
         PutItem item stored ∈ evs ->
         item_status item = COMPLETED ->
         item_document_id item = document_id
         /\ item_metadata item
            = Some (RunStats (length (generation_calls evs))
                      (length (generation_calls evs))
                      (length (processed_results
                                 (session (run_chunk_document env process_message docurl
                                             document_id s).1)))).
Proof.
  destruct (run_chunk_document_shape docurl document_id s)
    as (itemP & itemT & refP & refT & middle & sE & Hrun & Htr & _ & Hmid & _ & HidT
        & HstP & Hend).
  destruct (written_trace s itemP refP) as (msgsP & HtrP & HmsgsP).
  destruct (written_trace sE itemT refT) as (msgsT & HtrT & HmsgsT).
  exists (PutItem itemP (bool_decide (refP = None)) :: msgsP ++ middle
          ++ PutItem itemT (bool_decide (refT = None)) :: msgsT).
  rewrite Hrun, HtrT, Htr, HtrP, written_session, <- !app_assoc.
  split; [reflexivity|].
  intros item stored Hin Hst.
  assert (HmsgsP' : Forall (fun e => is_put_item e = false) msgsP).
  { eapply Forall_impl; [exact HmsgsP|]. intros [] He; try discriminate He; reflexivity. }
  assert (HmsgsT' : Forall (fun e => is_put_item e = false) msgsT).
  { eapply Forall_impl; [exact HmsgsT|]. intros [] He; try discriminate He; reflexivity. }
  apply elem_of_cons in Hin as [Heq | Hin].
  { injection Heq as -> _. rewrite HstP in Hst. discriminate Hst. }
  apply elem_of_app in Hin as [Hin | Hin]; [destruct (not_put_item_elem _ _ _ HmsgsP' Hin)|].
  apply elem_of_app in Hin as [Hin | Hin]; [destruct (not_put_item_elem _ _ _ Hmid Hin)|].
  apply elem_of_cons in Hin as [Heq | Hin];
    [|destruct (not_put_item_elem _ _ _ HmsgsT' Hin)].
  injection Heq as -> _. split; [exact HidT|].
  destruct Hend as [[Herr _] | [_ Hmeta]]; [rewrite Herr in Hst; discriminate Hst|].
  assert (Hnone : forall l, Forall (fun e => is_message e = true) l ->
                            generation_calls l = []).
  { intros l Hl. induction Hl as [|e l He _ IH]; [reflexivity|].
    destruct e; try discriminate He; exact IH. }
  assert (Hcalls : generation_calls
                     (PutItem itemP (bool_decide (refP = None)) :: msgsP ++ middle
                      ++ PutItem itemT (bool_decide (refT = None)) :: msgsT)
                   = generation_calls middle).
  { change (generation_calls (msgsP ++ middle
                              ++ [PutItem itemT (bool_decide (refT = None))] ++ msgsT)
            = generation_calls middle).
    rewrite !generation_calls_app, (Hnone _ HmsgsP), (Hnone _ HmsgsT), app_nil_r.
    reflexivity. }
  rewrite Hcalls. exact Hmeta.
Qed.

(** X8: a run writes to the entry of its own document only: the items
    that the table holds for other documents are what they were. *)
Theorem run_leaves_other_documents (uploaded_file_name document_id url other : string)
    (s : State) :
  other <> document_id ->
  table (display_upload_tab env uploaded_file_name document_id (Some url) s).1 !! other
  = table s !! other.
Proof.
  intros Hne. rewrite display_upload_tab_run. cbv zeta. cbn [fst extend table].
  set (s0 := mkState _ _ _).
  set (itemU := status_item env s0 document_id uploaded_file_name url UPLOADED None).
  set (refU := put_item env (trace s0) itemU).
  assert (Hwritten : forall s' item refusal,
            item_document_id item = document_id ->
            table (written s' item refusal) !! other = table s' !! other).
  { intros s' item refusal Hid. destruct refusal; simpl; [reflexivity|].
    rewrite lookup_insert_ne by congruence. reflexivity. }
  destruct (run_chunk_document_shape url document_id (written s0 itemU refU))
    as (itemP & itemT & refP & refT & middle & sE & Hrun & _ & Htab & _ & HidP & HidT & _).
  rewrite Hrun, (Hwritten _ _ _ HidT), Htab, (Hwritten _ _ _ HidP),
    (Hwritten s0 itemU refU eq_refl).
  reflexivity.
Qed.

End RunShape.

(** ** Outages of the retrieval service *)

Section Outage.

Variable env : Env.

(** With generation responses that can be read, no chunk raises: whatever
    the retrieval service does is turned into records by [get_answer]. *)
Lemma all_chunk_answers_return (chunks : list Chunk) (s : State) :
  (forall h c, exists result output,
      invoke_model env h (model_request c) = inr result
      /\ extracted result = inr output) ->
  exists per : list (list Answer),
    (map_m (chunk_answers env) chunks s).2 = inr per.
Proof.
  intros Hmodel. revert s. induction chunks as [|c chunks IH]; intros s.
  - exists []. reflexivity.
  - cbn [map_m]. rewrite bind_run.
    assert (Hc : exists s' answers, chunk_answers env c s = (s', inr answers)).
    { unfold chunk_answers. rewrite bind_run.
      destruct (Hmodel (trace s) c) as (result & output & Hcall & Hout).
      rewrite (get_questions_returned env _ _ _ Hcall), Hout.
      destruct (truthy output); [|eexists _, _; reflexivity].
      destruct (get_answer_run env (default "" output)
                  (extend s [InvokeModel (model_request c)]))
        as (answers & evs & Hga & _).
      rewrite Hga. eexists _, _. reflexivity. }
    destruct Hc as (s' & answers & ->). rewrite bind_run.
    destruct (IH s') as (per & Hper).
    destruct (map_m (chunk_answers env) chunks s') as [s'' r]. simpl in Hper. subst r.
    exists (answers :: per). reflexivity.
Qed.

(** X9: failures of the retrieval service never fail a run.  When the
    document can be loaded and split and every generation response can be read,
    the run writes PROCESSING and then COMPLETED, whatever
    [retrieve_and_generate] answers or raises and whether or not the table
    accepts the writes. *)
Theorem run_completes_whatever_retrieval_does (docurl document_id : string) (s : State) :
  (forall h, exists documents chunks,
      load_and_split env h docurl = inr documents
      /\ split_documents env 1000 0 documents = inr chunks) ->
  (forall h c, exists result output,
      invoke_model env h (model_request c) = inr result
      /\ extracted result = inr output) ->
  statuses_written (trace (run_chunk_document env process_message docurl document_id s).1)
  = statuses_written (trace s) ++ [PROCESSING; COMPLETED].
Proof.
  intros Hload Hmodel.
  pose proof (run_chunk_document_cases env docurl document_id s) as Hcases.
  cbv zeta in Hcases.
  set (itemP := status_item env s document_id (file_name (session s)) docurl
                  PROCESSING None) in *.
  set (s1 := written s itemP (put_item env (trace s) itemP)) in *.
  destruct (Hload (trace s1)) as (documents & chunks & Hl & Hs).
  rewrite Hl, Hs in Hcases.
  destruct Hcases as (evs & r & Hloop & Hevs & Hrun).
  set (info := StInfo _) in *.
  pose proof (chunk_loop_report env chunks [] 0
                (extend (extend s1 [LoadAndSplit docurl]) [info])) as Hreport.
  simpl Nat.add in Hreport. rewrite Hloop, bind_run in Hreport.
  destruct (all_chunk_answers_return chunks
              (extend (extend s1 [LoadAndSplit docurl]) [info]) Hmodel) as (per & Hper).
  destruct (map_m (chunk_answers env) chunks _) as [s' r']. simpl in Hper. subst r'.
  unfold ret in Hreport. injection Hreport as _ ->.
  rewrite Hrun, run_chunk_document_report_run. cbv zeta. cbn [fst].
  rewrite statuses_written_written. cbn [trace extend item_status status_item].
  rewrite <- !app_assoc, statuses_written_app.
  rewrite (statuses_written_none ([LoadAndSplit docurl] ++ [info] ++ evs)).
  - fold (trace s1). unfold s1. rewrite statuses_written_written, app_nil_r, <- app_assoc.
    reflexivity.
  - constructor; [reflexivity|]. constructor; [reflexivity | exact Hevs].
Qed.

End Outage.

(** ** The layout of the exported document *)

Lemma count_if_app {A} (P : A -> bool) (l k : list A) :
  count_if P (l ++ k) = count_if P l + count_if P k.
Proof. unfold count_if. rewrite List.filter_app, length_app. reflexivity. Qed.

Lemma count_if_cons {A} (P : A -> bool) (x : A) (l : list A) :
  count_if P (x :: l) = (if P x then 1 else 0) + count_if P l.
Proof. unfold count_if. simpl. destruct (P x); reflexivity. Qed.

(** What one section adds to the three counts. *)
Lemma result_section_layout (n i : nat) (result : Answer) :
  count_if is_separator (result_section n i result) = (if i <? n - 1 then 1 else 0)
  /\ count_if is_source_heading (result_section n i result)
     = (if has_source result then 1 else 0)
  /\ count_if is_placeholder (result_section n i result)
     = (if PyStr.is_blank (answer result) then 1 else 0).
Proof.
  unfold result_section, has_source.
  split; [|split].
  - rewrite !count_if_app.
    replace (count_if is_separator [_; _; _; _]) with 0.
    2:{ destruct (negb (PyStr.is_blank (answer result))); reflexivity. }
    replace (count_if is_separator match metadata result with Some _ => _ | None => _ end)
      with 0.
    2:{ destruct (metadata result) as [m|]; [|reflexivity].
        destruct (negb (PyStr.is_blank m)); reflexivity. }
    destruct (i <? n - 1); reflexivity.
  - rewrite !count_if_app.
    replace (count_if is_source_heading [_; _; _; _]) with 0.
    2:{ destruct (negb (PyStr.is_blank (answer result))); reflexivity. }
    replace (count_if is_source_heading (if i <? n - 1 then _ else _)) with 0.
    2:{ destruct (i <? n - 1); reflexivity. }
    destruct (metadata result) as [m|]; [|reflexivity].
    destruct (negb (PyStr.is_blank m)); reflexivity.
  - rewrite !count_if_app.
    replace (count_if is_placeholder (if i <? n - 1 then _ else _)) with 0.
    2:{ destruct (i <? n - 1); reflexivity. }
    replace (count_if is_placeholder match metadata result with Some _ => _ | None => _ end)
      with 0.
    2:{ destruct (metadata result) as [m|]; [|reflexivity].
        destruct (negb (PyStr.is_blank m)); [|reflexivity].
        unfold count_if. simpl. destruct m; reflexivity. }
    rewrite !Nat.add_0_r, !count_if_cons.
    replace (is_placeholder (coloured _ _)) with false by reflexivity.
    destruct (PyStr.is_blank (answer result)); simpl; [reflexivity|].
    destruct (answer result); reflexivity.
Qed.

Lemma results_layout (n : nat) (results : list Answer) (i : nat) :
  i + length results <= n ->
  let doc := concat (imap (fun j => result_section n (i + j)) results) in
  count_if is_separator doc
  = length results - (if i + length results =? n then 1 else 0)
  /\ count_if is_source_heading doc = count_if has_source results
  /\ count_if is_placeholder doc
     = count_if (fun r => PyStr.is_blank (answer r)) results.
Proof.
  revert i. induction results as [|r results IH]; intros i Hle doc.
  - split; [|split]; reflexivity.
  - subst doc. rewrite imap_cons. cbn [concat]. rewrite !count_if_app, !count_if_cons.
    destruct (result_section_layout n (i + 0) r) as (-> & -> & ->).
    rewrite (imap_ext _ (fun j => result_section n (S i + j)))
      by (intros j x _; simpl; f_equal; lia).
    simpl length in Hle.
    destruct (IH (S i) ltac:(lia)) as (-> & -> & ->).
    split; [|split; reflexivity].
    simpl length.
    destruct (Nat.ltb_spec (i + 0) (n - 1)), (Nat.eqb_spec (S i + length results) n),
      (Nat.eqb_spec (i + S (length results)) n); lia.
Qed.

(** The three counts of a whole export. *)
Lemma create_word_document_layout (current_time : string) (results : list Answer) :
  let doc := create_word_document current_time results in
  count_if is_separator doc = length results - 1
  /\ count_if is_source_heading doc = count_if has_source results
  /\ count_if is_placeholder doc
     = count_if (fun r => PyStr.is_blank (answer r)) results.
Proof.
  intros doc. subst doc. unfold create_word_document.
  rewrite !count_if_app.
  destruct (results_layout (length results) results 0 ltac:(simpl; lia)) as (Hs & Hh & Hp).
  change (fun j => result_section (length results) (0 + j))
    with (result_section (length results)) in Hs, Hh, Hp.
  rewrite Hs, Hh, Hp. simpl (0 + _). rewrite Nat.eqb_refl.
  replace (count_if is_separator [_; _; _]) with 0 by reflexivity.
  replace (count_if is_source_heading [_; _; _]) with 0 by reflexivity.
  replace (count_if is_placeholder [_; _; _]) with 0 by reflexivity.
  split; [|split]; reflexivity.
Qed.


(** * Properties of the sign-in *)

Section SignIn.

Variable services : App.Services.

(** The dict of tokens is built exactly from a result that holds the four
    keys. *)
Lemma tokens_returned (r : App.AuthenticationResultType) (result : App.AuthResult) :
  App.tokens r = inr result <->
  exists id access refresh expires,
    r = App.mkAuthenticationResultType (Some id) (Some access) (Some refresh) (Some expires)
    /\ result = App.mkAuthResult true (Some id) (Some access) (Some refresh) (Some expires)
                  None None None.
Proof.
  unfold App.tokens. destruct r as [[id|] [access|] [refresh|] [expires|]]; simpl;
    (split; [intros H; try discriminate H | intros (? & ? & ? & ? & H & ->);
                                             try discriminate H]).
  - injection H as <-. eexists _, _, _, _. split; reflexivity.
  - injection H as <- <- <- <-. reflexivity.
Qed.

Lemma failed_message (msg : string) :
  App.success (App.failed msg) = false /\ App.message (App.failed msg) = Some msg
  /\ App.challenge (App.failed msg) = None.
Proof. repeat split. Qed.

(** X11: [authenticate_user] never raises and makes one call.  It
    reports success exactly when Cognito returned a response that is no
    NEW_PASSWORD_REQUIRED challenge and whose AuthenticationResult holds all
    of IdToken, AccessToken, RefreshToken and ExpiresIn, and the result then
    holds these values.  Every other result carries a message. *)
Theorem authenticate_user_success_iff (username password : string) (s : App.State) :
  let result := (App.authenticate_user services username password s).2 in
  (App.authenticate_user services username password s).1
  = App.log (App.InitiateAuth username password) s
  /\ (App.success result = true <->
      exists response id access refresh expires,
        App.initiate_auth services (App.trace s) username password = inr response
        /\ App.ChallengeName response <> Some "NEW_PASSWORD_REQUIRED"
        /\ App.AuthenticationResult response
           = Some (App.mkAuthenticationResultType (Some id) (Some access) (Some refresh)
                     (Some expires))
        /\ result = App.mkAuthResult true (Some id) (Some access) (Some refresh)
                      (Some expires) None None None)
  /\ (App.success result = false -> is_Some (App.message result)).
Proof.
  intros result. split; [reflexivity|]. subst result.
  unfold App.authenticate_user. cbn [snd].
  destruct (App.initiate_auth services (App.trace s) username password)
    as [[msg|msg|e]|response].
  1-3: split; [split; [intros H; discriminate H | intros (? & ? & ? & ? & ? & H & _);
                                                   discriminate H]
              | intros _; eexists; reflexivity].
  unfold App.authenticate_user_result.
  destruct (bool_decide_reflect (App.ChallengeName response = Some "NEW_PASSWORD_REQUIRED"))
    as [Hch|Hch].
  - split.
    + split.
      * destruct (App.Session response); intros H; discriminate H.
      * intros (r' & ? & ? & ? & ? & [= <-] & Hne & _). contradiction.
    + destruct (App.Session response); intros _; eexists; reflexivity.
  - destruct (App.AuthenticationResult response) as [r|] eqn:Hres.
    + destruct (App.tokens r) as [e|result] eqn:Htok.
      * split; [|intros _; eexists; reflexivity].
        split; [intros H; discriminate H|].
        intros (r' & id & access & refresh & expires & [= <-] & _ & H & _).
        rewrite Hres in H. injection H as ->. discriminate Htok.
      * apply tokens_returned in Htok as (id & access & refresh & expires & -> & ->).
        split; [|intros H; discriminate H].
        split.
        -- intros _. exists response, id, access, refresh, expires.
           repeat split; assumption.
        -- intros _. reflexivity.
    + split; [|intros _; eexists; reflexivity].
      split; [intros H; discriminate H|].
      intros (r' & ? & ? & ? & ? & [= <-] & _ & H & _). rewrite Hres in H. discriminate H.
Qed.

(** X12: the challenge goes first.  The result of [authenticate_user]
    is the NEW_PASSWORD_REQUIRED challenge exactly when the response names that
    challenge and holds a Session, whether or not it also holds tokens; the
    result then is no success and carries that Session. *)
Theorem authenticate_user_challenge_iff (username password : string) (s : App.State) :
  let result := (App.authenticate_user services username password s).2 in
  App.challenge result = Some "NEW_PASSWORD_REQUIRED" <->
  exists response sess,
    App.initiate_auth services (App.trace s) username password = inr response
    /\ App.ChallengeName response = Some "NEW_PASSWORD_REQUIRED"
    /\ App.Session response = Some sess
    /\ App.session result = Some sess
    /\ App.success result = false.
Proof.
  intros result. subst result. unfold App.authenticate_user. cbn [snd].
  destruct (App.initiate_auth services (App.trace s) username password)
    as [[msg|msg|e]|response].
  1-3: split; [intros H; discriminate H | intros (? & ? & H & _); discriminate H].
  unfold App.authenticate_user_result.
  destruct (bool_decide_reflect (App.ChallengeName response = Some "NEW_PASSWORD_REQUIRED"))
    as [Hch|Hch].
  - destruct (App.Session response) as [sess|] eqn:Hsess; simpl.
    + split; [intros _ | intros _; reflexivity].
      exists response, sess. rewrite Hsess. repeat split; assumption.
    + split; [intros H; discriminate H|].
      intros (r' & sess & [= <-] & _ & H & _). rewrite Hsess in H. discriminate H.
  - split.
    + destruct (App.AuthenticationResult response) as [r|]; [|intros H; discriminate H].
      destruct (App.tokens r) as [e|result] eqn:Htok; [intros H; discriminate H|].
      apply tokens_returned in Htok as (? & ? & ? & ? & -> & ->).
      intros H; discriminate H.
    + intros (r' & sess & [= <-] & H & _). contradiction.
Qed.

(** What [set_permanent_password] returns: tokens, or a message. *)
Lemma set_permanent_password_result (username new_password session : string)
    (s : App.State) :
  let result := (App.set_permanent_password services username new_password session s).2 in
  (App.success result = true ->
   exists id access refresh expires,
     result = App.mkAuthResult true (Some id) (Some access) (Some refresh) (Some expires)
                None None None)
  /\ (App.success result = false -> is_Some (App.message result)).
Proof.
  intros result. subst result. unfold App.set_permanent_password. cbn [snd].
  destruct (App.respond_to_auth_challenge services (App.trace s) session username
              new_password) as [e|response].
  { split; [intros H; discriminate H | intros _; eexists; reflexivity]. }
  destruct (App.AuthenticationResult response) as [r|].
  - destruct (App.tokens r) as [e|result] eqn:Htok.
    + split; [intros H; discriminate H | intros _; eexists; reflexivity].
    + apply tokens_returned in Htok as (id & access & refresh & expires & -> & ->).
      split; [intros _; eexists _, _, _, _; reflexivity | intros H; discriminate H].
  - split; [intros H; discriminate H | intros _; eexists; reflexivity].
Qed.

End SignIn.

(** ** The login page *)

(** Running a page path by path: the combinators are unfolded and every
    test and every answer of a service is told apart. *)
Ltac run_page H :=
  unfold App.display_login_page, App.set_password_form, App.cancel_form, App.login_form,
    App.welcome, App.store_tokens, App.del_password_change_required,
    App.del_temp_username, App.del_temp_session, App.total, App.update, App.lift_exn,
    App.getattr, App.st_error, App.st_info, App.st_success, App.emit,
    App.get_session_state, App.authenticate_user, App.set_permanent_password,
    App.get_user_info, App.authenticate_user_result, App.get_user_info_result,
    App.tokens, App.failed, App.user_failed, getitem_key, App.bind, App.ret, App.raise,
    App.st_rerun in H;
  cbn beta iota delta [fst snd App.session_state App.trace App.files App.log] in H.

Ltac break_match H :=
  match type of H with
  | context [match ?x with _ => _ end] =>
      match x with
      | context [match _ with _ => _ end] => fail 1
      | _ => destruct x eqn:?
      end
  end.

Ltac page_cases H :=
  run_page H;
  repeat (break_match H;
          cbn beta iota delta [fst snd App.session_state App.trace App.files App.log
                                 App.success App.access_token App.id_token
                                 App.refresh_token App.challenge App.session App.message
                                 App.user_success App.username App.user_message] in H;
          try discriminate H);
  try (injection H as <- <-).

Ltac norm_events :=
  unfold new_events;
  cbn [fst snd App.session_state App.trace App.files App.log];
  rewrite <- ?app_assoc;
  first [rewrite drop_app_length | rewrite drop_all];
  cbn [app].

Section LoginPage.

Variable services : App.Services.

(** What [get_user_info] returns: a user name, or a message. *)
Lemma get_user_info_result_shape (access_token : string) (s : App.State) :
  let user_info := (App.get_user_info services access_token s).2 in
  (App.user_success user_info = true -> is_Some (App.username user_info))
  /\ (App.user_success user_info = false -> is_Some (App.user_message user_info)).
Proof.
  intros user_info. subst user_info. unfold App.get_user_info. cbn [snd].
  destruct (App.get_user services (App.trace s) access_token) as [e|response].
  { split; [intros H; discriminate H | intros _; eexists; reflexivity]. }
  unfold App.get_user_info_result.
  destruct (App.UserAttributes response) as [attrs|]; simpl;
    [|split; [intros H; discriminate H | intros _; eexists; reflexivity]].
  destruct (App.user_attrs attrs ∅) as [e|dict];
    [split; [intros H; discriminate H | intros _; eexists; reflexivity]|].
  destruct (App.Username response) as [name|]; simpl;
    [|split; [intros H; discriminate H | intros _; eexists; reflexivity]].
  split; [intros _; eexists; reflexivity | intros H; discriminate H].
Qed.

Lemma is_empty_false (s : string) : App.is_empty s = false -> s <> "".
Proof. destruct s; [intros H; discriminate H | intros _ H; discriminate H]. Qed.

Lemma eqb_negb_false (a b : string) : negb (String.eqb a b) = false -> a = b.
Proof. intros H. apply String.eqb_eq. destruct (String.eqb a b); [reflexivity | discriminate H]. Qed.

(** The login page, path by path. *)
Lemma display_login_page_spec (w : App.Widgets) (s : App.State) :
  let s' := (App.display_login_page services w s).1 in
  let out := (App.display_login_page services w s).2 in
  let ss := App.session_state s in
  let ss' := App.session_state s' in
  App.trace s' = App.trace s ++ new_events s s'
  /\ App.files s' = App.files s
  /\ (session_consistent ss -> session_consistent ss' /\ forall e, out <> App.Raised e)
  /\ (forall username password,
        App.InitiateAuth username password ∈ new_events s s' ->
        sent_by_login w ss username password)
  /\ (forall session username new_password,
        App.RespondToAuthChallenge session username new_password ∈ new_events s s' ->
        sent_by_password_form w ss session username new_password)
  /\ (App.flag (App.ss_authenticated ss') = true ->
      App.flag (App.ss_authenticated ss) = true
      \/ exists response,
           holds_tokens_of ss' response
           /\ (App.initiate_auth services (App.trace s) (App.username_input w)
                 (App.password_input w) = inr response
               \/ exists username session,
                    App.ss_temp_username ss = Some username
                    /\ App.ss_temp_session ss = Some session
                    /\ App.respond_to_auth_challenge services
                         (App.trace s ++ [password_info]) session username
                         (App.new_password_input w) = inr response)).
Proof.
  intros s' out ss ss'. subst s' out ss ss'.
  destruct (App.display_login_page services w s) as [s' out] eqn:Hrun.
  page_cases Hrun.
  all: norm_events.
  all: split; [rewrite <- ?app_assoc, ?app_nil_r; reflexivity|].
  all: split; [reflexivity|].
  all: split; [intros (Hauth & Hpcr & Hui) | split; [|split]].
  (* the session stays consistent and no exception ends the run *)
  all: try (exfalso; destruct (Hpcr ltac:(assumption)) as [[? ?] [? ?]];
            simpl in *; congruence).
  all: try (exfalso;
            match goal with
            | H : App.ss_password_change_required _ = None, H' : App.flag _ = true |- _ =>
                simpl in H; rewrite H in H'; discriminate H'
            | H : bool_decide (_ = _) = true |- _ =>
                apply bool_decide_eq_true_1 in H; simpl in H; congruence
            end).
  all: try (split; [|intros e0 He0; discriminate He0]).
  all: try (unfold session_consistent; simpl; (split; [|split]); intros;
            repeat match goal with H : Some _ = Some _ |- _ => injection H as <- end;
            try discriminate; eauto; fail).
  (* what was sent to Cognito *)
  all: intros; decompose_list_elem_of; try discriminate.
  all: try (match goal with
            | H : App.InitiateAuth _ _ = App.InitiateAuth _ _ |- _ => injection H as -> ->
            end;
            unfold sent_by_login;
            match goal with
            | H : App.is_empty _ || App.is_empty _ = false |- _ =>
                apply orb_false_elim in H as [?%is_empty_false ?%is_empty_false]
            end;
            split_and!; auto; fail).
  all: try (match goal with
            | H : App.RespondToAuthChallenge _ _ _ = App.RespondToAuthChallenge _ _ _ |- _ =>
                injection H as -> -> ->
            end;
            unfold sent_by_password_form;
            match goal with
            | H : negb (_ =? _)%string = false |- _ => apply eqb_negb_false in H
            end;
            match goal with
            | H : (_ <? 8) = false |- _ => apply Nat.ltb_ge in H
            end;
            split_and!; auto; congruence).
  (* the tokens of an authenticated session *)
  all: match goal with H : App.flag _ = true |- _ \/ _ => simpl in H end.
  all: try (left; assumption).
  all: try discriminate.
  all: right; eexists; split;
    [unfold holds_tokens_of; eexists; simpl;
     split_and!; [eassumption | by eexists | congruence..]|].
  all: try (left; reflexivity).
  all: right; unfold password_info; eexists _, _; split_and!; [reflexivity..|eassumption].
Qed.

End LoginPage.

Section LoginPageProperties.

Variable services : App.Services.

(** X13: the login page calls [initiate_auth] only after the Login
    button, outside a pending password change, and only with the user name and
    the password as typed, both filled in. *)
Theorem login_sends_what_was_typed (w : App.Widgets) (s : App.State)
    (username password : string) :
  App.InitiateAuth username password
    ∈ new_events s (App.display_login_page services w s).1 ->
  sent_by_login w (App.session_state s) username password.
Proof.
  destruct (display_login_page_spec services w s) as (_ & _ & _ & H & _). apply H.
Qed.

(** X14: the login page answers the password challenge only with a
    new password that was typed twice alike and has at least eight characters
    (the other rules shown on the page are left to Cognito), for the user name
    and the Cognito session that the pending password change holds. *)
Theorem password_form_sends_checked_password (w : App.Widgets) (s : App.State)
    (session username new_password : string) :
  App.RespondToAuthChallenge session username new_password
    ∈ new_events s (App.display_login_page services w s).1 ->
  sent_by_password_form w (App.session_state s) session username new_password.
Proof.
  destruct (display_login_page_spec services w s) as (_ & _ & _ & _ & H & _). apply H.
Qed.

(** X15: the login page keeps the session consistent and, from a
    consistent session, never ends with an exception: no key that it reads
    from a result or from the session is missing, whatever Cognito answers. *)
Theorem login_page_keeps_session_consistent (w : App.Widgets) (s : App.State) :
  session_consistent (App.session_state s) ->
  session_consistent (App.session_state (App.display_login_page services w s).1)
  /\ forall e, (App.display_login_page services w s).2 <> App.Raised e.
Proof.
  destruct (display_login_page_spec services w s) as (_ & _ & H & _). exact H.
Qed.

(** X16: the login page marks a session authenticated only with
    tokens of Cognito.  A session that is authenticated after the page and was
    not before holds the access, id and refresh token of a response that
    Cognito gave in this run, to the credentials as typed or to the new
    password for the pending password change. *)
Theorem sign_in_needs_cognito_tokens (w : App.Widgets) (s : App.State) :
  let ss' := App.session_state (App.display_login_page services w s).1 in
  App.flag (App.ss_authenticated ss') = true ->
  App.flag (App.ss_authenticated (App.session_state s)) = false ->
  exists response,
    holds_tokens_of ss' response
    /\ (App.initiate_auth services (App.trace s) (App.username_input w)
          (App.password_input w) = inr response
        \/ exists username session,
             App.ss_temp_username (App.session_state s) = Some username
             /\ App.ss_temp_session (App.session_state s) = Some session
             /\ App.respond_to_auth_challenge services
                  (App.trace s ++ [password_info]) session username
                  (App.new_password_input w) = inr response).
Proof.
  intros ss' Hafter Hbefore.
  destruct (display_login_page_spec services w s) as (_ & _ & _ & _ & _ & H).
  destruct (H Hafter) as [Habs | Hresponse]; [|exact Hresponse].
  rewrite Habs in Hbefore. discriminate Hbefore.
Qed.

(** X17: a sign-in whose user information cannot be read.  When
    Cognito accepts the credentials and [get_user] then fails, the session is
    left authenticated with the tokens and without user information, the error
    is shown and the page does not rerun; a session that had no user
    information then asks for the history of the whole table. *)
Theorem login_survives_missing_user_info (w : App.Widgets) (s : App.State)
    (response : App.AuthResponse) (id access refresh : string) (expires : Z)
    (e : App.CognitoError) :
  let username := App.username_input w in
  let password := App.password_input w in
  let ss' := App.set_refresh_token (Some refresh)
               (App.set_id_token (Some id)
                  (App.set_access_token (Some access)
                     (App.set_authenticated (Some true) (App.session_state s)))) in
  App.flag (App.ss_password_change_required (App.session_state s)) = false ->
  App.login_button w = true ->
  username <> "" ->
  password <> "" ->
  App.initiate_auth services (App.trace s) username password = inr response ->
  App.ChallengeName response <> Some "NEW_PASSWORD_REQUIRED" ->
  App.AuthenticationResult response
  = Some (App.mkAuthenticationResultType (Some id) (Some access) (Some refresh)
            (Some expires)) ->
  App.get_user services (App.trace s ++ [App.InitiateAuth username password]) access
  = inl e ->
  App.display_login_page services w s
  = (App.mkState
       (App.trace s ++
        [App.InitiateAuth username password; App.GetUser access;
         App.StError ("Error retrieving user information: " +:+ App.str_error e)])
       ss' (App.files s),
     App.Returned tt)
  /\ App.ss_user_info ss' = App.ss_user_info (App.session_state s)
  /\ (App.ss_user_info (App.session_state s) = None -> App.scan_filter ss' = None).
Proof.
  intros username password ss' Hpcr Hlogin Hu Hp Hauth Hch Hres Huser.
  subst username password ss'.
  split; [|split; [reflexivity | intros Hnone; unfold App.scan_filter; simpl;
                                 rewrite Hnone; reflexivity]].
  unfold App.display_login_page, App.bind at 1, App.get_session_state.
  rewrite Hpcr, Hlogin. unfold App.login_form.
  destruct (App.username_input w) as [|c1 u'] eqn:Eu; [contradiction|].
  destruct (App.password_input w) as [|c2 p'] eqn:Ep; [contradiction|].
  cbn [App.is_empty orb].
  unfold App.bind at 1, App.total at 1, App.authenticate_user.
  rewrite Hauth. unfold App.authenticate_user_result.
  rewrite bool_decide_eq_false_2 by exact Hch. rewrite Hres.
  cbn. rewrite Huser. cbn. unfold App.st_error, App.emit, App.log. cbn [App.trace App.session_state App.files].
  rewrite <- !app_assoc. reflexivity.
Qed.

End LoginPageProperties.

(** ** Logout, the main script and the user's attributes *)

Section Account.

Variable services : App.Services.

Lemma script_bind_run {A B} (m : App.Script A) (k : A -> App.Script B) (s : App.State) :
  App.bind m k s
  = match m s with
    | (s', App.Returned a) => k a s'
    | (s', App.Rerun) => (s', App.Rerun)
    | (s', App.Raised e) => (s', App.Raised e)
    end.
Proof. reflexivity. Qed.

Lemma update_run (f : App.SessionState -> App.SessionState) (s : App.State) :
  App.update f s
  = (App.mkState (App.trace s) (f (App.session_state s)) (App.files s), App.Returned tt).
Proof. reflexivity. Qed.

(** The loop of the two logouts deletes its five keys and nothing else. *)
Lemma clear_login_logged_out (ss : App.SessionState) : App.clear_login ss = logged_out ss.
Proof.
  destruct ss as [[a|] [t|] [i|] [r|] [u|] p tu ts c pr url d f]; reflexivity.
Qed.

Lemma initialise_keeps_login (ss : App.SessionState) :
  App.ss_authenticated (App.initialise ss) = App.ss_authenticated ss
  /\ App.ss_access_token (App.initialise ss) = App.ss_access_token ss
  /\ App.ss_user_info (App.initialise ss) = App.ss_user_info ss
  /\ App.ss_password_change_required (App.initialise ss)
     = App.ss_password_change_required ss
  /\ App.ss_temp_username (App.initialise ss) = App.ss_temp_username ss
  /\ App.ss_temp_session (App.initialise ss) = App.ss_temp_session ss
  /\ is_Some (App.ss_current_page (App.initialise ss)).
Proof.
  destruct ss as [a t i r u p tu ts [c|] [pr|] [url|] [d|] [f|]];
    repeat split; eexists; reflexivity.
Qed.

(** X18: the logout of the account tab is local to the session.  It
    deletes [authenticated], the three tokens and [user_info], sets the page to
    Upload and reruns; it calls no service, so that the tokens are not revoked
    at Cognito, and it leaves every other key, the processed results of the
    session among them, as it was. *)
Theorem logout_is_local (w : App.Widgets) (s : App.State)
    (user_info : App.UserInfoResult) (name : string) :
  App.ss_user_info (App.session_state s) = Some user_info ->
  App.username user_info = Some name ->
  App.logout_button w = true ->
  App.display_account_tab w s
  = (App.mkState (App.trace s)
       (App.set_current_page (Some "Upload") (logged_out (App.session_state s)))
       (App.files s),
     App.Rerun).
Proof.
  intros Hui Hname Hlogout.
  unfold App.display_account_tab, App.bind at 1, App.get_session_state.
  rewrite Hui. unfold App.bind at 1, App.lift_exn. rewrite Hname. cbn [getitem_key].
  rewrite Hlogout. unfold App.bind, App.update, App.st_rerun.
  cbn [App.trace App.session_state App.files]. rewrite clear_login_logged_out.
  reflexivity.
Qed.

(** Without a sign-in that Cognito still accepts, the run does not depend on
    the tabs. *)
Lemma main_without_tabs (w : App.Widgets) (s : App.State)
    (upload history upload' history' : App.Script unit) :
  App.flag (App.ss_authenticated (App.session_state s)) = false
  \/ (exists token e,
        App.ss_access_token (App.session_state s) = Some token
        /\ App.get_user services (App.trace s) token = inl e) ->
  App.main services upload history w s = App.main services upload' history' w s.
Proof.
  intros H.
  destruct (initialise_keeps_login (App.session_state s)) as (Ha & Ht & _).
  set (s0 := App.mkState (App.trace s) (App.initialise (App.session_state s))
               (App.files s)).
  assert (Hrun : forall up hist,
             App.main services up hist w s
             = if negb (App.flag (App.ss_authenticated (App.session_state s)))
               then App.display_login_page services w s0
               else match App.ss_access_token (App.session_state s) with
                    | Some token =>
                        App.bind
                          (App.st_error "Your session has expired. Please log in again.")
                          (fun _ => App.bind (App.update App.clear_login)
                                      (fun _ => App.display_login_page services w))
                          (App.log (App.GetUser token) s0)
                    | None => App.main services up hist w s
                    end).
  { intros up hist. unfold App.main.
    rewrite script_bind_run, update_run. cbv beta iota. fold s0.
    rewrite script_bind_run. unfold App.get_session_state at 1. cbv beta iota.
    cbn [App.session_state s0]. rewrite Ha.
    destruct (App.flag (App.ss_authenticated (App.session_state s))) eqn:Hflag;
      [|reflexivity].
    destruct H as [H | (token & e & Htoken & Hcall)]; [discriminate H|].
    cbn [negb]. rewrite Htoken, Ht, Htoken.
    rewrite script_bind_run. unfold App.total, App.verify_token. cbn [App.trace s0].
    rewrite Hcall. reflexivity. }
  rewrite (Hrun upload history), (Hrun upload' history').
  destruct (negb (App.flag (App.ss_authenticated (App.session_state s)))) eqn:Hflag;
    [reflexivity|].
  destruct H as [H | (token & e & Htoken & Hcall)].
  - rewrite H in Hflag. discriminate Hflag.
  - rewrite Htoken. reflexivity.
Qed.

(** X19: the tabs stay behind the sign-in.  For a session that is not
    authenticated, and for one whose access token Cognito no longer accepts,
    the run of [main] is the same whatever the upload tab and the history tab
    would do: neither is reached.  Conversely, in a consistent session the
    tabs can matter only when the session is authenticated and Cognito has
    accepted its access token in this run. *)
Theorem main_keeps_tabs_behind_sign_in (w : App.Widgets) (s : App.State)
    (upload history : App.Script unit) :
  (App.flag (App.ss_authenticated (App.session_state s)) = false
   \/ (exists token e,
         App.ss_access_token (App.session_state s) = Some token
         /\ App.get_user services (App.trace s) token = inl e) ->
   forall upload' history',
     App.main services upload history w s = App.main services upload' history' w s)
  /\ (session_consistent (App.session_state s) ->
      (forall upload' history',
         App.main services upload history w s = App.main services upload' history' w s)
      \/ exists token response,
           App.flag (App.ss_authenticated (App.session_state s)) = true
           /\ App.ss_access_token (App.session_state s) = Some token
           /\ App.get_user services (App.trace s) token = inr response).
Proof.
  split.
  - intros H upload' history'. apply main_without_tabs, H.
  - intros (Hauth & _).
    destruct (App.flag (App.ss_authenticated (App.session_state s))) eqn:Hflag.
    + destruct (Hauth eq_refl) as [token Htoken].
      destruct (App.get_user services (App.trace s) token) as [e|response] eqn:Hcall.
      * left. intros upload' history'. apply main_without_tabs.
        right. exists token, e. split; assumption.
      * right. exists token, response. split_and!; [reflexivity | assumption..].
    + left. intros upload' history'. apply main_without_tabs. left. exact Hflag.
Qed.

(** The dict of the user's attributes: for every name, the value of the
    last attribute of that name. *)
Lemma user_attrs_last (attrs : list App.AttributeType) (acc : gmap string string) :
  Forall well_formed_attribute attrs ->
  exists dict,
    App.user_attrs attrs acc = inr dict
    /\ forall name,
         dict !! name = match last (attribute_values name attrs) with
                        | Some v => Some v
                        | None => acc !! name
                        end.
Proof.
  intros Hwf. revert acc. induction Hwf as [|attr attrs [[n Hn] [v Hv]] _ IH]; intros acc.
  - exists acc. split; [reflexivity|]. intros name. reflexivity.
  - cbn [App.user_attrs]. rewrite Hv, Hn. cbn [getitem_key].
    destruct (IH (<[n := v]> acc)) as (dict & Hdict & Hlookup).
    exists dict. split; [exact Hdict|]. intros name. rewrite Hlookup.
    unfold attribute_values. cbn [omap list_omap]. rewrite Hn, Hv.
    fold (attribute_values name attrs).
    destruct (bool_decide_reflect (Some n = Some name)) as [[= ->]|Hne].
    + rewrite lookup_insert_eq, last_cons.
      destruct (last (attribute_values name attrs)); reflexivity.
    + rewrite lookup_insert_ne by congruence. reflexivity.
Qed.

(** X20: [get_user_info] keeps, for every attribute name, the value of
    the last attribute of that name in the response, and no other name: for a
    response with a user name whose attributes all have a name and a value.
    The role that [is_admin] reads is therefore the last [custom:role]. *)
Theorem get_user_info_last_attribute_wins (access_token : string) (s : App.State)
    (response : App.GetUserResponse) (name : string) (attrs : list App.AttributeType) :
  App.get_user services (App.trace s) access_token = inr response ->
  App.Username response = Some name ->
  App.UserAttributes response = Some attrs ->
  Forall well_formed_attribute attrs ->
  exists dict,
    (App.get_user_info services access_token s).2
    = App.mkUserInfoResult true (Some name) (Some dict) None
    /\ forall n, dict !! n = last (attribute_values n attrs).
Proof.
  intros Hcall Hname Hattrs Hwf.
  destruct (user_attrs_last attrs ∅ Hwf) as (dict & Hdict & Hlookup).
  exists dict. split.
  - unfold App.get_user_info. cbn [snd]. rewrite Hcall.
    unfold App.get_user_info_result. rewrite Hattrs. cbn [getitem_key].
    rewrite Hdict, Hname. reflexivity.
  - intros n. rewrite Hlookup, lookup_empty.
    destruct (last (attribute_values n attrs)); reflexivity.
Qed.

(** With a pending password change, a new password that passes the checks is
    sent first of all. *)
Lemma password_form_answers_challenge (w : App.Widgets) (s : App.State)
    (username session : string) :
  App.flag (App.ss_password_change_required (App.session_state s)) = true ->
  App.ss_temp_username (App.session_state s) = Some username ->
  App.ss_temp_session (App.session_state s) = Some session ->
  App.set_password_button w = true ->
  App.new_password_input w = App.confirm_password_input w ->
  8 <= String.length (App.new_password_input w) ->
  exists rest,
    new_events s (App.display_login_page services w s).1
    = password_info
      :: App.RespondToAuthChallenge session username (App.new_password_input w)
      :: rest.
Proof.
  intros Hpcr Hu Hsess Hset Hsame Hlen.
  destruct (App.display_login_page services w s) as [s2 out] eqn:Hrun.
  unfold App.display_login_page, App.bind at 1, App.get_session_state in Hrun.
  rewrite Hpcr, Hset in Hrun.
  unfold App.bind at 1, App.st_info, App.emit in Hrun.
  unfold App.bind at 1, App.set_password_form in Hrun.
  rewrite <- Hsame, String.eqb_refl in Hrun.
  assert (Hne : App.is_empty (App.new_password_input w) = false)
    by (destruct (App.new_password_input w); [simpl in Hlen; lia | reflexivity]).
  rewrite Hne in Hrun. cbn [orb negb] in Hrun.
  apply Nat.ltb_ge in Hlen. rewrite Hlen in Hrun.
  unfold App.bind at 1, App.get_session_state at 1 in Hrun.
  cbn [App.session_state App.log] in Hrun. rewrite Hu, Hsess in Hrun.
  page_cases Hrun.
  all: norm_events.
  all: eexists; reflexivity.
Qed.

(** X21: the two steps of a first sign-in.  When Cognito answers the
    credentials with the NEW_PASSWORD_REQUIRED challenge, the login page reruns
    without marking the session authenticated; at the next run, a new password
    that passes the checks of the form is sent with the Session of that
    challenge and the user name typed at the login. *)
Theorem temporary_password_flow (w w' : App.Widgets) (s : App.State)
    (response : App.AuthResponse) (session : string) :
  let username := App.username_input w in
  let password := App.password_input w in
  App.flag (App.ss_password_change_required (App.session_state s)) = false ->
  App.login_button w = true ->
  username <> "" ->
  password <> "" ->
  App.initiate_auth services (App.trace s) username password = inr response ->
  App.ChallengeName response = Some "NEW_PASSWORD_REQUIRED" ->
  App.Session response = Some session ->
  App.set_password_button w' = true ->
  App.new_password_input w' = App.confirm_password_input w' ->
  8 <= String.length (App.new_password_input w') ->
  exists s1,
    App.display_login_page services w s = (s1, App.Rerun)
    /\ App.ss_authenticated (App.session_state s1)
       = App.ss_authenticated (App.session_state s)
    /\ exists rest,
         new_events s1 (App.display_login_page services w' s1).1
         = password_info
           :: App.RespondToAuthChallenge session username (App.new_password_input w')
           :: rest.
Proof.
  intros username password Hpcr Hlogin Hu Hp Hauth Hch Hsess Hset Hsame Hlen.
  subst username password.
  assert (Hue : App.is_empty (App.username_input w) = false)
    by (destruct (App.username_input w); [contradiction | reflexivity]).
  assert (Hpe : App.is_empty (App.password_input w) = false)
    by (destruct (App.password_input w); [contradiction | reflexivity]).
  set (s1 := App.mkState
               (App.trace s
                ++ [App.InitiateAuth (App.username_input w) (App.password_input w)])
               (App.set_temp_session (Some session)
                  (App.set_temp_username (Some (App.username_input w))
                     (App.set_password_change_required (Some true)
                        (App.session_state s))))
               (App.files s)).
  exists s1. split; [|split].
  - unfold App.display_login_page, App.bind at 1, App.get_session_state.
    rewrite Hpcr, Hlogin. unfold App.login_form. rewrite Hue, Hpe.
    cbn [orb].
    unfold App.bind at 1, App.total at 1, App.authenticate_user.
    rewrite Hauth. unfold App.authenticate_user_result.
    rewrite bool_decide_eq_true_2 by exact Hch. rewrite Hsess. cbn. reflexivity.
  - reflexivity.
  - apply (password_form_answers_challenge w' s1 (App.username_input w) session);
      [reflexivity | reflexivity | reflexivity | assumption..].
Qed.

End Account.

(** ** The main script *)

Ltac run_main H :=
  unfold App.main, App.sidebar, App.display_account_tab, App.total, App.update,
    App.lift_exn, App.getattr, App.st_error, App.st_info, App.st_success, App.emit,
    App.get_session_state, App.verify_token, getitem_key, App.bind, App.ret, App.raise,
    App.st_rerun in H;
  cbn beta iota delta [fst snd App.session_state App.trace App.files App.log] in H.

Section Main.

Variable services : App.Services.

Lemma consistent_initialise (ss : App.SessionState) :
  session_consistent ss -> session_consistent (App.initialise ss).
Proof.
  destruct (initialise_keeps_login ss) as (Ha & Ht & Hu & Hp & Htu & Hts & _).
  unfold session_consistent. rewrite Ha, Ht, Hu, Hp, Htu, Hts. trivial.
Qed.

Lemma consistent_logged_out (ss : App.SessionState) :
  session_consistent ss -> session_consistent (logged_out ss).
Proof.
  intros (_ & Hpcr & _). unfold session_consistent. simpl.
  split_and!; [intros H; discriminate H | exact Hpcr | intros ui H; discriminate H].
Qed.

Lemma consistent_set_current_page (v : option string) (ss : App.SessionState) :
  session_consistent ss -> session_consistent (App.set_current_page v ss).
Proof. intros H. exact H. Qed.

(** X22: the main script keeps the session consistent and, from a
    consistent session, ends with no exception of its own: the reads of
    [current_page], of the access token and of the user name in the sidebar
    and in the account tab all find their key, on every path through the
    sign-in check, the token check, the sidebar and the tabs, as long as the
    upload tab and the history tab do the same. *)
Theorem main_keeps_session_consistent (upload history : App.Script unit) (w : App.Widgets) (s : App.State) :
  (forall s, session_consistent (App.session_state s) ->
             session_consistent (App.session_state (upload s).1)
             /\ forall e, (upload s).2 <> App.Raised e) ->
  (forall s, session_consistent (App.session_state s) ->
             session_consistent (App.session_state (history s).1)
             /\ forall e, (history s).2 <> App.Raised e) ->
  session_consistent (App.session_state s) ->
  session_consistent (App.session_state (App.main services upload history w s).1)
  /\ forall e, (App.main services upload history w s).2 <> App.Raised e.
Proof.
  intros Hupload Hhistory Hs.
  destruct (App.main services upload history w s) as [s' out] eqn:Hrun.
  run_main Hrun.
  apply consistent_initialise in Hs.
  destruct (initialise_keeps_login (App.session_state s)) as (_ & _ & _ & _ & _ & _ & Hpage).
  set (ss0 := App.initialise (App.session_state s)) in *. clearbody ss0.
  pose proof Hs as (Hauth & Hpcr & Hui).
  repeat (break_match Hrun;
          cbn beta iota delta [fst snd App.session_state App.trace App.files App.log] in Hrun;
          try discriminate Hrun).
  all: try (injection Hrun as <- <-).
  all: cbn [fst snd App.session_state].
  (* paths that a consistent session does not take *)
  all: try (exfalso; match goal with H : negb _ = _ |- _ => simpl in H; discriminate H end).
  all: try (exfalso; destruct Hpage as [? Hpage]; congruence).
  all: try (exfalso;
            match goal with
            | H : App.username ?u = None |- _ =>
                destruct (Hui u ltac:(first [eassumption | reflexivity])) as [? ?];
                congruence
            end).
  (* the login page and the tabs *)
  all: try (match goal with
            | H : App.display_login_page _ ?W ?X = (_, _) |- _ =>
                let H' := fresh in
                pose proof (display_login_page_spec services W X) as (_ & _ & H' & _);
                rewrite H in H'; apply H'; cbn [App.session_state];
                rewrite ?clear_login_logged_out; auto using consistent_logged_out
            | H : ?f ?X = (_, _) |- _ =>
                let H' := fresh in
                first [pose proof (Hupload X) as H'; rewrite H in H'
                      |pose proof (Hhistory X) as H'; rewrite H in H'];
                apply H'; exact Hs
            end; fail).
  all: try (split; [|intros e0 He0; discriminate He0]).
  all: rewrite ?clear_login_logged_out;
    auto using consistent_logged_out, consistent_set_current_page.
Qed.

End Main.

(** * Properties of the history *)

Section History.

Variable services : App.Services.

Lemma leb_false_le (a b : string) : String.leb a b = false -> String.le b a.
Proof.
  intros H. unfold String.le. destruct (String.leb_total a b) as [Hab | Hba].
  - rewrite Hab in H. discriminate H.
  - rewrite Hba. exact I.
Qed.

Lemma insert_newest_Permutation (d : App.Document) (l : list App.Document) :
  App.insert_newest d l ≡ₚ d :: l.
Proof.
  induction l as [|d' l IH]; [reflexivity|].
  cbn [App.insert_newest].
  destruct (String.leb (App.doc_timestamp d') (App.doc_timestamp d)); [reflexivity|].
  rewrite IH. apply Permutation_swap.
Qed.

Lemma insert_newest_sorted (d : App.Document) (l : list App.Document) :
  newest_first l -> newest_first (App.insert_newest d l).
Proof.
  induction l as [|d' l IH]; cbn [App.insert_newest newest_first].
  - intros _. split; [constructor | exact I].
  - intros [Hall Hsorted].
    destruct (String.leb (App.doc_timestamp d') (App.doc_timestamp d)) eqn:Hle;
      cbn [newest_first].
    + assert (Hd : String.le (App.doc_timestamp d') (App.doc_timestamp d))
        by (unfold String.le; rewrite Hle; exact I).
      split; [|split; assumption].
      constructor; [exact Hd|].
      eapply Forall_impl; [exact Hall|]. intros x Hx. cbn beta in Hx |- *.
      etransitivity; eassumption.
    + split; [|exact (IH Hsorted)].
      rewrite insert_newest_Permutation. constructor; [|exact Hall].
      apply leb_false_le, Hle.
Qed.

Lemma insert_newest_stamped (t : string) (d : App.Document) (l : list App.Document) :
  stamped t (App.insert_newest d l) = stamped t (d :: l).
Proof.
  induction l as [|d' l IH]; [reflexivity|].
  cbn [App.insert_newest].
  destruct (String.leb (App.doc_timestamp d') (App.doc_timestamp d)) eqn:Hle;
    [reflexivity|].
  unfold stamped in *. cbn [List.filter] in *. rewrite IH.
  destruct (String.eqb_spec (App.doc_timestamp d) t) as [Hd|Hd]; [|reflexivity].
  destruct (String.eqb_spec (App.doc_timestamp d') t) as [Hd'|Hd']; [|reflexivity].
  exfalso. rewrite Hd, Hd' in Hle.
  assert (Hrefl : String.le t t) by reflexivity.
  unfold String.le in Hrefl. rewrite Hle in Hrefl. exact Hrefl.
Qed.

Lemma sort_newest_first_spec (l : list App.Document) :
  App.sort_newest_first l ≡ₚ l
  /\ newest_first (App.sort_newest_first l)
  /\ forall t, stamped t (App.sort_newest_first l) = stamped t l.
Proof.
  induction l as [|d l (Hperm & Hsorted & Hstable)].
  - split; [reflexivity|]. split; [exact I | reflexivity].
  - cbn [App.sort_newest_first foldr]. fold (App.sort_newest_first l).
    split; [rewrite insert_newest_Permutation, Hperm; reflexivity|].
    split; [apply insert_newest_sorted, Hsorted|].
    intros t. rewrite insert_newest_stamped. unfold stamped in *. cbn [List.filter].
    rewrite Hstable. reflexivity.
Qed.

Lemma scan_filter_spec (ss : App.SessionState) :
  (App.scan_filter ss = None <->
   App.ss_user_info ss = None
   \/ exists user_info dict,
        App.ss_user_info ss = Some user_info
        /\ App.attributes user_info = Some dict
        /\ dict !! "custom:role" = Some "admin")
  /\ (forall u, App.scan_filter ss = Some u ->
                exists user_info,
                  App.ss_user_info ss = Some user_info /\ App.username user_info = u).
Proof.
  unfold App.scan_filter, App.is_admin.
  destruct (App.ss_user_info ss) as [ui|].
  - split.
    + destruct (App.attributes ui) as [dict|] eqn:Hattr; cbn [default from_option id].
      * destruct (bool_decide_reflect (dict !! "custom:role" = Some "admin"))
          as [Hrole|Hrole].
        -- split; [intros _; right; exists ui, dict; auto | reflexivity].
        -- split; [intros H; discriminate H|].
           intros [H | (ui' & dict' & [= <-] & Hattr' & Hrole')]; [discriminate H|].
           rewrite Hattr in Hattr'. injection Hattr' as <-. contradiction.
      * rewrite lookup_empty. rewrite bool_decide_eq_false_2 by discriminate.
        split; [intros H; discriminate H|].
        intros [H | (ui' & dict' & [= <-] & Hattr' & _)]; [discriminate H|].
        rewrite Hattr in Hattr'. discriminate Hattr'.
    + intros u. destruct (bool_decide _); intros [= <-]. exists ui. auto.
  - split; [split; [intros _; left; reflexivity | reflexivity]|].
    intros u H. discriminate H.
Qed.

(** X23: [get_document_history] never raises and scans once.  The
    scan is of the whole table exactly for a session without user information
    and for a user whose [custom:role] is [admin]; every other session scans
    with the filter on its own user name.  A scan that fails gives the empty
    list and one error message. *)
Theorem history_scans_for_the_user (s : App.State) :
  exists (filter : option (option string)) (msgs : list App.event),
    (App.get_document_history services s).1
    = App.mkState (App.trace s ++ App.Scan filter :: msgs) (App.session_state s)
        (App.files s)
    /\ (filter = None <->
        App.ss_user_info (App.session_state s) = None
        \/ exists user_info dict,
             App.ss_user_info (App.session_state s) = Some user_info
             /\ App.attributes user_info = Some dict
             /\ dict !! "custom:role" = Some "admin")
    /\ (forall u, filter = Some u ->
                  exists user_info,
                    App.ss_user_info (App.session_state s) = Some user_info
                    /\ App.username user_info = u)
    /\ match App.scan services (App.trace s) filter with
       | inl e =>
           msgs = [App.StError ("Failed to retrieve document history: " +:+ str_exn e)]
           /\ (App.get_document_history services s).2 = []
       | inr _ => msgs = []
       end.
Proof.
  exists (App.scan_filter (App.session_state s)).
  destruct (scan_filter_spec (App.session_state s)) as [Hnone Hsome].
  unfold App.get_document_history.
  destruct (App.scan services (App.trace s) (App.scan_filter (App.session_state s)))
    as [e|response] eqn:Hscan.
  - exists [App.StError ("Failed to retrieve document history: " +:+ str_exn e)].
    unfold App.log. cbn [fst snd App.trace App.session_state App.files].
    rewrite <- app_assoc. split; [reflexivity|].
    split; [exact Hnone|]. split; [exact Hsome|]. split; reflexivity.
  - exists []. unfold App.log. cbn [fst snd App.trace App.session_state App.files].
    split; [reflexivity|].
    split; [exact Hnone|]. split; [exact Hsome | reflexivity].
Qed.

(** X24: the history is the response, newest first.  When the scan
    returns, every item of the response gives one document, whatever
    attributes it lacks; no document is followed by a newer one; and
    documents of one timestamp keep the order of the response. *)
Theorem history_is_sorted_newest_first (s : App.State) (response : App.ScanResponse) :
  App.scan services (App.trace s) (App.scan_filter (App.session_state s)) = inr response ->
  let items := default [] (App.Items response) in
  let documents := (App.get_document_history services s).2 in
  documents ≡ₚ App.document services <$> items
  /\ newest_first documents
  /\ forall t, stamped t documents = stamped t (App.document services <$> items).
Proof.
  intros Hscan items documents. subst items documents.
  unfold App.get_document_history. rewrite Hscan. cbn [snd].
  apply sort_newest_first_spec.
Qed.

(** X25: what [update_document_status] writes is what the history
    shows.  The item of a status write, in its DynamoDB form, is read back as
    a document with the same file name, URL, status, timestamp and document
    id; its user name is the one written, or ["unknown"] for an item written
    without user information; its metadata is what [json.loads] makes of the
    text written, or the empty dict when that text cannot be read. *)
Theorem written_item_is_read_back (json_dumps : Metadata -> string) (item : Item) :
  App.document services (dynamodb_item json_dumps item)
  = App.mkDocument (item_file_name item) (item_s3_url item)
      (status_name (item_status item)) (item_timestamp item) (item_document_id item)
      (default "unknown" (item_username item))
      (match item_metadata item with
       | Some m => Some (default (App.JObject []) (App.json_loads services (json_dumps m)))
       | None => None
       end).
Proof.
  unfold App.document, App.get_S, dynamodb_item.
  destruct (item_username item) as [u|], (item_metadata item) as [m|];
    repeat (rewrite ?lookup_insert_eq, ?lookup_empty;
            try (rewrite lookup_insert_ne by discriminate));
    reflexivity.
Qed.

End History.

(** * Properties of the upload *)

Section Upload.

Variable services : App.Services.

Lemma replace_spaces_length (name : string) :
  String.length (App.replace_spaces name) = String.length name.
Proof. induction name as [|c name IH]; [reflexivity|]. simpl. rewrite IH. reflexivity. Qed.

Lemma replace_spaces_no_space (name : string) :
  PyStr.contains (String App.space EmptyString) (App.replace_spaces name) = false.
Proof.
  induction name as [|c name IH]; [reflexivity|].
  cbn [App.replace_spaces PyStr.contains]. rewrite IH, orb_false_r.
  cbn [String.prefix].
  destruct (Ascii.eqb_spec c App.space) as [->|Hc].
  - reflexivity.
  - destruct (Ascii.ascii_dec App.space c) as [Heq|_]; [|reflexivity].
    symmetry in Heq. contradiction.
Qed.

Lemma replace_spaces_id (name : string) :
  PyStr.contains (String App.space EmptyString) name = false ->
  App.replace_spaces name = name.
Proof.
  induction name as [|c name IH]; [reflexivity|].
  cbn [App.replace_spaces PyStr.contains String.prefix]. intros Hnone.
  apply orb_false_elim in Hnone as [Hc Hrest].
  destruct (Ascii.eqb_spec c App.space) as [->|Hne].
  - exfalso. destruct (Ascii.ascii_dec App.space App.space) as [_|Hn]; [|contradiction].
    destruct name; discriminate Hc.
  - f_equal. apply IH, Hrest.
Qed.

(** X26: the upload leaves no temporary file behind.  Once the
    temporary file is written, it is removed on both ways out: after an
    accepted upload, which returns the URL of the object named after the file
    with its spaces replaced, in the bucket of the environment or the default
    one; and after a refused upload, which shows the error and returns
    [None].  One upload is attempted, and the session is not touched. *)
Theorem upload_removes_temporary_file (file_name path : string) (s : App.State) :
  let bucket := default "new-rfi-s3-bucket" (App.DOCUMENT_BUCKET services) in
  let key := App.replace_spaces file_name in
  let written := [App.NamedTemporaryFile; App.TmpWrite path] in
  App.named_temporary_file services (App.trace s) = inr path ->
  path ∉ App.files s ->
  App.tmp_write services (App.trace s ++ [App.NamedTemporaryFile]) path = None ->
  App.upload_to_s3 services file_name s
  = match App.upload_file services (App.trace s ++ written) path bucket key with
    | None =>
        (App.mkState
           (App.trace s ++ written ++ [App.UploadFile path bucket key; App.Unlink path])
           (App.session_state s) (App.files s),
         App.Returned (Some ("s3://" +:+ bucket +:+ "/" +:+ key)))
    | Some e =>
        (App.mkState
           (App.trace s ++ written
            ++ [App.UploadFile path bucket key;
                App.StError ("Failed to upload to S3: " +:+ str_exn e);
                App.Unlink path])
           (App.session_state s) (App.files s),
         App.Returned None)
    end.
Proof.
  intros bucket key written Htmp Hfresh Hwrite. subst bucket key written.
  assert (Hfiles : ({[path]} ∪ App.files s) ∖ {[path]} = App.files s).
  { apply set_eq. intros x. rewrite elem_of_difference, elem_of_union, elem_of_singleton.
    split.
    - intros [[Hx | Hx] Hne]; [contradiction | exact Hx].
    - intros Hx. split; [right; exact Hx|]. intros ->. contradiction. }
  assert (Hin : path ∈ ({[path]} ∪ App.files s : gset string))
    by (apply elem_of_union_l, elem_of_singleton; reflexivity).
  unfold App.upload_to_s3.
  rewrite script_bind_run. unfold App.new_temporary_file at 1. rewrite Htmp.
  rewrite script_bind_run. unfold App.write_tmp at 1.
  cbn [App.trace App.log App.session_state App.files]. rewrite Hwrite.
  unfold App.try_except. rewrite script_bind_run. unfold App.s3_upload_file at 1.
  unfold App.log. cbn [App.trace App.session_state App.files].
  rewrite <- app_assoc. cbn [app].
  destruct (App.upload_file services _ path _ _) as [e|].
  - rewrite script_bind_run. unfold App.st_error, App.emit, App.log.
    cbn [App.trace App.session_state App.files].
    rewrite script_bind_run. unfold App.unlink at 1.
    cbn [App.trace App.session_state App.files].
    rewrite bool_decide_eq_true_2 by exact Hin. rewrite Hfiles.
    unfold App.ret. rewrite <- !app_assoc. reflexivity.
  - rewrite script_bind_run. unfold App.unlink at 1.
    cbn [App.trace App.session_state App.files].
    rewrite bool_decide_eq_true_2 by exact Hin. rewrite Hfiles.
    unfold App.ret. rewrite <- !app_assoc. reflexivity.
Qed.

(** X27: a temporary file that cannot be written stays.  When the
    write fails, the exception leaves [upload_to_s3], which has no handler
    around the write: no upload is attempted, no message is shown, and the
    file that was created is not removed. *)
Theorem upload_leaves_file_when_write_fails (file_name path : string) (s : App.State)
    (e : exn) :
  App.named_temporary_file services (App.trace s) = inr path ->
  App.tmp_write services (App.trace s ++ [App.NamedTemporaryFile]) path = Some e ->
  App.upload_to_s3 services file_name s
  = (App.mkState (App.trace s ++ [App.NamedTemporaryFile; App.TmpWrite path])
       (App.session_state s) ({[path]} ∪ App.files s),
     App.Raised e).
Proof.
  intros Htmp Hwrite. unfold App.upload_to_s3.
  rewrite script_bind_run. unfold App.new_temporary_file at 1. rewrite Htmp.
  rewrite script_bind_run. unfold App.write_tmp at 1.
  cbn [App.trace App.log App.session_state App.files]. rewrite Hwrite.
  unfold App.log. cbn [App.trace App.session_state App.files].
  rewrite <- app_assoc. reflexivity.
Qed.

(** X28: the object key.  Whatever is uploaded goes to the bucket of
    the environment, or the default one, under a key that has no space and
    the length of the file name: the name itself when it has no space. *)
Theorem upload_key_has_no_space (file_name path bucket key : string) (s : App.State) :
  App.UploadFile path bucket key
    ∈ new_events s (App.upload_to_s3 services file_name s).1 ->
  bucket = default "new-rfi-s3-bucket" (App.DOCUMENT_BUCKET services)
  /\ key = App.replace_spaces file_name
  /\ PyStr.contains (String App.space EmptyString) key = false
  /\ String.length key = String.length file_name
  /\ (PyStr.contains (String App.space EmptyString) file_name = false -> key = file_name).
Proof.
  intros Hin.
  assert (Hkey : bucket = default "new-rfi-s3-bucket" (App.DOCUMENT_BUCKET services)
                 /\ key = App.replace_spaces file_name).
  { destruct (App.upload_to_s3 services file_name s) as [s' out] eqn:Hrun.
    unfold App.upload_to_s3, App.try_except, App.new_temporary_file, App.write_tmp,
      App.s3_upload_file, App.unlink, App.st_error, App.emit, App.bind, App.ret in Hrun.
    cbn beta iota delta [fst snd App.session_state App.trace App.files App.log] in Hrun.
    repeat (break_match Hrun;
            cbn beta iota delta [fst snd App.session_state App.trace App.files App.log]
              in Hrun;
            try discriminate Hrun).
    all: injection Hrun as <- <-.
    all: revert Hin; norm_events; intros Hin.
    all: decompose_list_elem_of; try discriminate.
    all: match goal with
         | H : App.UploadFile _ _ _ = App.UploadFile _ _ _ |- _ => injection H as -> -> ->
         end; split; reflexivity. }
  destruct Hkey as [-> ->].
  split; [reflexivity|]. split; [reflexivity|].
  split; [apply replace_spaces_no_space|]. split; [apply replace_spaces_length|].
  apply replace_spaces_id.
Qed.

End Upload.

(** * The results on the page and in the export *)

Lemma expander_bodies_results (results : list Answer) (h : nat -> Answer -> string) :
  expander_bodies (imap (fun i result => Expander (h i result) (result_body result)) results)
  = map result_body results.
Proof.
  revert h. induction results as [|r results IH]; intros h; [reflexivity|].
  rewrite imap_cons. cbn [expander_bodies omap list_omap map].
  f_equal. exact (IH (fun i => h (S i))).
Qed.

Lemma shows_source_result_body (result : Answer) :
  shows_source (result_body result) = has_source result.
Proof.
  unfold result_body, has_source, shows_source.
  destruct (negb (PyStr.is_blank (answer result))); cbn [app existsb orb];
    (destruct (metadata result) as [m|]; [|reflexivity]);
    destruct (negb (PyStr.is_blank m)); reflexivity.
Qed.

Lemma count_if_map {A B} (f : A -> B) (P : B -> bool) (l : list A) :
  count_if P (map f l) = count_if (fun x => P (f x)) l.
Proof.
  induction l as [|x l IH]; [reflexivity|].
  cbn [map]. rewrite !count_if_cons, IH. reflexivity.
Qed.

Lemma count_if_ext {A} (P Q : A -> bool) (l : list A) :
  (forall x, P x = Q x) -> count_if P l = count_if Q l.
Proof.
  intros H. induction l as [|x l IH]; [reflexivity|].
  rewrite !count_if_cons, IH, H. reflexivity.
Qed.

(** X29: the page and the export show the same sources.  The page
    has one expander for each result, in the order of the results, and none
    when the session has no results or an empty list; an expander shows a
    source exactly when the citation of its record is not blank, so that the
    sources on the page are as many as the "Source:" headings of the
    export. *)
Theorem page_and_export_show_the_same_sources (current_time : string)
    (results : list Answer) :
  let page := display_results (Some results) in
  display_results None = []
  /\ length (expander_bodies page) = length results
  /\ map shows_source (expander_bodies page) = map has_source results
  /\ count_if shows_source (expander_bodies page)
     = count_if is_source_heading (create_word_document current_time results).
Proof.
  intros page. subst page.
  assert (Hbodies : expander_bodies (display_results (Some results))
                    = map result_body results).
  { destruct results as [|r results]; [reflexivity|].
    unfold display_results.
    change (expander_bodies (Subheader ?t :: ?l)) with (expander_bodies l).
    apply expander_bodies_results. }
  rewrite Hbodies.
  destruct (create_word_document_layout current_time results) as (_ & -> & _).
  split; [reflexivity|]. split; [apply length_map|].
  split.
  - rewrite map_map. apply map_ext. intros r. apply shows_source_result_body.
  - rewrite count_if_map. apply count_if_ext. intros r. apply shows_source_result_body.
Qed.

(** * The further properties on the sample worlds *)

(** X2 on an output that is one question without a blank line. *)
Lemma get_answer_without_blank_line_witness :
  get_answer World.answering World.DEADLINE World.start = (World.start, inr []).
Proof.
  apply (get_answer_without_blank_line World.answering World.DEADLINE World.start).
  vm_compute. reflexivity.
Defined.

(** X3 on a response without citation and on one whose source is not
    in S3. *)
Lemma get_answer_loses_uncitable_answer_witness :
  resolve_question Edge.uncited World.DEADLINE World.start
  = (extend World.start
       [RetrieveAndGenerate (retrieve_request Edge.uncited World.DEADLINE);
        StError ("Error during API call: " +:+ "list index out of range")],
     inr (mkAnswer World.DEADLINE "Error: Unable to process the question." (Some " ")))
  /\ resolve_question Edge.unlocated World.DEADLINE World.start
     = (extend World.start
          [RetrieveAndGenerate (retrieve_request Edge.unlocated World.DEADLINE);
           StError ("Error during API call: " +:+ "'s3Location'")],
        inr (mkAnswer World.DEADLINE "Error: Unable to process the question." (Some " "))).
Proof.
  split.
  - apply (get_answer_loses_uncitable_answer Edge.uncited World.DEADLINE World.start
             Edge.uncited_response); reflexivity.
  - apply (proj2 (get_answer_loses_uncitable_answer Edge.unlocated World.DEADLINE
                    World.start Edge.unlocated_response eq_refl eq_refl)
             (mkCitation [mkRetrievedReference (mkLocation None)]) []
             (mkRetrievedReference (mkLocation None)) []);
      reflexivity.
Defined.

(** X5 on a two-chunk walk whose first response is an image. *)
Lemma chunk_loop_stops_at_unreadable_response_witness :
  chunk_loop Edge.unreadable 2 [World.chunk; World.chunk] [] 0 World.start
  = (extend World.start [InvokeModel (model_request World.chunk)],
     inl (KeyError "text")).
Proof.
  apply (chunk_loop_stops_at_unreadable_response Edge.unreadable World.chunk
           [World.chunk] 2 [] 0 World.start Edge.image_result
           (mkContentBlock "image" None) []);
    reflexivity.
Defined.

(** X6 on a response without blocks and on one that starts with the
    marker. *)
Lemma chunk_without_questions_costs_no_retrieval_witness :
  chunk_answers Edge.silent World.chunk World.start
  = (extend World.start [InvokeModel (model_request World.chunk)], inr [])
  /\ chunk_answers World.no_questions World.chunk World.start
     = (extend World.start [InvokeModel (model_request World.chunk)], inr []).
Proof.
  split.
  - apply (chunk_without_questions_costs_no_retrieval Edge.silent World.chunk World.start
             (mkModelResult None)); [reflexivity|].
    left. reflexivity.
  - apply (chunk_without_questions_costs_no_retrieval World.no_questions World.chunk
             World.start
             (mkModelResult
                (Some [World.text_block "Unfortunately, the document holds no questions.";
                       World.text_block World.DEADLINE]))); [reflexivity|].
    right. exists (World.text_block "Unfortunately, the document holds no questions."),
      [World.text_block World.DEADLINE],
      "Unfortunately, the document holds no questions.".
    split; [reflexivity|]. split; [reflexivity|]. left. reflexivity.
Defined.

(** X8 on a table that holds an earlier document. *)
Lemma run_leaves_other_documents_witness :
  table (display_upload_tab World.answering "rfi.pdf" "doc-1" (Some World.docurl)
           Edge.earlier).1 !! "doc-0"
  = Some Edge.earlier_item.
Proof.
  rewrite (run_leaves_other_documents World.answering "rfi.pdf" "doc-1" World.docurl
             "doc-0" Edge.earlier).
  - reflexivity.
  - intros H. discriminate H.
Defined.

(** X9 on the retrieval service that is down at the first call. *)
Lemma run_completes_whatever_retrieval_does_witness :
  statuses_written
    (trace (run_chunk_document World.retrieval_down process_message World.docurl "doc-1"
              World.start).1)
  = [PROCESSING; COMPLETED].
Proof.
  apply (run_completes_whatever_retrieval_does World.retrieval_down World.docurl "doc-1"
           World.start).
  - intros h. exists World.chunk, (token_windows 1000 0 World.chunk).
    split; reflexivity.
  - intros h c. exists (mkModelResult (Some [World.text_block World.questions_text])),
      (Some World.questions_text).
    split; reflexivity.
Defined.

(** * The properties of the pages on the sample sessions *)

Lemma anonymous_consistent : session_consistent Desk.anonymous.
Proof.
  unfold session_consistent. split_and!.
  - intros H. discriminate H.
  - intros H. discriminate H.
  - intros user_info H. discriminate H.
Qed.

(** X13 on a login with the permanent password. *)
Lemma login_sends_what_was_typed_witness :
  sent_by_login (Desk.typing "alice" "Correct#2024") Desk.anonymous "alice" "Correct#2024".
Proof.
  apply (login_sends_what_was_typed Desk.cognito (Desk.typing "alice" "Correct#2024")
           Desk.fresh "alice" "Correct#2024").
  vm_compute. apply list_elem_of_here.
Defined.

(** X14 on a pending password change. *)
Lemma password_form_sends_checked_password_witness :
  sent_by_password_form (Desk.choosing "Fresh#2024") (App.session_state Desk.pending)
    "session-1" "alice" "Fresh#2024".
Proof.
  apply (password_form_sends_checked_password Desk.cognito (Desk.choosing "Fresh#2024")
           Desk.pending "session-1" "alice" "Fresh#2024").
  vm_compute. apply list_elem_of_further, list_elem_of_here.
Defined.

(** X15 on a login with the permanent password. *)
Lemma login_page_keeps_session_consistent_witness :
  session_consistent
    (App.session_state
       (App.display_login_page Desk.cognito (Desk.typing "alice" "Correct#2024")
          Desk.fresh).1)
  /\ forall e,
       (App.display_login_page Desk.cognito (Desk.typing "alice" "Correct#2024")
          Desk.fresh).2 <> App.Raised e.
Proof.
  apply (login_page_keeps_session_consistent Desk.cognito
           (Desk.typing "alice" "Correct#2024") Desk.fresh).
  exact anonymous_consistent.
Defined.

(** X16 on the same login. *)
Lemma sign_in_needs_cognito_tokens_witness :
  exists response,
    holds_tokens_of
      (App.session_state
         (App.display_login_page Desk.cognito (Desk.typing "alice" "Correct#2024")
            Desk.fresh).1)
      response
    /\ (App.initiate_auth Desk.cognito [] "alice" "Correct#2024" = inr response
        \/ exists username session,
             App.ss_temp_username Desk.anonymous = Some username
             /\ App.ss_temp_session Desk.anonymous = Some session
             /\ App.respond_to_auth_challenge Desk.cognito ([] ++ [password_info]) session
                  username "" = inr response).
Proof.
  apply (sign_in_needs_cognito_tokens Desk.cognito (Desk.typing "alice" "Correct#2024")
           Desk.fresh).
  - vm_compute. reflexivity.
  - vm_compute. reflexivity.
Defined.

(** X17 on the services that cannot read the user. *)
Lemma login_survives_missing_user_info_witness :
  App.display_login_page Desk.unreadable_user (Desk.typing "alice" "Correct#2024")
    Desk.fresh
  = (App.mkState
       ([] ++ [App.InitiateAuth "alice" "Correct#2024"; App.GetUser "access-1";
               App.StError ("Error retrieving user information: " +:+ "Try again")])
       (App.set_refresh_token (Some "refresh-1")
          (App.set_id_token (Some "id-1")
             (App.set_access_token (Some "access-1")
                (App.set_authenticated (Some true) Desk.anonymous))))
       ∅,
     App.Returned tt).
Proof.
  apply (login_survives_missing_user_info Desk.unreadable_user
           (Desk.typing "alice" "Correct#2024") Desk.fresh Desk.accepted
           "id-1" "access-1" "refresh-1" 3600%Z
           (App.OtherError (OtherException "InternalErrorException" "Try again"))).
  - reflexivity.
  - reflexivity.
  - intros H. discriminate H.
  - intros H. discriminate H.
  - reflexivity.
  - intros H. discriminate H.
  - reflexivity.
  - reflexivity.
Defined.

(** X18 on the signed-in session. *)
Lemma logout_is_local_witness :
  App.display_account_tab Desk.leaving Desk.signed_in
  = (App.mkState []
       (App.set_current_page (Some "Upload")
          (logged_out (App.session_state Desk.signed_in)))
       ∅,
     App.Rerun).
Proof.
  apply (logout_is_local Desk.leaving Desk.signed_in Desk.alice_info "alice");
    reflexivity.
Defined.

(** X19 on a session that is not signed in, with two pairs of tabs. *)
Lemma main_keeps_tabs_behind_sign_in_witness :
  App.main Desk.cognito (App.ret tt) (App.ret tt) Desk.idle Desk.fresh
  = App.main Desk.cognito (App.st_error "upload") (App.st_error "history") Desk.idle
      Desk.fresh.
Proof.
  apply (proj1 (main_keeps_tabs_behind_sign_in Desk.cognito Desk.idle Desk.fresh
                  (App.ret tt) (App.ret tt))).
  left. reflexivity.
Defined.

(** X20 on alice, whose response names the role twice. *)
Lemma get_user_info_last_attribute_wins_witness :
  exists dict,
    (App.get_user_info Desk.cognito "access-1" Desk.fresh).2
    = App.mkUserInfoResult true (Some "alice") (Some dict) None
    /\ forall n, dict !! n = last (attribute_values n Desk.alice_attributes).
Proof.
  apply (get_user_info_last_attribute_wins Desk.cognito "access-1" Desk.fresh Desk.alice
           "alice" Desk.alice_attributes).
  - reflexivity.
  - reflexivity.
  - reflexivity.
  - repeat constructor; eexists; reflexivity.
Defined.

(** X21 on a login with the temporary password. *)
Lemma temporary_password_flow_witness :
  exists s1,
    App.display_login_page Desk.cognito (Desk.typing "alice" "Temp#2024") Desk.fresh
    = (s1, App.Rerun)
    /\ App.ss_authenticated (App.session_state s1) = None
    /\ exists rest,
         new_events s1
           (App.display_login_page Desk.cognito (Desk.choosing "Fresh#2024") s1).1
         = password_info
           :: App.RespondToAuthChallenge "session-1" "alice" "Fresh#2024" :: rest.
Proof.
  apply (temporary_password_flow Desk.cognito (Desk.typing "alice" "Temp#2024")
           (Desk.choosing "Fresh#2024") Desk.fresh Desk.challenge "session-1").
  - reflexivity.
  - reflexivity.
  - intros H. discriminate H.
  - intros H. discriminate H.
  - reflexivity.
  - reflexivity.
  - reflexivity.
  - reflexivity.
  - reflexivity.
  - simpl. lia.
Defined.

(** X22 on the signed-in session, with tabs that do nothing. *)
Lemma main_keeps_session_consistent_witness :
  session_consistent
    (App.session_state
       (App.main Desk.cognito (App.ret tt) (App.ret tt) Desk.leaving Desk.signed_in).1)
  /\ forall e,
       (App.main Desk.cognito (App.ret tt) (App.ret tt) Desk.leaving Desk.signed_in).2
       <> App.Raised e.
Proof.
  apply (main_keeps_session_consistent Desk.cognito (App.ret tt) (App.ret tt)
           Desk.leaving Desk.signed_in).
  - intros s Hs. split; [exact Hs | intros e H; discriminate H].
  - intros s Hs. split; [exact Hs | intros e H; discriminate H].
  - unfold session_consistent. split_and!.
    + intros _. eexists. reflexivity.
    + intros H. discriminate H.
    + intros user_info [= <-]. eexists. reflexivity.
Defined.

(** X24 on the scan of two items. *)
Lemma history_is_sorted_newest_first_witness :
  let items := [Desk.bare_item; dynamodb_item (fun _ => "{}") Edge.earlier_item] in
  let documents := (App.get_document_history Desk.cognito Desk.signed_in).2 in
  documents ≡ₚ App.document Desk.cognito <$> items
  /\ newest_first documents
  /\ forall t, stamped t documents = stamped t (App.document Desk.cognito <$> items).
Proof.
  apply (history_is_sorted_newest_first Desk.cognito Desk.signed_in Desk.scanned).
  reflexivity.
Defined.

(** X26 on an upload that S3 accepts. *)
Lemma upload_removes_temporary_file_witness :
  App.upload_to_s3 Desk.cognito "rfi final.pdf" Desk.fresh
  = (App.mkState
       ([] ++ [App.NamedTemporaryFile; App.TmpWrite "/tmp/tmpk3x9"]
        ++ [App.UploadFile "/tmp/tmpk3x9" "new-rfi-s3-bucket"
              (App.replace_spaces "rfi final.pdf");
            App.Unlink "/tmp/tmpk3x9"])
       Desk.anonymous ∅,
     App.Returned (Some ("s3://" +:+ "new-rfi-s3-bucket" +:+ "/"
                         +:+ App.replace_spaces "rfi final.pdf"))).
Proof.
  apply (upload_removes_temporary_file Desk.cognito "rfi final.pdf" "/tmp/tmpk3x9"
           Desk.fresh).
  - reflexivity.
  - apply not_elem_of_empty.
  - reflexivity.
Defined.

(** X27 on the full disk. *)
Lemma upload_leaves_file_when_write_fails_witness :
  App.upload_to_s3 Desk.full_disk "rfi final.pdf" Desk.fresh
  = (App.mkState ([] ++ [App.NamedTemporaryFile; App.TmpWrite "/tmp/tmpk3x9"])
       Desk.anonymous ({["/tmp/tmpk3x9"]} ∪ ∅),
     App.Raised (OtherException "OSError" "No space left on device")).
Proof.
  apply (upload_leaves_file_when_write_fails Desk.full_disk "rfi final.pdf"
           "/tmp/tmpk3x9" Desk.fresh
           (OtherException "OSError" "No space left on device"));
    reflexivity.
Defined.

(** X28 on the same upload as X26. *)
Lemma upload_key_has_no_space_witness :
  "new-rfi-s3-bucket" = default "new-rfi-s3-bucket" (App.DOCUMENT_BUCKET Desk.cognito)
  /\ "rfi_final.pdf" = App.replace_spaces "rfi final.pdf"
  /\ PyStr.contains (String App.space EmptyString) "rfi_final.pdf" = false
  /\ String.length "rfi_final.pdf" = String.length "rfi final.pdf"
  /\ (PyStr.contains (String App.space EmptyString) "rfi final.pdf" = false ->
      "rfi_final.pdf" = "rfi final.pdf").
Proof.
  apply (upload_key_has_no_space Desk.cognito "rfi final.pdf" "/tmp/tmpk3x9"
           "new-rfi-s3-bucket" "rfi_final.pdf" Desk.fresh).
  vm_compute. apply list_elem_of_further, list_elem_of_further, list_elem_of_here.
Defined.
